(** * Billing and inventory ledger of the clinic management system

    A shallow embedding of [billing/models.py], [billing/signals.py],
    [billing/forms.py] and [billing/views.py]: the relational store is a
    record of tables, model methods and signal receivers are functions on
    that store, and the properties of the ledger (conservation of quantity
    and value, credit balances, status derivation, nested-return discovery,
    atomic stock receipt) are stated over them and proved, or refuted on a
    concrete store.

    Conventions.
    - Money columns are [DecimalField(decimal_places=2)]: an amount is the
      integer number of hundredths (cents) in [Z]; percentages with two
      decimals are hundredths of a percent.  Products of an integer
      quantity and such an amount are exact, so [quantize(Decimal('0.01'))]
      is the identity on them.
    - A table is the list of its rows and a queryset is a [filter] over it.
      The [ordering] of a model's [Meta] is not modelled: no property
      below depends on the order in which a queryset yields its rows.
    - Time is an input: [now] is [timezone.now()], [today] its date.
    - Columns that no method below reads (names, notes, contact data) are
      left out of the rows.
    - A model instance whose class branches on [self.pk] (or whose receivers
      branch on [created]) carries [option Z] as primary key: [None] is an
      instance that has not been saved yet. *)

From Stdlib Require Import ZArith List Bool Lia String Ascii.
Import ListNotations.
Open Scope Z_scope.

(** ** Small utilities *)

Definition sumZ (l : list Z) : Z := fold_right Z.add 0 l.

Definition memZ (k : Z) (l : list Z) : bool := existsb (Z.eqb k) l.

Definition is_empty {A : Type} (l : list A) : bool :=
  match l with [] => true | _ :: _ => false end.

Definition opt_is (o : option Z) (k : Z) : bool :=
  match o with Some j => j =? k | None => false end.

Definition opt_list (o : option Z) : list Z :=
  match o with Some j => [j] | None => [] end.

(** Primary keys are allocated above every key already in the table. *)
Definition next_pk (pks : list Z) : Z := 1 + fold_right Z.max 0 pks.

(** [str.strip()] leaves nothing: every character is ASCII white space. *)
Definition is_space (c : ascii) : bool :=
  let n := N_of_ascii c in
  (((9 <=? n) && (n <=? 13)) || ((28 <=? n) && (n <=? 32)))%N.

Definition is_blank (s : string) : bool :=
  forallb is_space (list_ascii_of_string s).

(** [DecimalValidator(max_digits, decimal_places)] on a value held as an
    integer number of units of [10^-decimal_places]. *)
Definition fits_digits (max_digits : Z) (v : Z) : bool :=
  Z.abs v <? 10 ^ max_digits.

(** [Decimal.quantize] in the default context rounds half to even; the
    value is the exact rational [num / den] with [den > 0]. *)
Definition round_half_even (num den : Z) : Z :=
  let f := num / den in
  let r := num mod den in
  if 2 * r <? den then f
  else if den <? 2 * r then f + 1
  else if Z.even f then f else f + 1.

(** ** Exceptions and the store monad *)

Inductive Error : Type :=
  | ValidationError
  | Http404
  | AttributeError
  | ValueError
  | DoesNotExist.

Inductive result (A : Type) : Type :=
  | Ok (a : A)
  | Raise (e : Error).
Arguments Ok {A} a.
Arguments Raise {A} e.

(** ** Rows *)

Inductive Source : Type := PURCHASE_ORDER | REPLACEMENT | MANUAL_ADDITION.

Inductive POStatus : Type :=
  | PO_PENDING | PO_PARTIALLY_RECEIVED | PO_COMPLETED | PO_CANCELLED.

Inductive ReturnStatus : Type :=
  | RET_PENDING | RET_REFUNDED | RET_REPLACED
  | RET_PARTIALLY_PROCESSED | RET_FULLY_PROCESSED.

Inductive InvoiceStatus : Type :=
  | DRAFT | PENDING | PAID | PARTIAL | CANCELLED.

(** [pv_requires_expiry_tracking] is
    [product_variant.product.requires_expiry_tracking]. *)
Record ProductVariant : Type := mkProductVariant {
  pv_pk : Z;
  pv_price : Z;
  pv_is_active : bool;
  pv_requires_expiry_tracking : bool
}.

Record Service : Type := mkService {
  svc_pk : Z;
  svc_price : Z
}.

Record StockItem : Type := mkStockItem {
  si_pk : Z;
  si_product_variant : Z;
  si_supplier : option Z;
  si_purchase_order_item : option Z;
  si_batch_number : string;
  si_expiry_date : option Z;
  si_quantity : Z;
  si_mrp : Z;
  si_base_cost_price : Z;
  si_discount_percentage : Z;
  si_gst_percentage : Z;
  si_cost_price : Z;
  si_date_received : Z;
  si_source : Source
}.

Record PurchaseOrder : Type := mkPurchaseOrder {
  po_pk : Z;
  po_supplier : Z;
  po_order_date : Z;
  po_status : POStatus
}.

Record PurchaseOrderItem : Type := mkPurchaseOrderItem {
  poi_pk : Z;
  poi_purchase_order : Z;
  poi_product_variant : Z;
  poi_quantity : Z;
  poi_quantity_received : Z
}.

Record SupplierPayment : Type := mkSupplierPayment {
  sp_purchase_order : Z;
  sp_amount : Z
}.

Record StockItemTransaction : Type := mkStockItemTransaction {
  tx_invoice_item : Z;
  tx_stock_item : Z;
  tx_quantity : Z
}.

Record Invoice : Type := mkInvoice {
  inv_pk : option Z;
  inv_status : InvoiceStatus;
  inv_total_amount : Z;
  inv_discount : Z
}.

Record InvoiceItem : Type := mkInvoiceItem {
  ii_pk : option Z;
  ii_invoice : Z;
  ii_service : option Z;
  ii_stock_item : option Z;
  ii_quantity : Z;
  ii_unit_price : option Z;
  ii_discount : Z
}.

Record InvoicePayment : Type := mkInvoicePayment {
  ip_invoice : Z;
  ip_amount : Z
}.

Record Refund : Type := mkRefund {
  rf_invoice : Z;
  rf_amount : Z
}.

Record PurchaseReturn : Type := mkPurchaseReturn {
  pr_pk : Z;
  pr_purchase_order : option Z;
  pr_stock_item : Z;
  pr_quantity : Z;
  pr_status : ReturnStatus
}.

Record ReplacementItem : Type := mkReplacementItem {
  ri_pk : option Z;
  ri_purchase_return : Z;
  ri_quantity : Z;
  ri_created_stock_item : option Z;
  ri_batch_number : string;
  ri_expiry_date : option Z
}.

Record SupplierRefund : Type := mkSupplierRefund {
  sr_pk : option Z;
  sr_purchase_order : option Z;
  sr_purchase_return : option Z;
  sr_amount : Z
}.

Record SupplierCredit : Type := mkSupplierCredit {
  sc_pk : Z;
  sc_supplier : Z;
  sc_source_refund : Z;
  sc_initial_amount : Z;
  sc_balance : Z;
  sc_is_fully_used : bool
}.

Record CreditApplication : Type := mkCreditApplication {
  ca_pk : option Z;
  ca_credit : Z;
  ca_applied_to_po : Z;
  ca_amount_applied : Z
}.

(** ** The store *)

Record DB : Type := mkDB {
  product_variants : list ProductVariant;
  services : list Service;
  stock_items : list StockItem;
  purchase_orders : list PurchaseOrder;
  purchase_order_items : list PurchaseOrderItem;
  supplier_payments : list SupplierPayment;
  stock_item_transactions : list StockItemTransaction;
  invoices : list Invoice;
  invoice_items : list InvoiceItem;
  invoice_payments : list InvoicePayment;
  refunds : list Refund;
  purchase_returns : list PurchaseReturn;
  replacement_items : list ReplacementItem;
  supplier_refunds : list SupplierRefund;
  supplier_credits : list SupplierCredit;
  credit_applications : list CreditApplication
}.


Definition set_stock_items (l : list StockItem) (db : DB) : DB :=
  mkDB (product_variants db) (services db) l (purchase_orders db)
    (purchase_order_items db) (supplier_payments db)
    (stock_item_transactions db) (invoices db) (invoice_items db)
    (invoice_payments db) (refunds db) (purchase_returns db)
    (replacement_items db) (supplier_refunds db) (supplier_credits db)
    (credit_applications db).

Definition set_purchase_orders (l : list PurchaseOrder) (db : DB) : DB :=
  mkDB (product_variants db) (services db) (stock_items db) l
    (purchase_order_items db) (supplier_payments db)
    (stock_item_transactions db) (invoices db) (invoice_items db)
    (invoice_payments db) (refunds db) (purchase_returns db)
    (replacement_items db) (supplier_refunds db) (supplier_credits db)
    (credit_applications db).

Definition set_purchase_order_items (l : list PurchaseOrderItem) (db : DB)
  : DB :=
  mkDB (product_variants db) (services db) (stock_items db)
    (purchase_orders db) l (supplier_payments db)
    (stock_item_transactions db) (invoices db) (invoice_items db)
    (invoice_payments db) (refunds db) (purchase_returns db)
    (replacement_items db) (supplier_refunds db) (supplier_credits db)
    (credit_applications db).

Definition set_supplier_payments (l : list SupplierPayment) (db : DB) : DB :=
  mkDB (product_variants db) (services db) (stock_items db)
    (purchase_orders db) (purchase_order_items db) l
    (stock_item_transactions db) (invoices db) (invoice_items db)
    (invoice_payments db) (refunds db) (purchase_returns db)
    (replacement_items db) (supplier_refunds db) (supplier_credits db)
    (credit_applications db).

Definition set_stock_item_transactions (l : list StockItemTransaction)
  (db : DB) : DB :=
  mkDB (product_variants db) (services db) (stock_items db)
    (purchase_orders db) (purchase_order_items db) (supplier_payments db)
    l (invoices db) (invoice_items db)
    (invoice_payments db) (refunds db) (purchase_returns db)
    (replacement_items db) (supplier_refunds db) (supplier_credits db)
    (credit_applications db).

Definition set_invoices (l : list Invoice) (db : DB) : DB :=
  mkDB (product_variants db) (services db) (stock_items db)
    (purchase_orders db) (purchase_order_items db) (supplier_payments db)
    (stock_item_transactions db) l (invoice_items db)
    (invoice_payments db) (refunds db) (purchase_returns db)
    (replacement_items db) (supplier_refunds db) (supplier_credits db)
    (credit_applications db).

Definition set_invoice_items (l : list InvoiceItem) (db : DB) : DB :=
  mkDB (product_variants db) (services db) (stock_items db)
    (purchase_orders db) (purchase_order_items db) (supplier_payments db)
    (stock_item_transactions db) (invoices db) l
    (invoice_payments db) (refunds db) (purchase_returns db)
    (replacement_items db) (supplier_refunds db) (supplier_credits db)
    (credit_applications db).

Definition set_purchase_returns (l : list PurchaseReturn) (db : DB) : DB :=
  mkDB (product_variants db) (services db) (stock_items db)
    (purchase_orders db) (purchase_order_items db) (supplier_payments db)
    (stock_item_transactions db) (invoices db) (invoice_items db)
    (invoice_payments db) (refunds db) l
    (replacement_items db) (supplier_refunds db) (supplier_credits db)
    (credit_applications db).

Definition set_replacement_items (l : list ReplacementItem) (db : DB) : DB :=
  mkDB (product_variants db) (services db) (stock_items db)
    (purchase_orders db) (purchase_order_items db) (supplier_payments db)
    (stock_item_transactions db) (invoices db) (invoice_items db)
    (invoice_payments db) (refunds db) (purchase_returns db)
    l (supplier_refunds db) (supplier_credits db)
    (credit_applications db).

Definition set_supplier_refunds (l : list SupplierRefund) (db : DB) : DB :=
  mkDB (product_variants db) (services db) (stock_items db)
    (purchase_orders db) (purchase_order_items db) (supplier_payments db)
    (stock_item_transactions db) (invoices db) (invoice_items db)
    (invoice_payments db) (refunds db) (purchase_returns db)
    (replacement_items db) l (supplier_credits db)
    (credit_applications db).

Definition set_supplier_credits (l : list SupplierCredit) (db : DB) : DB :=
  mkDB (product_variants db) (services db) (stock_items db)
    (purchase_orders db) (purchase_order_items db) (supplier_payments db)
    (stock_item_transactions db) (invoices db) (invoice_items db)
    (invoice_payments db) (refunds db) (purchase_returns db)
    (replacement_items db) (supplier_refunds db) l
    (credit_applications db).

Definition set_credit_applications (l : list CreditApplication) (db : DB)
  : DB :=
  mkDB (product_variants db) (services db) (stock_items db)
    (purchase_orders db) (purchase_order_items db) (supplier_payments db)
    (stock_item_transactions db) (invoices db) (invoice_items db)
    (invoice_payments db) (refunds db) (purchase_returns db)
    (replacement_items db) (supplier_refunds db) (supplier_credits db) l.

(** A model method runs on the store and either returns or raises; when it
    raises, the store it leaves behind holds whatever had been written
    before the exception. *)
Definition M (A : Type) : Type := DB -> DB * result A.

Definition ret {A : Type} (a : A) : M A := fun db => (db, Ok a).

Definition raise {A : Type} (e : Error) : M A := fun db => (db, Raise e).

Definition bind {A B : Type} (m : M A) (k : A -> M B) : M B :=
  fun db =>
    match m db with
    | (db', Ok a) => k a db'
    | (db', Raise e) => (db', Raise e)
    end.

Notation "x <- m ;; k" := (bind m (fun x => k))
  (at level 61, m at next level, right associativity).
Notation "m ;;; k" := (bind m (fun _ => k))
  (at level 61, right associativity).

Definition modify (f : DB -> DB) : M unit := fun db => (f db, Ok tt).

Definition gets {A : Type} (f : DB -> A) : M A := fun db => (db, Ok (f db)).

(** [transaction.atomic]: the block's writes are committed when it returns
    and rolled back when an exception leaves it. *)
Definition transaction_atomic {A : Type} (m : M A) : M A :=
  fun db =>
    match m db with
    | (db', Ok a) => (db', Ok a)
    | (_, Raise e) => (db, Raise e)
    end.

(** [get_object_or_404] *)
Definition get_or_404 {A : Type} (o : option A) : M A :=
  match o with Some a => ret a | None => raise Http404 end.

(** ** Stock ledger: [StockItem] *)

Definition get_stock_item (db : DB) (k : Z) : option StockItem :=
  find (fun s => si_pk s =? k) (stock_items db).

Definition get_product_variant (db : DB) (k : Z) : option ProductVariant :=
  find (fun v => pv_pk v =? k) (product_variants db).

Definition get_service (db : DB) (k : Z) : option Service :=
  find (fun v => svc_pk v =? k) (services db).

(** [self.transactions] and [self.purchasereturn_set] *)
Definition StockItem_transactions (db : DB) (self : StockItem)
  : list StockItemTransaction :=
  filter (fun t => tx_stock_item t =? si_pk self) (stock_item_transactions db).

Definition StockItem_purchasereturn_set (db : DB) (self : StockItem)
  : list PurchaseReturn :=
  filter (fun r => pr_stock_item r =? si_pk self) (purchase_returns db).

Definition quantity_sold (db : DB) (self : StockItem) : Z :=
  sumZ (map tx_quantity (StockItem_transactions db self)).

Definition quantity_returned (db : DB) (self : StockItem) : Z :=
  sumZ (map pr_quantity (StockItem_purchasereturn_set db self)).

Definition quantity_available (db : DB) (self : StockItem) : Z :=
  si_quantity self - quantity_sold db self - quantity_returned db self.

(** [StockItem.clean] raises when the batch number is blank. *)
Definition StockItem_clean (self : StockItem) : bool :=
  negb (is_blank (si_batch_number self)).

(** The validators that the field declarations of [StockItem] carry. *)
Definition StockItem_clean_fields (self : StockItem) : bool :=
  negb (is_empty (list_ascii_of_string (si_batch_number self)))
  && (Z.of_nat (String.length (si_batch_number self)) <=? 100)
  && (0 <=? si_quantity self)
  && fits_digits 10 (si_mrp self)
  && fits_digits 10 (si_base_cost_price self)
  && fits_digits 5 (si_discount_percentage self)
  && fits_digits 5 (si_gst_percentage self)
  && fits_digits 10 (si_cost_price self).

Definition StockItem_full_clean (self : StockItem) : bool :=
  StockItem_clean_fields self && StockItem_clean self.

Definition with_si_pk (k : Z) (s : StockItem) : StockItem :=
  mkStockItem k (si_product_variant s) (si_supplier s)
    (si_purchase_order_item s) (si_batch_number s) (si_expiry_date s)
    (si_quantity s) (si_mrp s) (si_base_cost_price s)
    (si_discount_percentage s) (si_gst_percentage s) (si_cost_price s)
    (si_date_received s) (si_source s).

(** [StockItem.objects.create(...)]: [save] runs [full_clean] and then
    inserts the row under a new primary key. *)
Definition StockItem_objects_create (self : StockItem) : M StockItem :=
  fun db =>
    if StockItem_full_clean self then
      let row := with_si_pk (next_pk (map si_pk (stock_items db))) self in
      (set_stock_items (stock_items db ++ [row]) db, Ok row)
    else (db, Raise ValidationError).

(** ** Invoicing: [Invoice] *)

Definition Invoice_invoice_items (db : DB) (self : Invoice)
  : list InvoiceItem :=
  match inv_pk self with
  | Some k => filter (fun i => ii_invoice i =? k) (invoice_items db)
  | None => []
  end.

Definition Invoice_payments (db : DB) (self : Invoice)
  : list InvoicePayment :=
  match inv_pk self with
  | Some k => filter (fun p => ip_invoice p =? k) (invoice_payments db)
  | None => []
  end.

Definition Invoice_refunds (db : DB) (self : Invoice) : list Refund :=
  match inv_pk self with
  | Some k => filter (fun p => rf_invoice p =? k) (refunds db)
  | None => []
  end.

Definition calculate_total_amount (db : DB) (self : Invoice) : Z :=
  sumZ (map (fun i => ii_quantity i *
                      match ii_unit_price i with Some p => p | None => 0 end)
            (Invoice_invoice_items db self)).

Definition Invoice_total_discount (db : DB) (self : Invoice) : Z :=
  sumZ (map (fun i => ii_discount i * ii_quantity i)
            (Invoice_invoice_items db self))
  + inv_discount self.

Definition Invoice_net_amount (db : DB) (self : Invoice) : Z :=
  inv_total_amount self - Invoice_total_discount db self.

Definition Invoice_amount_paid (db : DB) (self : Invoice) : Z :=
  sumZ (map ip_amount (Invoice_payments db self)).

Definition Invoice_total_refunded (db : DB) (self : Invoice) : Z :=
  sumZ (map rf_amount (Invoice_refunds db self)).

Definition Invoice_balance_due (db : DB) (self : Invoice) : Z :=
  Invoice_net_amount db self - Invoice_amount_paid db self
  + Invoice_total_refunded db self.

Definition with_inv_status (st : InvoiceStatus) (i : Invoice) : Invoice :=
  mkInvoice (inv_pk i) st (inv_total_amount i) (inv_discount i).

Definition with_inv_total_amount (t : Z) (i : Invoice) : Invoice :=
  mkInvoice (inv_pk i) (inv_status i) t (inv_discount i).

Definition with_inv_pk (k : Z) (i : Invoice) : Invoice :=
  mkInvoice (Some k) (inv_status i) (inv_total_amount i) (inv_discount i).

Definition is_cancelled (st : InvoiceStatus) : bool :=
  match st with CANCELLED => true | _ => false end.

Definition get_invoice (db : DB) (k : Z) : option Invoice :=
  find (fun i => opt_is (inv_pk i) k) (invoices db).

(** [super().save()] of an invoice: an instance with a primary key
    overwrites its row (or is inserted under that key when the row is
    gone), an instance without one is inserted under a new key. *)
Definition Invoice_super_save (self : Invoice) : M Invoice :=
  fun db =>
    match inv_pk self with
    | Some k =>
        if existsb (fun i => opt_is (inv_pk i) k) (invoices db) then
          (set_invoices
             (map (fun i => if opt_is (inv_pk i) k then self else i)
                  (invoices db)) db, Ok self)
        else (set_invoices (invoices db ++ [self]) db, Ok self)
    | None =>
        let row :=
          with_inv_pk (next_pk (flat_map (fun i => opt_list (inv_pk i))
                                         (invoices db))) self in
        (set_invoices (invoices db ++ [row]) db, Ok row)
    end.

(** The part of [Invoice.save] that runs under [if self.pk:].  The
    generation of [invoice_number] writes no column modelled here. *)
Definition Invoice_recompute (db : DB) (self : Invoice) : Invoice :=
  match inv_pk self with
  | Some _ =>
      let self1 := with_inv_total_amount (calculate_total_amount db self) self
      in
      if negb (is_cancelled (inv_status self1)) then
        let paid := sumZ (map ip_amount (Invoice_payments db self1)) in
        let refunded := sumZ (map rf_amount (Invoice_refunds db self1)) in
        let balance := Invoice_net_amount db self1 - paid + refunded in
        if balance <=? 0 then with_inv_status PAID self1
        else if 0 <? paid then with_inv_status PARTIAL self1
        else with_inv_status PENDING self1
      else self1
  | None => self
  end.

Definition Invoice_save (self : Invoice) : M Invoice :=
  transaction_atomic
    (fun db => Invoice_super_save (Invoice_recompute db self) db).

(** ** Invoicing: [InvoiceItem] and its signal receivers *)

Definition with_ii_unit_price (p : Z) (i : InvoiceItem) : InvoiceItem :=
  mkInvoiceItem (ii_pk i) (ii_invoice i) (ii_service i) (ii_stock_item i)
    (ii_quantity i) (Some p) (ii_discount i).

Definition with_ii_pk (k : Z) (i : InvoiceItem) : InvoiceItem :=
  mkInvoiceItem (Some k) (ii_invoice i) (ii_service i) (ii_stock_item i)
    (ii_quantity i) (ii_unit_price i) (ii_discount i).

(** [not self.unit_price]: unset or zero. *)
Definition unit_price_unset (i : InvoiceItem) : bool :=
  match ii_unit_price i with Some p => p =? 0 | None => true end.

(** [InvoiceItem.clean] *)
Definition InvoiceItem_clean (self : InvoiceItem) : M InvoiceItem :=
  fun db =>
    if ii_quantity self <=? 0 then (db, Raise ValidationError)
    else if unit_price_unset self then
      match ii_stock_item self, ii_service self with
      | Some s, _ =>
          match get_stock_item db s with
          | Some row =>
              match get_product_variant db (si_product_variant row) with
              | Some v => (db, Ok (with_ii_unit_price (pv_price v) self))
              | None => (db, Raise DoesNotExist)
              end
          | None => (db, Raise DoesNotExist)
          end
      | None, Some v =>
          match get_service db v with
          | Some row => (db, Ok (with_ii_unit_price (svc_price row) self))
          | None => (db, Raise DoesNotExist)
          end
      | None, None => (db, Ok (with_ii_unit_price 0 self))
      end
    else (db, Ok self).

(** Field validators of [InvoiceItem]: [MinValueValidator(1)] on the
    quantity and the digits of the two decimal columns. *)
Definition InvoiceItem_clean_fields (self : InvoiceItem) : bool :=
  (1 <=? ii_quantity self)
  && match ii_unit_price self with
     | Some p => fits_digits 10 p
     | None => true
     end
  && fits_digits 10 (ii_discount self).

Definition InvoiceItem_full_clean (self : InvoiceItem) : M InvoiceItem :=
  fun db =>
    match InvoiceItem_clean self db with
    | (db', Ok self') =>
        if InvoiceItem_clean_fields self then (db', Ok self')
        else (db', Raise ValidationError)
    | r => r
    end.

Definition get_invoice_item (db : DB) (k : Z) : option InvoiceItem :=
  find (fun i => opt_is (ii_pk i) k) (invoice_items db).

(** [cache_previous_invoice_item_state] (pre_save): the stock item and the
    quantity of the stored row, for an instance that has a primary key. *)
Definition cache_previous_invoice_item_state (db : DB) (instance : InvoiceItem)
  : option (option Z * Z) :=
  match ii_pk instance with
  | Some k =>
      match get_invoice_item db k with
      | Some original => Some (ii_stock_item original, ii_quantity original)
      | None => None
      end
  | None => None
  end.

Definition delete_transactions_of (instance : InvoiceItem) : M unit :=
  modify (fun db =>
    set_stock_item_transactions
      (filter (fun t => negb (opt_is (ii_pk instance) (tx_invoice_item t)))
              (stock_item_transactions db)) db).

(** [StockItemTransaction.objects.update_or_create(invoice_item=instance,
    defaults={stock_item, quantity})] *)
Definition update_or_create_transaction (instance : InvoiceItem) (s : Z)
  : M unit :=
  fun db =>
    match ii_pk instance with
    | Some k =>
        let txs := stock_item_transactions db in
        if existsb (fun t => tx_invoice_item t =? k) txs then
          (set_stock_item_transactions
             (map (fun t => if tx_invoice_item t =? k
                            then mkStockItemTransaction k s
                                   (ii_quantity instance)
                            else t) txs) db, Ok tt)
        else
          (set_stock_item_transactions
             (txs ++ [mkStockItemTransaction k s (ii_quantity instance)]) db,
           Ok tt)
    | None => (db, Raise ValueError)
    end.

Definition update_stock_for_invoice_item (instance : InvoiceItem)
  (previous_state : option (option Z * Z)) (deleted : bool) : M unit :=
  transaction_atomic
    ((match previous_state with
      | Some (Some prev, _) =>
          if negb (opt_is (ii_stock_item instance) prev)
          then delete_transactions_of instance
          else ret tt
      | _ => ret tt
      end) ;;;
     (match deleted, ii_stock_item instance with
      | true, Some _ => delete_transactions_of instance
      | _, _ => ret tt
      end) ;;;
     (match deleted, ii_stock_item instance with
      | false, Some s => update_or_create_transaction instance s
      | _, _ => ret tt
      end)).

(** [update_invoice_on_item_change]: [instance.invoice.save()] *)
Definition update_invoice_on_item_change (instance : InvoiceItem) : M unit :=
  fun db =>
    match get_invoice db (ii_invoice instance) with
    | Some inv =>
        match Invoice_save inv db with
        | (db', Ok _) => (db', Ok tt)
        | (db', Raise e) => (db', Raise e)
        end
    | None => (db, Raise DoesNotExist)
    end.

Definition InvoiceItem_super_save (self : InvoiceItem) : M InvoiceItem :=
  fun db =>
    match ii_pk self with
    | Some k =>
        if existsb (fun i => opt_is (ii_pk i) k) (invoice_items db) then
          (set_invoice_items
             (map (fun i => if opt_is (ii_pk i) k then self else i)
                  (invoice_items db)) db, Ok self)
        else (set_invoice_items (invoice_items db ++ [self]) db, Ok self)
    | None =>
        let row :=
          with_ii_pk (next_pk (flat_map (fun i => opt_list (ii_pk i))
                                        (invoice_items db))) self in
        (set_invoice_items (invoice_items db ++ [row]) db, Ok row)
    end.

(** [InvoiceItem.save]: [full_clean], the pre_save receiver, the write, and
    the two post_save receivers in the order they are connected. *)
Definition InvoiceItem_save (self : InvoiceItem) : M InvoiceItem :=
  cleaned <- InvoiceItem_full_clean self ;;
  previous_state <- gets (fun db => cache_previous_invoice_item_state db cleaned) ;;
  saved <- InvoiceItem_super_save cleaned ;;
  update_invoice_on_item_change saved ;;;
  update_stock_for_invoice_item saved previous_state false ;;;
  ret saved.

(** [InvoiceItem.delete] of a saved instance: the collector removes the
    cascading [StockItemTransaction] rows and the item, then the two
    post_delete receivers run on the instance, which still has its primary
    key. *)
Definition InvoiceItem_delete (self : InvoiceItem) : M unit :=
  match ii_pk self with
  | None => raise ValueError
  | Some k =>
      transaction_atomic
        (delete_transactions_of self ;;;
         modify (fun db =>
           set_invoice_items
             (filter (fun i => negb (opt_is (ii_pk i) k))
                     (invoice_items db)) db) ;;;
         update_invoice_on_item_change self ;;;
         update_stock_for_invoice_item self None true)
  end.

(** ** Purchasing: [PurchaseOrder], [PurchaseOrderItem], [SupplierPayment] *)

Definition get_purchase_order (db : DB) (k : Z) : option PurchaseOrder :=
  find (fun p => po_pk p =? k) (purchase_orders db).

Definition get_purchase_order_item (db : DB) (k : Z)
  : option PurchaseOrderItem :=
  find (fun i => poi_pk i =? k) (purchase_order_items db).

Definition PurchaseOrder_items (db : DB) (self : PurchaseOrder)
  : list PurchaseOrderItem :=
  filter (fun i => poi_purchase_order i =? po_pk self)
         (purchase_order_items db).

Definition is_fully_received (self : PurchaseOrderItem) : bool :=
  poi_quantity self <=? poi_quantity_received self.

Definition quantity_remaining (self : PurchaseOrderItem) : Z :=
  poi_quantity self - poi_quantity_received self.

Definition with_po_status (st : POStatus) (p : PurchaseOrder)
  : PurchaseOrder :=
  mkPurchaseOrder (po_pk p) (po_supplier p) (po_order_date p) st.

(** The status that [PurchaseOrder.update_status] assigns to [self.status]. *)
Definition PurchaseOrder_new_status (db : DB) (self : PurchaseOrder)
  : POStatus :=
  let items := PurchaseOrder_items db self in
  if is_empty items then PO_PENDING
  else
    let total_ord := sumZ (map poi_quantity items) in
    let total_rec := sumZ (map poi_quantity_received items) in
    if total_rec =? 0 then PO_PENDING
    else if total_rec <? total_ord then PO_PARTIALLY_RECEIVED
    else PO_COMPLETED.

(** [PurchaseOrder.update_status]: assign the status and write that one
    column of the row ([save(update_fields=['status'])]). *)
Definition PurchaseOrder_update_status (self : PurchaseOrder)
  : M PurchaseOrder :=
  fun db =>
    let st := PurchaseOrder_new_status db self in
    (set_purchase_orders
       (map (fun p => if po_pk p =? po_pk self then with_po_status st p
                      else p)
            (purchase_orders db)) db,
     Ok (with_po_status st self)).

(** [StockItem.objects.filter(purchase_order_item__purchase_order=self)]:
    the join with the order line a batch was received for. *)
Definition received_for_order (db : DB) (self : PurchaseOrder) (s : StockItem)
  : bool :=
  match si_purchase_order_item s with
  | Some i =>
      match get_purchase_order_item db i with
      | Some line => poi_purchase_order line =? po_pk self
      | None => false
      end
  | None => false
  end.

Definition grand_total (db : DB) (self : PurchaseOrder) : Z :=
  sumZ (map (fun s => si_quantity s * si_cost_price s)
            (filter (received_for_order db self) (stock_items db))).

Definition PurchaseOrder_amount_paid (db : DB) (self : PurchaseOrder) : Z :=
  sumZ (map sp_amount
            (filter (fun p => sp_purchase_order p =? po_pk self)
                    (supplier_payments db))).

Definition amount_credited (db : DB) (self : PurchaseOrder) : Z :=
  sumZ (map ca_amount_applied
            (filter (fun a => ca_applied_to_po a =? po_pk self)
                    (credit_applications db))).

Definition PurchaseOrder_balance_due (db : DB) (self : PurchaseOrder) : Z :=
  grand_total db self - PurchaseOrder_amount_paid db self
  - amount_credited db self.

(** [self.purchase_order.update_status()] through a foreign key. *)
Definition update_status_of_order (k : Z) : M unit :=
  fun db =>
    match get_purchase_order db k with
    | Some po =>
        match PurchaseOrder_update_status po db with
        | (db', Ok _) => (db', Ok tt)
        | (db', Raise e) => (db', Raise e)
        end
    | None => (db, Raise DoesNotExist)
    end.

(** [SupplierPayment.save] *)
Definition SupplierPayment_save (self : SupplierPayment) : M unit :=
  modify (fun db =>
    set_supplier_payments (supplier_payments db ++ [self]) db) ;;;
  update_status_of_order (sp_purchase_order self).

Definition with_poi_quantity_received (q : Z) (i : PurchaseOrderItem)
  : PurchaseOrderItem :=
  mkPurchaseOrderItem (poi_pk i) (poi_purchase_order i)
    (poi_product_variant i) (poi_quantity i) q.

(** [po_item.save(update_fields=['quantity_received'])] followed by the
    post_save receiver [update_po_on_item_save]. *)
Definition PurchaseOrderItem_save_quantity_received
  (self : PurchaseOrderItem) : M unit :=
  modify (fun db =>
    set_purchase_order_items
      (map (fun i => if poi_pk i =? poi_pk self
                     then with_poi_quantity_received
                            (poi_quantity_received self) i
                     else i)
           (purchase_order_items db)) db) ;;;
  update_status_of_order (poi_purchase_order self).

(** ** Stock receipt: [ReceiveStockForm] and [receive_purchase_order_view] *)

(** The [cleaned_data] of one form of the receipt formset. *)
Record ReceiveStockData : Type := mkReceiveStockData {
  rs_purchase_order_item_id : Z;
  rs_quantity_to_receive : option Z;
  rs_mrp : option Z;
  rs_base_cost_price : option Z;
  rs_discount_percentage : option Z;
  rs_discount_amount : option Z;
  rs_gst_percentage : option Z;
  rs_batch_number : string;
  rs_expiry_date : option Z;
  rs_date_received : option Z
}.

(** [x or Decimal('0.00')] *)
Definition or_zero (o : option Z) : Z :=
  match o with Some v => v | None => 0 end.

(** Truth value of an optional number: set and not zero. *)
Definition truthy (o : option Z) : bool :=
  match o with Some v => negb (v =? 0) | None => false end.

(** The final cost of [ReceiveStockForm.clean] as an exact fraction
    [(numerator, denominator)] of a cent, for a base cost [b <> 0] and a
    quantity [qty > 0]; the form does not round the discount percentage it
    derives from a discount amount.  [Decimal] carries 28 significant
    digits; the fraction is the value it approximates. *)
Definition form_final_cost (b qty : Z) (d : ReceiveStockData) : Z * Z :=
  let g := or_zero (rs_gst_percentage d) in
  match rs_discount_percentage d, rs_discount_amount d with
  | Some p, _ => (b * (10000 - p) * (10000 + g), 10 ^ 8)
  | None, Some a =>
      if (0 <? qty) && (0 <? b)
      then ((b * qty - a) * (10000 + g), qty * 10 ^ 4)
      else (b * 10000 * (10000 + g), 10 ^ 8)
  | None, None => (b * 10000 * (10000 + g), 10 ^ 8)
  end.

(** [ReceiveStockForm.clean]: [true] when it adds no error.  A line whose
    variant row is missing cannot be validated and counts as invalid. *)
Definition ReceiveStockForm_clean (db : DB)
  (purchase_order_item : option PurchaseOrderItem) (d : ReceiveStockData)
  : bool :=
  match rs_quantity_to_receive d with
  | None => true
  | Some qty =>
      if qty <=? 0 then true
      else
        let variant :=
          match purchase_order_item with
          | Some line => get_product_variant db (poi_product_variant line)
          | None => None
          end in
        let variant_found :=
          match purchase_order_item, variant with
          | Some _, None => false
          | _, _ => true
          end in
        let expiry_ok :=
          match variant with
          | Some v =>
              if pv_requires_expiry_tracking v
              then match rs_expiry_date d with Some _ => true | None => false end
              else true
          | None => true
          end in
        let mrp :=
          match rs_mrp d, variant with
          | None, Some v => Some (pv_price v)
          | m, _ => m
          end in
        let base_cost := rs_base_cost_price d in
        let base_ok := truthy base_cost in
        let batch_ok :=
          negb (is_empty (list_ascii_of_string (rs_batch_number d))) in
        let base_le_mrp :=
          negb (truthy base_cost && truthy mrp
                && (or_zero mrp <? or_zero base_cost)) in
        let one_discount :=
          negb (truthy (rs_discount_percentage d)
                && truthy (rs_discount_amount d)
                && (0 <? or_zero (rs_discount_percentage d))
                && (0 <? or_zero (rs_discount_amount d))) in
        let discount_le_total :=
          negb (truthy base_cost && truthy (rs_discount_amount d)
                && (or_zero base_cost * qty
                    <? or_zero (rs_discount_amount d))) in
        let final_le_mrp :=
          if truthy base_cost then
            let '(num, den) := form_final_cost (or_zero base_cost) qty d in
            negb (truthy mrp && (or_zero mrp * den <? num))
          else true in
        let qty_ok :=
          match purchase_order_item with
          | Some line => negb (quantity_remaining line <? qty)
          | None => true
          end in
        variant_found && expiry_ok && base_ok && batch_ok && base_le_mrp
        && one_discount && discount_le_total && final_le_mrp && qty_ok
  end.

(** [ReceiveStockForm.clean_expiry_date] and [clean_date_received]:
    [true] when they raise nothing.  [today] and [now] are
    [timezone.now().date()] and [timezone.now()]. *)
Definition ReceiveStockForm_clean_expiry_date (today : Z)
  (d : ReceiveStockData) : bool :=
  match rs_expiry_date d with
  | Some e => negb (e <? today)
  | None => true
  end.

Definition ReceiveStockForm_clean_date_received (db : DB) (now : Z)
  (purchase_order_item : option PurchaseOrderItem) (d : ReceiveStockData)
  : bool :=
  match rs_date_received d with
  | None => true
  | Some t =>
      if now <? t then false
      else
        match purchase_order_item with
        | Some line =>
            match get_purchase_order db (poi_purchase_order line) with
            | Some po => negb (t <? po_order_date po)
            | None => false
            end
        | None => true
        end
  end.

Definition ReceiveStockForm_is_valid (db : DB) (now today : Z)
  (purchase_order_item : option PurchaseOrderItem) (d : ReceiveStockData)
  : bool :=
  ReceiveStockForm_clean_expiry_date today d
  && ReceiveStockForm_clean_date_received db now purchase_order_item d
  && ReceiveStockForm_clean db purchase_order_item d.

(** [BaseReceiveStockFormSet.get_form_kwargs]: the form at [index] is given
    the order line at the same index, when there is one. *)
Fixpoint formset_is_valid_from (db : DB) (now today : Z)
  (items_to_receive : list PurchaseOrderItem) (index : nat)
  (forms : list ReceiveStockData) : bool :=
  match forms with
  | [] => true
  | d :: rest =>
      ReceiveStockForm_is_valid db now today
        (nth_error items_to_receive index) d
      && formset_is_valid_from db now today items_to_receive (S index) rest
  end.

Definition formset_is_valid (db : DB) (now today : Z)
  (items_to_receive : list PurchaseOrderItem) (forms : list ReceiveStockData)
  : bool :=
  formset_is_valid_from db now today items_to_receive 0 forms.

(** The quantity a form asks to receive; the view skips the form when
    there is none. *)
Definition requested_quantity (d : ReceiveStockData) : option Z :=
  match rs_quantity_to_receive d with
  | Some qty => if (qty =? 0) || (qty <=? 0) then None else Some qty
  | None => None
  end.

(** The discount percentage the view stores: the one entered, or the one
    derived from a discount amount and quantized to two decimals. *)
Definition final_discount_percentage (base_cost qty : Z)
  (d : ReceiveStockData) : Z :=
  match rs_discount_percentage d, rs_discount_amount d with
  | Some p, _ => p
  | None, Some a =>
      if (0 <? qty) && (0 <? base_cost)
      then round_half_even (a * 10000) (qty * base_cost)
      else 0
  | None, None => 0
  end.

Definition final_cost_per_item (base_cost qty : Z) (d : ReceiveStockData)
  : Z :=
  round_half_even
    (base_cost * (10000 - final_discount_percentage base_cost qty d)
     * (10000 + or_zero (rs_gst_percentage d)))
    (10 ^ 8).

(** The batch the view creates for one form. *)
Definition received_batch (now : Z) (po : PurchaseOrder)
  (po_item : PurchaseOrderItem) (qty : Z) (d : ReceiveStockData)
  : StockItem :=
  let base_cost := or_zero (rs_base_cost_price d) in
  mkStockItem 0 (poi_product_variant po_item) (Some (po_supplier po))
    (Some (poi_pk po_item)) (rs_batch_number d) (rs_expiry_date d) qty
    (or_zero (rs_mrp d)) base_cost
    (final_discount_percentage base_cost qty d)
    (or_zero (rs_gst_percentage d))
    (final_cost_per_item base_cost qty d)
    (match rs_date_received d with Some t => t | None => now end)
    PURCHASE_ORDER.

(** One turn of the loop over [formset.forms]. *)
Definition receive_form (now : Z) (po : PurchaseOrder) (d : ReceiveStockData)
  : M unit :=
  match requested_quantity d with
  | None => ret tt
  | Some qty =>
      po_item <- (fun db =>
        get_or_404
          (get_purchase_order_item db (rs_purchase_order_item_id d)) db) ;;
      StockItem_objects_create (received_batch now po po_item qty d) ;;;
      PurchaseOrderItem_save_quantity_received
        (with_poi_quantity_received (poi_quantity_received po_item + qty)
           po_item)
  end.

Fixpoint for_each {A : Type} (f : A -> M unit) (l : list A) : M unit :=
  match l with
  | [] => ret tt
  | x :: rest => f x ;;; for_each f rest
  end.

(** What a view answers: a redirect (after a success, a warning or an
    error message, or with none) or the form rendered again. *)
Inductive Response : Type :=
  | Redirect
  | RedirectWithWarning
  | RedirectWithSuccess
  | RedirectWithError
  | RenderForm.

(** The body of [receive_purchase_order_view]; [post] is the submitted
    formset of a POST request, [None] for a GET. *)
Definition receive_purchase_order_body (now today pk : Z)
  (post : option (list ReceiveStockData)) : M Response :=
  po <- (fun db => get_or_404 (get_purchase_order db pk) db) ;;
  items_to_receive <- gets (fun db =>
    filter (fun i => poi_quantity_received i <? poi_quantity i)
           (PurchaseOrder_items db po)) ;;
  if is_empty items_to_receive then ret RedirectWithWarning
  else
    match post with
    | Some forms =>
        valid <- gets (fun db =>
          formset_is_valid db now today items_to_receive forms) ;;
        if valid then
          for_each (receive_form now po) forms ;;;
          update_status_of_order (po_pk po) ;;;
          ret RedirectWithSuccess
        else ret RenderForm
    | None => ret RenderForm
    end.

(** [@transaction.atomic def receive_purchase_order_view] *)
Definition receive_purchase_order_view (now today pk : Z)
  (post : option (list ReceiveStockData)) : M Response :=
  transaction_atomic (receive_purchase_order_body now today pk post).

(** ** Returns: [PurchaseReturn] *)

Definition get_purchase_return (db : DB) (k : Z) : option PurchaseReturn :=
  find (fun r => pr_pk r =? k) (purchase_returns db).

(** A dangling foreign key raises [DoesNotExist] when it is followed. *)
Definition follow {A : Type} (o : option A) : M A :=
  match o with Some a => ret a | None => raise DoesNotExist end.

Definition total_value (db : DB) (self : PurchaseReturn) : Z :=
  match get_stock_item db (pr_stock_item self) with
  | Some s => pr_quantity self * si_cost_price s
  | None => 0
  end.

Definition PurchaseReturn_replacementitem_set (db : DB)
  (self : PurchaseReturn) : list ReplacementItem :=
  filter (fun rep => ri_purchase_return rep =? pr_pk self)
         (replacement_items db).

Definition PurchaseReturn_supplierrefund_set (db : DB)
  (self : PurchaseReturn) : list SupplierRefund :=
  filter (fun rf => opt_is (sr_purchase_return rf) (pr_pk self))
         (supplier_refunds db).

Definition quantity_replaced (db : DB) (self : PurchaseReturn) : Z :=
  sumZ (map ri_quantity (PurchaseReturn_replacementitem_set db self)).

Definition amount_refunded (db : DB) (self : PurchaseReturn) : Z :=
  sumZ (map sr_amount (PurchaseReturn_supplierrefund_set db self)).

Definition value_of_items_replaced (db : DB) (self : PurchaseReturn) : Z :=
  match get_stock_item db (pr_stock_item self) with
  | Some s => quantity_replaced db self * si_cost_price s
  | None => 0
  end.

Definition value_pending_action (db : DB) (self : PurchaseReturn) : Z :=
  Z.max (total_value db self - value_of_items_replaced db self
         - amount_refunded db self) 0.

(** [int(...)] truncates toward zero. *)
Definition quantity_pending_action (db : DB) (self : PurchaseReturn) : Z :=
  match get_stock_item db (pr_stock_item self) with
  | Some s =>
      if si_cost_price s <=? 0
      then pr_quantity self - quantity_replaced db self
      else Z.quot (value_pending_action db self) (si_cost_price s)
  | None => pr_quantity self - quantity_replaced db self
  end.

Definition with_pr_status (st : ReturnStatus) (r : PurchaseReturn)
  : PurchaseReturn :=
  mkPurchaseReturn (pr_pk r) (pr_purchase_order r) (pr_stock_item r)
    (pr_quantity r) st.

(** The status [PurchaseReturn.update_status] assigns; one cent is
    [Decimal('0.01')]. *)
Definition PurchaseReturn_new_status (db : DB) (self : PurchaseReturn)
  : ReturnStatus :=
  if value_pending_action db self <? 1 then RET_FULLY_PROCESSED
  else if (0 <? quantity_replaced db self) || (0 <? amount_refunded db self)
  then RET_PARTIALLY_PROCESSED
  else RET_PENDING.

Definition PurchaseReturn_update_status (self : PurchaseReturn) : M unit :=
  modify (fun db =>
    let st := PurchaseReturn_new_status db self in
    set_purchase_returns
      (map (fun r => if pr_pk r =? pr_pk self then with_pr_status st r
                     else r)
           (purchase_returns db)) db).

(** [self.purchase_return.update_status()] through a foreign key. *)
Definition update_status_of_return (k : Z) : M unit :=
  r <- (fun db => follow (get_purchase_return db k) db) ;;
  PurchaseReturn_update_status r.

(** [PurchaseOrder._get_all_related_returns]: the direct returns of the
    order, then the returns made against replacement batches, level by
    level.  [processed_return_pks] is the list of keys already taken. *)

(** The [for nr in nested_returns] loop; it yields [(all_returns,
    newly_found_returns, processed_return_pks)]. *)
Fixpoint take_new_returns (nested_returns : list PurchaseReturn)
  (all_returns newly_found_returns : list PurchaseReturn)
  (processed_return_pks : list Z)
  : list PurchaseReturn * list PurchaseReturn * list Z :=
  match nested_returns with
  | [] => (all_returns, newly_found_returns, processed_return_pks)
  | nr :: rest =>
      if negb (memZ (pr_pk nr) processed_return_pks) then
        take_new_returns rest (all_returns ++ [nr])
          (newly_found_returns ++ [nr]) (pr_pk nr :: processed_return_pks)
      else
        take_new_returns rest all_returns newly_found_returns
          processed_return_pks
  end.

(** The [while returns_to_check] loop.  [fuel] bounds the number of turns;
    [None] means the bound was reached before the loop ended. *)
Fixpoint related_returns_loop (fuel : nat) (db : DB)
  (all_returns returns_to_check : list PurchaseReturn)
  (processed_return_pks : list Z) : option (list PurchaseReturn) :=
  match returns_to_check with
  | [] => Some all_returns
  | _ :: _ =>
      match fuel with
      | O => None
      | S fuel' =>
          let replacements :=
            filter (fun rep => memZ (ri_purchase_return rep)
                                    (map pr_pk returns_to_check))
                   (replacement_items db) in
          if is_empty replacements then Some all_returns
          else
            let replacement_stock_items :=
              flat_map (fun rep => opt_list (ri_created_stock_item rep))
                       replacements in
            if is_empty replacement_stock_items then Some all_returns
            else
              let nested_returns :=
                filter (fun r => memZ (pr_stock_item r)
                                      replacement_stock_items
                                 && negb (memZ (pr_pk r)
                                               processed_return_pks))
                       (purchase_returns db) in
              let '(all_returns', newly_found_returns, processed') :=
                take_new_returns nested_returns all_returns []
                  processed_return_pks in
              if is_empty newly_found_returns then Some all_returns'
              else related_returns_loop fuel' db all_returns'
                     newly_found_returns processed'
      end
  end.

Definition PurchaseOrder_returns (db : DB) (self : PurchaseOrder)
  : list PurchaseReturn :=
  filter (fun r => opt_is (pr_purchase_order r) (po_pk self))
         (purchase_returns db).

(** Every turn of the loop that does not leave it takes at least one
    return that had not been taken, so one turn more than there are returns
    is a bound that is never reached. *)
Definition _get_all_related_returns (db : DB) (self : PurchaseOrder)
  : option (list PurchaseReturn) :=
  let direct_returns := PurchaseOrder_returns db self in
  related_returns_loop (S (List.length (purchase_returns db))) db
    direct_returns direct_returns (map pr_pk direct_returns).

(** The returns that belong to an order in the sense of the nested-return
    resolution: [r'] is a nested return of [r] when it was made against a
    batch that a replacement item of [r] created; the related returns of an
    order are its direct returns and, step by step, their nested returns. *)
Definition nested_return_of (db : DB) (r r' : PurchaseReturn) : Prop :=
  In r' (purchase_returns db)
  /\ exists rep s,
       In rep (replacement_items db)
       /\ ri_purchase_return rep = pr_pk r
       /\ ri_created_stock_item rep = Some s
       /\ pr_stock_item r' = s.

Inductive related_to_order (db : DB) (self : PurchaseOrder)
  : PurchaseReturn -> Prop :=
  | related_direct : forall r,
      In r (purchase_returns db) ->
      pr_purchase_order r = Some (po_pk self) ->
      related_to_order db self r
  | related_nested : forall r r',
      related_to_order db self r ->
      nested_return_of db r r' ->
      related_to_order db self r'.

(** ** Replacements: [ReplacementItem] *)

Definition with_ri_created_stock_item (s : Z) (r : ReplacementItem)
  : ReplacementItem :=
  mkReplacementItem (ri_pk r) (ri_purchase_return r) (ri_quantity r)
    (Some s) (ri_batch_number r) (ri_expiry_date r).

Definition with_ri_pk (k : Z) (r : ReplacementItem) : ReplacementItem :=
  mkReplacementItem (Some k) (ri_purchase_return r) (ri_quantity r)
    (ri_created_stock_item r) (ri_batch_number r) (ri_expiry_date r).

Definition ReplacementItem_super_save (self : ReplacementItem)
  : M ReplacementItem :=
  fun db =>
    match ri_pk self with
    | Some k =>
        if existsb (fun r => opt_is (ri_pk r) k) (replacement_items db) then
          (set_replacement_items
             (map (fun r => if opt_is (ri_pk r) k then self else r)
                  (replacement_items db)) db, Ok self)
        else
          (set_replacement_items (replacement_items db ++ [self]) db, Ok self)
    | None =>
        let row :=
          with_ri_pk (next_pk (flat_map (fun r => opt_list (ri_pk r))
                                        (replacement_items db))) self in
        (set_replacement_items (replacement_items db ++ [row]) db, Ok row)
    end.

(** The batch [ReplacementItem.save] creates: the cost columns of the
    returned batch, no order line, source [REPLACEMENT]. *)
Definition replacement_batch (now : Z) (self : ReplacementItem)
  (original_stock : StockItem) : StockItem :=
  mkStockItem 0 (si_product_variant original_stock)
    (si_supplier original_stock) None (ri_batch_number self)
    (ri_expiry_date self) (ri_quantity self) (si_mrp original_stock)
    (si_base_cost_price original_stock)
    (si_discount_percentage original_stock)
    (si_gst_percentage original_stock) (si_cost_price original_stock)
    now REPLACEMENT.

Definition ReplacementItem_save (now : Z) (self : ReplacementItem)
  : M ReplacementItem :=
  self1 <-
    match ri_pk self with
    | None =>
        purchase_return <- (fun db =>
          follow (get_purchase_return db (ri_purchase_return self)) db) ;;
        original_stock <- (fun db =>
          follow (get_stock_item db (pr_stock_item purchase_return)) db) ;;
        new_stock_item <-
          StockItem_objects_create (replacement_batch now self original_stock) ;;
        ret (with_ri_created_stock_item (si_pk new_stock_item) self)
    | Some _ => ret self
    end ;;
  saved <- ReplacementItem_super_save self1 ;;
  update_status_of_return (ri_purchase_return saved) ;;;
  ret saved.

(** ** Supplier refunds and credit notes *)

Definition with_sr_pk (k : Z) (r : SupplierRefund) : SupplierRefund :=
  mkSupplierRefund (Some k) (sr_purchase_order r) (sr_purchase_return r)
    (sr_amount r).

(** [super().save()] of a refund, with the [created] flag that the
    post_save signal carries. *)
Definition SupplierRefund_super_save (self : SupplierRefund)
  : M (SupplierRefund * bool) :=
  fun db =>
    match sr_pk self with
    | Some k =>
        if existsb (fun r => opt_is (sr_pk r) k) (supplier_refunds db) then
          (set_supplier_refunds
             (map (fun r => if opt_is (sr_pk r) k then self else r)
                  (supplier_refunds db)) db, Ok (self, false))
        else
          (set_supplier_refunds (supplier_refunds db ++ [self]) db,
           Ok (self, true))
    | None =>
        let row :=
          with_sr_pk (next_pk (flat_map (fun r => opt_list (sr_pk r))
                                        (supplier_refunds db))) self in
        (set_supplier_refunds (supplier_refunds db ++ [row]) db,
         Ok (row, true))
    end.

(** The supplier that [create_credit_on_refund] settles on: the one of the
    refund's purchase order, else the one of the returned batch. *)
Definition refund_supplier (instance : SupplierRefund) : M (option Z) :=
  match sr_purchase_order instance with
  | Some p =>
      po <- (fun db => follow (get_purchase_order db p) db) ;;
      ret (Some (po_supplier po))
  | None =>
      match sr_purchase_return instance with
      | Some r =>
          purchase_return <- (fun db =>
            follow (get_purchase_return db r) db) ;;
          stock_item <- (fun db =>
            follow (get_stock_item db (pr_stock_item purchase_return)) db) ;;
          ret (si_supplier stock_item)
      | None => ret None
      end
  end.

Definition SupplierCredit_objects_create (supplier source_refund amount : Z)
  : M unit :=
  modify (fun db =>
    set_supplier_credits
      (supplier_credits db
       ++ [mkSupplierCredit (next_pk (map sc_pk (supplier_credits db)))
             supplier source_refund amount amount false]) db).

(** [create_credit_on_refund] (post_save of [SupplierRefund]).  The note
    of the credit reads [instance.purchase_return.pk], which raises when
    the refund has no return. *)
Definition create_credit_on_refund (instance : SupplierRefund)
  (created : bool) : M unit :=
  if created then
    supplier <- refund_supplier instance ;;
    match supplier with
    | Some s =>
        match sr_purchase_return instance, sr_pk instance with
        | Some _, Some k => SupplierCredit_objects_create s k (sr_amount instance)
        | _, _ => raise AttributeError
        end
    | None => ret tt
    end
  else ret tt.

Definition SupplierRefund_save (self : SupplierRefund) : M SupplierRefund :=
  transaction_atomic
    (saved <- SupplierRefund_super_save self ;;
     create_credit_on_refund (fst saved) (snd saved) ;;;
     match sr_purchase_return self with
     | Some r => update_status_of_return r
     | None => ret tt
     end ;;;
     match sr_purchase_order self with
     | Some p => update_status_of_order p
     | None => ret tt
     end ;;;
     ret (fst saved)).

Definition get_supplier_credit (db : DB) (k : Z) : option SupplierCredit :=
  find (fun c => sc_pk c =? k) (supplier_credits db).


Definition with_ca_pk (k : Z) (a : CreditApplication) : CreditApplication :=
  mkCreditApplication (Some k) (ca_credit a) (ca_applied_to_po a)
    (ca_amount_applied a).

(** [update_credit_balance_on_application] (post_save of
    [CreditApplication]): [credit.save()] writes the row of the credit. *)
Definition update_credit_balance_on_application
  (instance : CreditApplication) (created : bool) : M unit :=
  if created then
    credit <- (fun db => follow (get_supplier_credit db (ca_credit instance)) db) ;;
    let balance := sc_balance credit - ca_amount_applied instance in
    let is_fully_used :=
      if balance <=? 0 then true else sc_is_fully_used credit in
    modify (fun db =>
      set_supplier_credits
        (map (fun c => if sc_pk c =? sc_pk credit
                       then mkSupplierCredit (sc_pk credit)
                              (sc_supplier credit) (sc_source_refund credit)
                              (sc_initial_amount credit) balance is_fully_used
                       else c)
             (supplier_credits db)) db)
  else ret tt.

(** [CreditApplication.objects.create(...)] *)
Definition CreditApplication_objects_create (credit applied_to_po amount : Z)
  : M unit :=
  inserted <- (fun db =>
    let row :=
      mkCreditApplication
        (Some (next_pk (flat_map (fun a => opt_list (ca_pk a))
                                 (credit_applications db))))
        credit applied_to_po amount in
    (set_credit_applications (credit_applications db ++ [row]) db, Ok row)) ;;
  update_credit_balance_on_application inserted true.

(** ** Forms and views of the return workflow *)

(** [UnifiedReturnForm]: the quantity is required and not negative, and
    [clean_quantity] bounds a non-zero quantity by what the batch has left. *)
Definition UnifiedReturnForm_is_valid (db : DB) (stock_item : StockItem)
  (quantity : option Z) : bool :=
  match quantity with
  | Some q =>
      (0 <=? q)
      && (if negb (q =? 0) then negb (quantity_available db stock_item <? q)
          else true)
  | None => false
  end.

(** [PurchaseReturn.save] of a new return: [clean] checks nothing. *)
Definition PurchaseReturn_objects_create (purchase_order : option Z)
  (stock_item quantity : Z) : M unit :=
  modify (fun db =>
    set_purchase_returns
      (purchase_returns db
       ++ [mkPurchaseReturn (next_pk (map pr_pk (purchase_returns db)))
             purchase_order stock_item quantity RET_PENDING]) db).

(** [create_return_view]; [post] is the quantity field of a POST. *)
Definition create_return_view (stock_item_pk : Z)
  (post : option (option Z)) : M Response :=
  stock_item <- (fun db => get_or_404 (get_stock_item db stock_item_pk) db) ;;
  match post with
  | Some quantity =>
      valid <- gets (fun db =>
        UnifiedReturnForm_is_valid db stock_item quantity) ;;
      if valid then
        purchase_order <-
          match si_purchase_order_item stock_item with
          | Some i =>
              line <- (fun db => follow (get_purchase_order_item db i) db) ;;
              ret (Some (poi_purchase_order line))
          | None => ret None
          end ;;
        PurchaseReturn_objects_create purchase_order (si_pk stock_item)
          (or_zero quantity) ;;;
        ret RedirectWithSuccess
      else ret RenderForm
  | None => ret RenderForm
  end.

(** [SupplierRefundForm] and [GeneralSupplierRefundForm] validate alike:
    the field carries [MinValueValidator(Decimal('0.01'))] and the digits
    of the column, and [clean_amount] wants an amount above zero and not
    above what is pending on the return. *)
Definition SupplierRefundForm_is_valid (db : DB)
  (purchase_return : PurchaseReturn) (amount : option Z) : bool :=
  match amount with
  | None => false
  | Some a =>
      (1 <=? a) && fits_digits 10 a
      && negb (a <=? 0)
      && negb (value_pending_action db purchase_return <? a)
  end.

(** [add_supplier_refund_view]; [post] is the amount field of a POST. *)
Definition add_supplier_refund_view (order_pk return_pk : Z)
  (post : option (option Z)) : M Response :=
  purchase_order <- (fun db =>
    get_or_404 (get_purchase_order db order_pk) db) ;;
  purchase_return <- (fun db =>
    get_or_404
      (find (fun r => (pr_pk r =? return_pk)
                      && opt_is (pr_purchase_order r) (po_pk purchase_order))
            (purchase_returns db)) db) ;;
  pending <- gets (fun db => value_pending_action db purchase_return) ;;
  if pending <=? 0 then ret RedirectWithWarning
  else
    match post with
    | Some amount =>
        valid <- gets (fun db =>
          SupplierRefundForm_is_valid db purchase_return amount) ;;
        if valid then
          SupplierRefund_save
            (mkSupplierRefund None (Some (po_pk purchase_order))
               (Some (pr_pk purchase_return)) (or_zero amount)) ;;;
          ret RedirectWithSuccess
        else ret RenderForm
    | None => ret RenderForm
    end.

(** [create_general_refund_view] *)
Definition create_general_refund_view (return_pk : Z)
  (post : option (option Z)) : M Response :=
  purchase_return <- (fun db =>
    get_or_404 (get_purchase_return db return_pk) db) ;;
  match pr_purchase_order purchase_return with
  | Some _ => ret Redirect
  | None =>
      match post with
      | Some amount =>
          valid <- gets (fun db =>
            SupplierRefundForm_is_valid db purchase_return amount) ;;
          if valid then
            SupplierRefund_save
              (mkSupplierRefund None None (Some (pr_pk purchase_return))
                 (or_zero amount)) ;;;
            ret RedirectWithSuccess
          else ret RenderForm
      | None => ret RenderForm
      end
  end.

(** The fields of [ReplacementStockForm]. *)
Record ReplacementStockData : Type := mkReplacementStockData {
  rp_quantity : option Z;
  rp_batch_number : string;
  rp_expiry_date : option Z
}.

(** [ReplacementStockForm]: [min_value=1] and [clean_quantity] on the
    quantity, a batch number of at most 100 characters that is not blank,
    [clean_expiry_date], and the expiry date that [clean] requires for a
    product with expiry tracking.  [clean] raises when the batch or the
    variant of the return is missing; nothing has been written then, and
    the form counts as invalid. *)
Definition ReplacementStockForm_is_valid (db : DB) (today : Z)
  (purchase_return : PurchaseReturn) (d : ReplacementStockData) : bool :=
  match rp_quantity d with
  | None => false
  | Some q =>
      (1 <=? q)
      && negb (quantity_pending_action db purchase_return <? q)
      && negb (is_blank (rp_batch_number d))
      && (Z.of_nat (String.length (rp_batch_number d)) <=? 100)
      && match rp_expiry_date d with
         | Some e => negb (e <? today)
         | None => true
         end
      && match get_stock_item db (pr_stock_item purchase_return) with
         | Some s =>
             match get_product_variant db (si_product_variant s) with
             | Some v =>
                 if pv_requires_expiry_tracking v
                 then match rp_expiry_date d with
                      | Some _ => true
                      | None => false
                      end
                 else true
             | None => false
             end
         | None => false
         end
  end.

(** [@transaction.atomic def receive_replacement_view] *)
Definition receive_replacement_view (now today return_pk : Z)
  (post : option ReplacementStockData) : M Response :=
  transaction_atomic
    (purchase_return <- (fun db =>
       get_or_404 (get_purchase_return db return_pk) db) ;;
     pending <- gets (fun db => quantity_pending_action db purchase_return) ;;
     if pending <=? 0 then ret RedirectWithWarning
     else
       match post with
       | Some d =>
           valid <- gets (fun db =>
             ReplacementStockForm_is_valid db today purchase_return d) ;;
           if valid then
             ReplacementItem_save now
               (mkReplacementItem None (pr_pk purchase_return)
                  (or_zero (rp_quantity d)) None (rp_batch_number d)
                  (rp_expiry_date d)) ;;;
             ret RedirectWithSuccess
           else ret RenderForm
       | None => ret RenderForm
       end).

(** [@transaction.atomic def apply_supplier_credit_view]; [post] holds the
    credit id and the amount of a POST, each [None] when it is missing or
    does not parse. *)
Definition apply_supplier_credit_view (order_pk : Z)
  (post : option (option Z * option Z)) : M Response :=
  transaction_atomic
    match post with
    | None => ret Redirect
    | Some (credit_id, amount_to_apply) =>
        purchase_order <- (fun db =>
          get_or_404 (get_purchase_order db order_pk) db) ;;
        match credit_id, amount_to_apply with
        | Some cid, Some amount =>
            credit <- (fun db =>
              get_or_404
                (find (fun c => (sc_pk c =? cid)
                                && (sc_supplier c =? po_supplier purchase_order))
                      (supplier_credits db)) db) ;;
            balance_due <- gets (fun db =>
              PurchaseOrder_balance_due db purchase_order) ;;
            if amount <=? 0 then ret RedirectWithError
            else if sc_balance credit <? amount then ret RedirectWithError
            else if balance_due <? amount then ret RedirectWithError
            else
              CreditApplication_objects_create (sc_pk credit)
                (po_pk purchase_order) amount ;;;
              ret RedirectWithSuccess
        | _, _ => ret RedirectWithError
        end
    end.

(** ** [InvoiceItemForm] *)

Definition left_join {A : Type} (l : list A) : list (option A) :=
  match l with
  | [] => [None]
  | _ :: _ => map Some l
  end.

(** The rows of the query behind the [product_variant] field: the batches
    of the variant, each joined (LEFT OUTER) with its transactions and with
    its returns. *)
Definition variant_stock_rows (db : DB) (variant : Z)
  : list (StockItem * option StockItemTransaction * option PurchaseReturn) :=
  flat_map (fun s =>
    flat_map (fun t =>
      map (fun r => (s, t, r))
          (left_join (StockItem_purchasereturn_set db s)))
      (left_join (StockItem_transactions db s)))
    (filter (fun s => si_product_variant s =? variant) (stock_items db)).

(** The annotation [stock_available] of that query. *)
Definition stock_available (db : DB) (variant : Z) : Z :=
  let rows := variant_stock_rows db variant in
  let total_quantity := sumZ (map (fun row => si_quantity (fst (fst row))) rows) in
  let total_sold :=
    sumZ (map (fun row => match snd (fst row) with
                          | Some t => tx_quantity t
                          | None => 0
                          end) rows) in
  let total_returned :=
    sumZ (map (fun row => match snd row with
                          | Some r => pr_quantity r
                          | None => 0
                          end) rows) in
  total_quantity - total_sold - total_returned.

(** A bound [InvoiceItemForm]: the variant chosen must be active and have
    [stock_available > 0], the batch chosen must be a batch of that variant
    (no batch can be chosen without a variant), and the model's validators
    hold.  The quantity is not compared with what the batch has left. *)
Definition InvoiceItemForm_is_valid (db : DB) (product_variant : option Z)
  (item : InvoiceItem) : bool :=
  match product_variant with
  | Some v =>
      match get_product_variant db v with
      | Some row => pv_is_active row && (0 <? stock_available db v)
      | None => false
      end
  | None => true
  end
  && match ii_stock_item item with
     | Some s =>
         match product_variant, get_stock_item db s with
         | Some v, Some row => si_product_variant row =? v
         | _, _ => false
         end
     | None => true
     end
  && InvoiceItem_clean_fields item
  && negb (ii_quantity item <=? 0).

(** One form of the item formset of [create_invoice_view] and
    [edit_invoice_view]: validated, then saved. *)
Definition save_invoice_item_form (product_variant : option Z)
  (item : InvoiceItem) : M Response :=
  valid <- gets (fun db => InvoiceItemForm_is_valid db product_variant item) ;;
  if valid then InvoiceItem_save item ;;; ret RedirectWithSuccess
  else ret RenderForm.

(** ** The operations of the return and credit workflow *)

Inductive Op : Type :=
  | CreateReturn (stock_item_pk : Z) (quantity : option Z)
  | AddSupplierRefund (order_pk return_pk : Z) (amount : option Z)
  | CreateGeneralRefund (return_pk : Z) (amount : option Z)
  | ReceiveReplacement (now today return_pk : Z) (d : ReplacementStockData)
  | ApplySupplierCredit (order_pk : Z) (credit_id amount : option Z).

(** The store after the POST request of an operation. *)
Definition run_op (op : Op) (db : DB) : DB :=
  match op with
  | CreateReturn s q => fst (create_return_view s (Some q) db)
  | AddSupplierRefund p r a => fst (add_supplier_refund_view p r (Some a) db)
  | CreateGeneralRefund r a => fst (create_general_refund_view r (Some a) db)
  | ReceiveReplacement now today r d =>
      fst (receive_replacement_view now today r (Some d) db)
  | ApplySupplierCredit p c a =>
      fst (apply_supplier_credit_view p (Some (c, a)) db)
  end.

Definition run_ops (ops : list Op) (db : DB) : DB :=
  fold_left (fun acc op => run_op op acc) ops db.

(** ** Scenarios *)


(** A batch of 100 units at 10.00 received for the only line of purchase
    order 1, one active variant, one invoice, and a line of 20 units of
    that batch to put on the invoice. *)
Definition batch_A : StockItem :=
  mkStockItem 1 1 (Some 1) (Some 1) "A" None 100 1500 1000 0 0 1000 0
    PURCHASE_ORDER.

Definition receive_and_consume_db : DB :=
  mkDB [mkProductVariant 1 1500 true false] [] [batch_A]
    [mkPurchaseOrder 1 1 0 PO_COMPLETED]
    [mkPurchaseOrderItem 1 1 1 100 100] [] []
    [mkInvoice (Some 1) PENDING 0 0] [] [] [] [] [] [] [] [].

Definition twenty_of_batch_A : InvoiceItem :=
  mkInvoiceItem None 1 None (Some 1) 20 None 0.

(** An invoice line for 150 units of the same batch of 100, and the store
    after the form of that line is submitted with variant 1 chosen. *)
Definition oversell_of_batch_A : InvoiceItem :=
  mkInvoiceItem None 1 None (Some 1) 150 None 0.

Definition oversold_db : DB :=
  fst (save_invoice_item_form (Some 1) oversell_of_batch_A
         receive_and_consume_db).

(** Nested return: 10 units of batch A are returned (R1, on purchase
    order 1), replaced by a new batch B, and 5 units of B are returned
    (R2, a return with no purchase order). *)
Definition nested_return_ops : list Op :=
  [CreateReturn 1 (Some 10);
   ReceiveReplacement 0 0 1 (mkReplacementStockData (Some 10) "B" None);
   CreateReturn 2 (Some 5)].

Definition batch_B : StockItem :=
  mkStockItem 2 1 (Some 1) None "B" None 10 1500 1000 0 0 1000 0
    REPLACEMENT.

Definition return_R1 : PurchaseReturn :=
  mkPurchaseReturn 1 (Some 1) 1 10 RET_FULLY_PROCESSED.

Definition return_R2 : PurchaseReturn :=
  mkPurchaseReturn 2 None 2 5 RET_PENDING.

Definition nested_return_db : DB :=
  mkDB [mkProductVariant 1 1500 true false] [] [batch_A; batch_B]
    [mkPurchaseOrder 1 1 0 PO_COMPLETED]
    [mkPurchaseOrderItem 1 1 1 100 100] [] []
    [mkInvoice (Some 1) PENDING 0 0] [] [] []
    [return_R1; return_R2]
    [mkReplacementItem (Some 1) 1 10 (Some 2) "B" None] [] [] [].

Definition order_1 : PurchaseOrder := mkPurchaseOrder 1 1 0 PO_COMPLETED.

(** The reading of [grand_total] that counts replacement batches: a batch
    counts when it was received for a line of the order, or when it was
    created by a replacement for one of the order's related returns. *)
Definition linked_to_order_or_replacement (db : DB) (self : PurchaseOrder)
  (s : StockItem) : bool :=
  received_for_order db self s
  || existsb (fun rep =>
       opt_is (ri_created_stock_item rep) (si_pk s)
       && memZ (ri_purchase_return rep)
            (map pr_pk
               (match _get_all_related_returns db self with
                | Some l => l
                | None => []
                end)))
       (replacement_items db).

Definition grand_total_with_replacements (db : DB) (self : PurchaseOrder)
  : Z :=
  sumZ (map (fun s => si_quantity s * si_cost_price s)
            (filter (linked_to_order_or_replacement db self)
                    (stock_items db))).

(** The supplier a credit note for the refund is issued to, when the
    receiver finds one. *)
Definition supplier_of_refund (db : DB) (self : SupplierRefund) : option Z :=
  match refund_supplier self db with
  | (_, Ok o) => o
  | (_, Raise _) => None
  end.

(** A batch without supplier (the column is nullable) with 10 units of it
    returned, the return not tied to a purchase order. *)
Definition no_supplier_db : DB :=
  mkDB [mkProductVariant 1 1500 true false] []
    [mkStockItem 1 1 None None "M" None 50 1500 1000 0 0 1000 0
       MANUAL_ADDITION]
    [] [] [] [] [] [] [] []
    [mkPurchaseReturn 1 None 1 10 RET_PENDING] [] [] [] [].

(** Purchase order 1 with two open lines of the same variant, and the
    receipt forms used on it: 100 units for line 1, 50 units for line 2,
    50 units for a line that does not exist, and 100 units for line 1 at a
    base cost of -1.00. *)
Definition two_line_order_db : DB :=
  mkDB [mkProductVariant 1 1500 true false] [] []
    [mkPurchaseOrder 1 1 0 PO_PENDING]
    [mkPurchaseOrderItem 1 1 1 100 0; mkPurchaseOrderItem 2 1 1 50 0]
    [] [] [] [] [] [] [] [] [] [] [].

Definition form_line_1 : ReceiveStockData :=
  mkReceiveStockData 1 (Some 100) (Some 1500) (Some 1000) None None None
    "A1" None None.

Definition form_line_2 : ReceiveStockData :=
  mkReceiveStockData 2 (Some 50) (Some 1500) (Some 1000) None None None
    "A2" None None.

Definition form_line_missing : ReceiveStockData :=
  mkReceiveStockData 99 (Some 50) (Some 1500) (Some 1000) None None None
    "A2" None None.

Definition form_negative_cost : ReceiveStockData :=
  mkReceiveStockData 1 (Some 100) (Some 1500) (Some (-100)) None None None
    "N1" None None.

(** The store after that last receipt, and the return of 10 units of the
    batch it created. *)
Definition negative_cost_db : DB :=
  fst (receive_purchase_order_view 0 0 1 (Some [form_negative_cost])
         two_line_order_db).

Definition return_of_negative_cost : PurchaseReturn :=
  mkPurchaseReturn 1 (Some 1) 1 10 RET_PENDING.

(** An order cancelled before anything was received, and a payment
    recorded for it. *)
Definition cancelled_order : PurchaseOrder := mkPurchaseOrder 1 1 0 PO_CANCELLED.

Definition cancelled_order_db : DB :=
  mkDB [mkProductVariant 1 1500 true false] [] []
    [cancelled_order] [mkPurchaseOrderItem 1 1 1 100 0]
    [] [] [] [] [] [] [] [] [] [] [].

(** Return, refund, credit, apply: purchase order 1 is fully received as
    batch A (100 units at 10.00) and purchase order 2 as a batch of 50
    units at 10.00; 20 units of A are returned and refunded at 200.00, and
    150.00 of the credit note is applied to purchase order 2. *)
Definition credit_scenario_db : DB :=
  mkDB [mkProductVariant 1 1500 true false] []
    [batch_A;
     mkStockItem 2 1 (Some 1) (Some 2) "A2" None 50 1500 1000 0 0 1000 0
       PURCHASE_ORDER]
    [mkPurchaseOrder 1 1 0 PO_COMPLETED; mkPurchaseOrder 2 1 0 PO_COMPLETED]
    [mkPurchaseOrderItem 1 1 1 100 100; mkPurchaseOrderItem 2 2 1 50 50]
    [] [] [] [] [] [] [] [] [] [] [].



(** ** Predicates of the statements *)

(** The units that the forms of one receipt ask to receive for the order
    line [k]. *)
Definition requested_total (k : Z) (forms : list ReceiveStockData) : Z :=
  sumZ (map (fun d =>
               match requested_quantity d with
               | Some qty => if rs_purchase_order_item_id d =? k then qty
                             else 0
               | None => 0
               end) forms).

(** The forms of a receipt that ask for a batch. *)
Definition requested_forms (forms : list ReceiveStockData)
  : list ReceiveStockData :=
  filter (fun d => match requested_quantity d with
                   | Some _ => true
                   | None => false
                   end) forms.

(** [s] is the batch that the receipt of order [po] creates for form [d]. *)
Definition batch_of_form (db : DB) (po : PurchaseOrder)
  (d : ReceiveStockData) (s : StockItem) : Prop :=
  exists line qty,
    requested_quantity d = Some qty
    /\ get_purchase_order_item db (rs_purchase_order_item_id d) = Some line
    /\ si_purchase_order_item s = Some (rs_purchase_order_item_id d)
    /\ si_product_variant s = poi_product_variant line
    /\ si_supplier s = Some (po_supplier po)
    /\ si_quantity s = qty
    /\ si_batch_number s = rs_batch_number d
    /\ si_cost_price s
       = final_cost_per_item (or_zero (rs_base_cost_price d)) qty d
    /\ si_source s = PURCHASE_ORDER.

(** Between two stores, the received counter of every order line grew by
    what [forms] ask for it, and no line appeared or disappeared. *)
Definition counters_advanced (db db' : DB) (forms : list ReceiveStockData)
  : Prop :=
  forall k,
    match get_purchase_order_item db k, get_purchase_order_item db' k with
    | Some line, Some line' =>
        poi_quantity_received line'
        = poi_quantity_received line + requested_total k forms
        /\ poi_pk line' = poi_pk line
        /\ poi_purchase_order line' = poi_purchase_order line
        /\ poi_product_variant line' = poi_product_variant line
        /\ poi_quantity line' = poi_quantity line
    | None, None => True
    | _, _ => False
    end.

(** Referential integrity of [StockItemTransaction.invoice_item]. *)
Definition transactions_have_items (db : DB) : Prop :=
  forall t, In t (stock_item_transactions db) ->
    exists i, In i (invoice_items db) /\ ii_pk i = Some (tx_invoice_item t).

(** What the [while] loop of [_get_all_related_returns] maintains: the
    keys taken are the keys of the returns collected, which are distinct
    rows of the table related to the order; the returns still to check are
    among them; the nested returns of those already checked, and the direct
    returns of the order, are among them too. *)
Record loop_invariant (db : DB) (self : PurchaseOrder)
  (all to_check : list PurchaseReturn) (processed : list Z) : Prop := {
  inv_processed : forall k, In k processed <-> In k (map pr_pk all);
  inv_nodup : NoDup (map pr_pk all);
  inv_sound : forall r, In r all ->
                In r (purchase_returns db) /\ related_to_order db self r;
  inv_frontier : incl to_check all;
  inv_closed : forall r, In r all -> ~ In r to_check ->
                 forall r', nested_return_of db r r' -> In r' all;
  inv_direct : forall r, In r (purchase_returns db) ->
                 pr_purchase_order r = Some (po_pk self) -> In r all
}.

Definition loop_result (db : DB) (self : PurchaseOrder)
  (l : list PurchaseReturn) : Prop :=
  NoDup (map pr_pk l) /\ forall r, In r l <-> related_to_order db self r.

(** Two stores with the same replacement items, supplier refunds,
    batches, supplier credits and credit applications. *)
Definition same_ledger_tables (db db' : DB) : Prop :=
  replacement_items db' = replacement_items db
  /\ supplier_refunds db' = supplier_refunds db
  /\ stock_items db' = stock_items db
  /\ supplier_credits db' = supplier_credits db
  /\ credit_applications db' = credit_applications db.

(** The columns of a return that its derived values read; the status is
    the only other column. *)
Definition return_key (r : PurchaseReturn) : Z * option Z * Z * Z :=
  (pr_pk r, pr_purchase_order r, pr_stock_item r, pr_quantity r).

(** What one request of the return and credit workflow does to the tables
    of returns, replacement items, supplier refunds, batches, supplier
    credits and credit applications. *)
Inductive op_effect (db db' : DB) : Prop :=
  | effect_none :
      map return_key (purchase_returns db')
      = map return_key (purchase_returns db) ->
      replacement_items db' = replacement_items db ->
      supplier_refunds db' = supplier_refunds db ->
      stock_items db' = stock_items db ->
      supplier_credits db' = supplier_credits db ->
      credit_applications db' = credit_applications db ->
      op_effect db db'
  | effect_return : forall stock po q,
      get_stock_item db (si_pk stock) = Some stock ->
      0 <= q ->
      purchase_returns db'
      = purchase_returns db
        ++ [mkPurchaseReturn (next_pk (map pr_pk (purchase_returns db)))
              po (si_pk stock) q RET_PENDING] ->
      replacement_items db' = replacement_items db ->
      supplier_refunds db' = supplier_refunds db ->
      stock_items db' = stock_items db ->
      supplier_credits db' = supplier_credits db ->
      credit_applications db' = credit_applications db ->
      op_effect db db'
  | effect_refund : forall r k po a,
      In r (purchase_returns db) ->
      1 <= a ->
      a <= value_pending_action db r ->
      map return_key (purchase_returns db')
      = map return_key (purchase_returns db) ->
      replacement_items db' = replacement_items db ->
      supplier_refunds db'
      = supplier_refunds db ++ [mkSupplierRefund (Some k) po (Some (pr_pk r)) a] ->
      stock_items db' = stock_items db ->
      (supplier_credits db' = supplier_credits db
       \/ exists s,
            supplier_credits db'
            = supplier_credits db
              ++ [mkSupplierCredit (next_pk (map sc_pk (supplier_credits db)))
                    s k a a false]) ->
      credit_applications db' = credit_applications db ->
      op_effect db db'
  | effect_replacement : forall r k q original batch rep,
      In r (purchase_returns db) ->
      get_stock_item db (pr_stock_item r) = Some original ->
      1 <= q ->
      q <= quantity_pending_action db r ->
      si_cost_price batch = si_cost_price original ->
      ri_pk rep = Some k ->
      ri_purchase_return rep = pr_pk r ->
      ri_quantity rep = q ->
      map return_key (purchase_returns db')
      = map return_key (purchase_returns db) ->
      replacement_items db' = replacement_items db ++ [rep] ->
      supplier_refunds db' = supplier_refunds db ->
      stock_items db' = stock_items db ++ [batch] ->
      supplier_credits db' = supplier_credits db ->
      credit_applications db' = credit_applications db ->
      op_effect db db'
  | effect_application : forall c credit k po a,
      In c (supplier_credits db) ->
      get_supplier_credit db (sc_pk c) = Some credit ->
      0 < a ->
      a <= sc_balance c ->
      purchase_returns db' = purchase_returns db ->
      replacement_items db' = replacement_items db ->
      supplier_refunds db' = supplier_refunds db ->
      stock_items db' = stock_items db ->
      supplier_credits db'
      = map (fun x =>
               if sc_pk x =? sc_pk credit
               then mkSupplierCredit (sc_pk credit) (sc_supplier credit)
                      (sc_source_refund credit) (sc_initial_amount credit)
                      (sc_balance credit - a)
                      (if sc_balance credit - a <=? 0 then true
                       else sc_is_fully_used credit)
               else x)
            (supplier_credits db) ->
      credit_applications db'
      = credit_applications db ++ [mkCreditApplication (Some k) (sc_pk c) po a] ->
      op_effect db db'.


(** Consistency of the returns: distinct keys, no negative cost price, the
    returned batch of every return exists, replacement items and refunds
    are for returns of the table, and for every return the value replaced
    and the amount refunded stay within its total value. *)
Definition returns_consistent (db : DB) : Prop :=
  NoDup (map pr_pk (purchase_returns db))
  /\ (forall s, In s (stock_items db) -> 0 <= si_cost_price s)
  /\ (forall r, In r (purchase_returns db) ->
        exists s, get_stock_item db (pr_stock_item r) = Some s)
  /\ (forall rep, In rep (replacement_items db) ->
        In (ri_purchase_return rep) (map pr_pk (purchase_returns db)))
  /\ (forall rf k, In rf (supplier_refunds db) ->
        sr_purchase_return rf = Some k ->
        In k (map pr_pk (purchase_returns db)))
  /\ (forall r, In r (purchase_returns db) ->
        value_of_items_replaced db r + amount_refunded db r
        <= total_value db r).

Ltac unfold_m :=
  unfold bind, ret, raise, gets, modify, follow, get_or_404,
    transaction_atomic in *.

(** * Further parts of the ledger *)

(** ** Patient payments and refunds: [InvoicePaymentForm], [RefundForm],
    [add_invoice_payment_view], [record_refund_view] and the receivers
    [on_payment_change] and [on_refund_change] *)

Definition set_invoice_payments (l : list InvoicePayment) (db : DB) : DB :=
  mkDB (product_variants db) (services db) (stock_items db)
    (purchase_orders db) (purchase_order_items db) (supplier_payments db)
    (stock_item_transactions db) (invoices db) (invoice_items db)
    l (refunds db) (purchase_returns db)
    (replacement_items db) (supplier_refunds db) (supplier_credits db)
    (credit_applications db).

Definition set_refunds (l : list Refund) (db : DB) : DB :=
  mkDB (product_variants db) (services db) (stock_items db)
    (purchase_orders db) (purchase_order_items db) (supplier_payments db)
    (stock_item_transactions db) (invoices db) (invoice_items db)
    (invoice_payments db) l (purchase_returns db)
    (replacement_items db) (supplier_refunds db) (supplier_credits db)
    (credit_applications db).

(** [on_payment_change] and [on_refund_change] (post_save):
    [instance.invoice.save()], on the invoice object that the view has
    attached to the instance. *)
Definition on_payment_change (invoice : Invoice) : M unit :=
  fun db =>
    match Invoice_save invoice db with
    | (db', Ok _) => (db', Ok tt)
    | (db', Raise e) => (db', Raise e)
    end.

Definition on_refund_change (invoice : Invoice) : M unit :=
  fun db =>
    match Invoice_save invoice db with
    | (db', Ok _) => (db', Ok tt)
    | (db', Raise e) => (db', Raise e)
    end.

(** [payment.save()] and [refund.save()] of a new row, followed by the
    receiver. *)
Definition InvoicePayment_save (self : InvoicePayment) (invoice : Invoice)
  : M unit :=
  modify (fun db =>
    set_invoice_payments (invoice_payments db ++ [self]) db) ;;;
  on_payment_change invoice.

Definition Refund_save (self : Refund) (invoice : Invoice) : M unit :=
  modify (fun db => set_refunds (refunds db ++ [self]) db) ;;;
  on_refund_change invoice.

(** [InvoicePaymentForm] on its amount (the other fields are taken to be
    well formed): the field carries [MinValueValidator(Decimal('0.01'))]
    and the digits of the column, and [clean_amount] wants an amount above
    zero and not above the balance due of the invoice. *)
Definition InvoicePaymentForm_is_valid (db : DB) (invoice : Invoice)
  (amount : option Z) : bool :=
  match amount with
  | None => false
  | Some a =>
      (1 <=? a) && fits_digits 10 a
      && negb (a <=? 0)
      && negb (Invoice_balance_due db invoice <? a)
  end.

(** [add_invoice_payment_view]; [post] is the amount field of a POST. *)
Definition add_invoice_payment_view (pk : Z) (post : option (option Z))
  : M Response :=
  invoice <- (fun db => get_or_404 (get_invoice db pk) db) ;;
  match post with
  | Some amount =>
      valid <- gets (fun db => InvoicePaymentForm_is_valid db invoice amount) ;;
      if valid then
        InvoicePayment_save (mkInvoicePayment pk (or_zero amount)) invoice ;;;
        ret RedirectWithSuccess
      else ret RenderForm
  | None => ret RenderForm
  end.

(** [RefundForm]: as above on the field, and [clean_amount] wants an
    overpaid invoice and an amount not above what was overpaid. *)
Definition RefundForm_is_valid (db : DB) (invoice : Invoice)
  (amount : option Z) : bool :=
  match amount with
  | None => false
  | Some a =>
      (1 <=? a) && fits_digits 10 a
      && negb (a <=? 0)
      && negb (0 <=? Invoice_balance_due db invoice)
      && negb (- Invoice_balance_due db invoice <? a)
  end.

(** [record_refund_view] *)
Definition record_refund_view (pk : Z) (post : option (option Z))
  : M Response :=
  invoice <- (fun db => get_or_404 (get_invoice db pk) db) ;;
  balance_due <- gets (fun db => Invoice_balance_due db invoice) ;;
  if 0 <=? balance_due then ret RedirectWithError
  else
    match post with
    | Some amount =>
        valid <- gets (fun db => RefundForm_is_valid db invoice amount) ;;
        if valid then
          Refund_save (mkRefund pk (or_zero amount)) invoice ;;;
          ret RedirectWithSuccess
        else ret RenderForm
    | None => ret RenderForm
    end.


(** ** Supplier payments: [SupplierPaymentForm],
    [add_supplier_payment_view], [Supplier.get_outstanding_balance] *)

Definition SupplierPaymentForm_is_valid (db : DB)
  (purchase_order : PurchaseOrder) (amount : option Z) : bool :=
  match amount with
  | None => false
  | Some a =>
      (1 <=? a) && fits_digits 10 a
      && negb (a <=? 0)
      && negb (PurchaseOrder_balance_due db purchase_order <? a)
  end.

Definition add_supplier_payment_view (pk : Z) (post : option (option Z))
  : M Response :=
  purchase_order <- (fun db => get_or_404 (get_purchase_order db pk) db) ;;
  match post with
  | Some amount =>
      valid <- gets (fun db =>
        SupplierPaymentForm_is_valid db purchase_order amount) ;;
      if valid then
        SupplierPayment_save
          (mkSupplierPayment (po_pk purchase_order) (or_zero amount)) ;;;
        ret RedirectWithSuccess
      else ret RenderForm
  | None => ret RenderForm
  end.

(** [Supplier.get_outstanding_balance]: the balance due summed over the
    purchase orders of the supplier. *)
Definition get_outstanding_balance (db : DB) (supplier : Z) : Z :=
  sumZ (map (PurchaseOrder_balance_due db)
            (filter (fun p => po_supplier p =? supplier)
                    (purchase_orders db))).

(** ** Cancelling a purchase order: [cancel_purchase_order_view] *)

Definition is_po_pending (st : POStatus) : bool :=
  match st with PO_PENDING => true | _ => false end.

(** [po.save()]: every column of the row is written. *)
Definition PurchaseOrder_save (self : PurchaseOrder) : M unit :=
  modify (fun db =>
    set_purchase_orders
      (map (fun p => if po_pk p =? po_pk self then self else p)
           (purchase_orders db)) db).

Definition cancel_purchase_order_view (pk : Z) (is_post : bool)
  : M Response :=
  po <- (fun db => get_or_404 (get_purchase_order db pk) db) ;;
  if negb (is_po_pending (po_status po)) then ret RedirectWithError
  else if is_post then
    PurchaseOrder_save (with_po_status PO_CANCELLED po) ;;;
    ret RedirectWithSuccess
  else ret Redirect.

(** The order lines that [receive_purchase_order_view] pairs with the
    forms of the formset: the lines of the order not yet fully received. *)
Definition items_to_receive (db : DB) (pk : Z) : list PurchaseOrderItem :=
  match get_purchase_order db pk with
  | Some po =>
      filter (fun i => poi_quantity_received i <? poi_quantity i)
             (PurchaseOrder_items db po)
  | None => []
  end.

(** ** Stock figures: [ProductVariant.stock_quantity] and
    [get_invoice_context_data] *)

Definition ProductVariant_stock_items (db : DB) (variant : Z)
  : list StockItem :=
  filter (fun s => si_product_variant s =? variant) (stock_items db).

Definition stock_quantity (db : DB) (variant : Z) : Z :=
  sumZ (map (quantity_available db) (ProductVariant_stock_items db variant)).

(** The rows that the query of [get_invoice_context_data] groups for one
    batch: the batch joined (LEFT OUTER) with its transactions and with
    its returns. *)
Definition stock_rows (db : DB) (s : StockItem)
  : list (option StockItemTransaction * option PurchaseReturn) :=
  flat_map (fun t =>
    map (fun r => (t, r)) (left_join (StockItem_purchasereturn_set db s)))
    (left_join (StockItem_transactions db s)).

(** The annotations [sold_qty] and [returned_qty] of that query. *)
Definition sold_qty (db : DB) (s : StockItem) : Z :=
  sumZ (map (fun row => match fst row with
                        | Some t => tx_quantity t
                        | None => 0
                        end) (stock_rows db s)).

Definition returned_qty (db : DB) (s : StockItem) : Z :=
  sumZ (map (fun row => match snd row with
                        | Some r => pr_quantity r
                        | None => 0
                        end) (stock_rows db s)).

(** [available_stock]: the batches of active variants whose quantity is
    above the two annotations together.  The batches are listed in the
    order of the table; [order_by('expiry_date')] only reorders them. *)
Definition available_stock (db : DB) : list StockItem :=
  filter (fun s =>
            (sold_qty db s + returned_qty db s <? si_quantity s)
            && existsb (fun v => pv_is_active v
                                 && (pv_pk v =? si_product_variant s))
                       (product_variants db))
         (stock_items db).

(** [batches_data[variant_id]]: for each batch listed, its key, its MRP
    and the [available] figure, which is [stock.quantity_available]; the
    display name of the batch is left out. *)
Definition batches_data (db : DB) (variant_id : Z) : list (Z * Z * Z) :=
  map (fun s => (si_pk s, si_mrp s, quantity_available db s))
      (filter (fun s => si_product_variant s =? variant_id)
              (available_stock db)).

(** The number of rows a LEFT OUTER JOIN yields for a related set. *)
Definition join_width {A : Type} (l : list A) : Z :=
  Z.of_nat (List.length (left_join l)).

(** ** Predicates of the further statements *)

(** The forms of a receipt are for the order lines they are paired with:
    form [i] carries the key of line [i]. *)
Fixpoint forms_match_lines (forms : list ReceiveStockData)
  (lines : list PurchaseOrderItem) : bool :=
  match forms, lines with
  | [], _ => true
  | d :: forms', line :: lines' =>
      (rs_purchase_order_item_id d =? poi_pk line)
      && forms_match_lines forms' lines'
  | _ :: _, [] => false
  end.

(** No order line has received more than was ordered, and no counter is
    negative. *)
Definition lines_within_order (db : DB) : Prop :=
  forall line, In line (purchase_order_items db) ->
    0 <= poi_quantity_received line <= poi_quantity line.

(** The stored total of an invoice is the one its lines give. *)
Definition total_in_sync (db : DB) (invoice : Invoice) : Prop :=
  inv_total_amount invoice = calculate_total_amount db invoice.


(** No refund or replacement is for a negative amount or quantity, and no
    return has more units replaced than were returned. *)
Definition replaced_within_returned (db : DB) : Prop :=
  (forall rf, In rf (supplier_refunds db) -> 0 <= sr_amount rf)
  /\ (forall rep, In rep (replacement_items db) -> 0 <= ri_quantity rep)
  /\ (forall r, In r (purchase_returns db) ->
        quantity_replaced db r <= pr_quantity r).

(** The units of batch [b] held by the transactions of invoice line [k]. *)
Definition consumed_by_line (db : DB) (k : Z) (b : StockItem) : Z :=
  sumZ (map tx_quantity
            (filter (fun t => tx_invoice_item t =? k)
                    (StockItem_transactions db b))).

(** ** Further scenarios *)

(** Invoice 1 with one service line of 2 x 500.00, its stored total in
    step with the line and nothing paid; and the same invoice after
    1200.00 was paid for it, which is 200.00 too much. *)
Definition invoice_scenario_db : DB :=
  mkDB [mkProductVariant 1 1500 true false] [mkService 1 50000] [] [] [] []
    []
    [mkInvoice (Some 1) PENDING 100000 0]
    [mkInvoiceItem (Some 1) 1 (Some 1) None 2 (Some 50000) 0]
    [] [] [] [] [] [] [].

Definition overpaid_invoice_db : DB :=
  mkDB [mkProductVariant 1 1500 true false] [mkService 1 50000] [] [] [] []
    []
    [mkInvoice (Some 1) PAID 100000 0]
    [mkInvoiceItem (Some 1) 1 (Some 1) None 2 (Some 50000) 0]
    [mkInvoicePayment 1 120000] [] [] [] [] [] [].

(** Invoice 1 with a line of 20 units of batch A, and a second batch of
    the same variant; the line is then edited to 5 units of the second
    batch. *)
Definition batch_A2 : StockItem :=
  mkStockItem 2 1 (Some 1) (Some 2) "A2" None 50 1500 1000 0 0 1000 0
    PURCHASE_ORDER.

Definition edit_line_db : DB :=
  mkDB [mkProductVariant 1 1500 true false] [] [batch_A; batch_A2]
    [mkPurchaseOrder 1 1 0 PO_COMPLETED; mkPurchaseOrder 2 1 0 PO_COMPLETED]
    [mkPurchaseOrderItem 1 1 1 100 100; mkPurchaseOrderItem 2 2 1 50 50]
    [] [mkStockItemTransaction 1 1 20]
    [mkInvoice (Some 1) PENDING 30000 0]
    [mkInvoiceItem (Some 1) 1 None (Some 1) 20 (Some 1500) 0]
    [] [] [] [] [] [] [].

Definition edited_line : InvoiceItem :=
  mkInvoiceItem (Some 1) 1 None (Some 2) 5 (Some 1500) 0.

(** A receipt form with a discount of 10 percent and GST of 5 percent on a
    base cost of 10.00, for an MRP of 15.00. *)
Definition form_with_discount : ReceiveStockData :=
  mkReceiveStockData 1 (Some 100) (Some 1500) (Some 1000) (Some 1000) None
    (Some 500) "D1" None None.

(** ** Invoice numbers: the first block of [Invoice.save]

    Text is ASCII here: a byte above 127 is not a digit and has no other
    case. *)

Definition to_lower (c : ascii) : ascii :=
  let n := N_of_ascii c in
  if ((65 <=? n) && (n <=? 90))%N then ascii_of_N (n + 32) else c.

(** [filter(invoice_number__startswith=prefix)] on the SQLite backend that
    the settings select: [LIKE] with the prefix taken literally, which
    does not tell the case of ASCII letters apart. *)
Fixpoint like_startswith (prefix s : string) : bool :=
  match prefix with
  | EmptyString => true
  | String a prefix' =>
      match s with
      | EmptyString => false
      | String b s' =>
          Ascii.eqb (to_lower a) (to_lower b) && like_startswith prefix' s'
      end
  end.

(** [.order_by('invoice_number').last()]: the greatest number, the bytes
    compared in order. *)
Definition last_number (numbers : list string) : option string :=
  fold_left (fun acc s =>
               match acc with
               | None => Some s
               | Some m => if String.leb m s then Some s else Some m
               end) numbers None.

(** [s.replace(old, '')] for a non-empty [old]: every occurrence of [old],
    found from the left, is dropped; [skip] counts the characters of an
    occurrence still to drop. *)
Fixpoint drop_occurrences (old : string) (skip : nat) (s : string) : string :=
  match s with
  | EmptyString => EmptyString
  | String c s' =>
      match skip with
      | S n => drop_occurrences old n s'
      | O =>
          if String.prefix old s
          then drop_occurrences old (String.length old - 1) s'
          else String c (drop_occurrences old 0 s')
      end
  end.

Definition replace_with_nothing (old s : string) : string :=
  drop_occurrences old 0 s.

Definition is_digit (c : ascii) : bool :=
  let n := N_of_ascii c in ((48 <=? n) && (n <=? 57))%N.

(** [s.isdigit()] for a string of ASCII characters, as the numbers this
    code writes are. *)
Definition isdigit (s : string) : bool :=
  negb (String.eqb s EmptyString)
  && forallb is_digit (list_ascii_of_string s).

(** [int(s)] for a string of ASCII digits *)
Definition int_of_digits (s : string) : Z :=
  fold_left (fun acc c => 10 * acc + (Z.of_N (N_of_ascii c) - 48))
            (list_ascii_of_string s) 0.

Fixpoint digits_of (fuel : nat) (n : Z) (acc : string) : string :=
  match fuel with
  | O => acc
  | S fuel' =>
      let acc' := String (ascii_of_N (Z.to_N (48 + n mod 10))) acc in
      if n <? 10 then acc' else digits_of fuel' (n / 10) acc'
  end.

(** [str(n)] for [n >= 0]; [n] has at most [log2 n + 1] decimal digits. *)
Definition str_of_int (n : Z) : string :=
  digits_of (S (Z.to_nat (Z.log2 n))) n EmptyString.

Fixpoint zeros (n : nat) : string :=
  match n with
  | O => EmptyString
  | S m => String "0"%char (zeros m)
  end.

(** [s.zfill(width)] for a string without sign *)
Definition zfill (width : nat) (s : string) : string :=
  (zeros (width - String.length s) ++ s)%string.

Definition invoice_prefix (today_str : string) : string :=
  ("INV-" ++ today_str ++ "-")%string.

(** The number [Invoice.save] gives an invoice that has none;
    [today_str] is [timezone.now().strftime('%y%m%d')] and [numbers] the
    invoice numbers of the table. *)
Definition next_invoice_number (today_str : string) (numbers : list string)
  : string :=
  let prefix := invoice_prefix today_str in
  let last := last_number (filter (like_startswith prefix) numbers) in
  let seq :=
    match last with
    | Some number =>
        let tail := replace_with_nothing prefix number in
        if isdigit tail then int_of_digits tail + 1 else 1
    | None => 1
    end in
  (prefix ++ zfill 4 (str_of_int seq))%string.

(** The number of the day with sequence number [n]. *)
Definition invoice_number_of (today_str : string) (n : Z) : string :=
  (invoice_prefix today_str ++ zfill 4 (str_of_int n))%string.

(** The sequence numbers from [0] to [10000], for checks by evaluation. *)
Definition sequence_numbers : list Z :=
  map Z.of_nat (seq 0 (Z.to_nat 10001)).

(** What is checked of each of them: the four digits (five for 10000) read
    back as the number, the next number is greater in the order of the
    bytes up to 9999, and none is above 9999 in that order. *)
Definition sequence_number_checks (n : Z) : bool :=
  let s := zfill 4 (str_of_int n) in
  (int_of_digits s =? n)
  && isdigit s
  && ((9999 <=? n)
      || match String.compare s (zfill 4 (str_of_int (n + 1))) with
         | Lt => true
         | _ => false
         end)
  && String.leb s (zfill 4 (str_of_int 9999)).

(** A day with two invoices and one of the day before, and a day whose
    numbers have reached 10000. *)
Definition day_numbers : list string :=
  ["INV-250101-0001"; "INV-250101-0002"; "INV-241231-0007"]%string.

Definition full_day_numbers : list string :=
  ["INV-250101-9999"; "INV-250101-10000"]%string.

(** * Properties *)

(** ** Lemmas on sums, keys and lookups *)

Lemma sumZ_app : forall l1 l2 : list Z, sumZ (l1 ++ l2) = sumZ l1 + sumZ l2.
Proof.
  induction l1 as [|x l1 IH]; intros l2; simpl; [reflexivity|].
  rewrite IH. lia.
Qed.

Lemma fold_max_ge : forall (l : list Z) (k : Z),
  In k l -> k <= fold_right Z.max 0 l.
Proof.
  induction l as [|x l IH]; simpl; intros k Hin; [contradiction|].
  destruct Hin as [<-|Hin]; [lia|]. specialize (IH _ Hin). lia.
Qed.

Lemma next_pk_above : forall (l : list Z) (k : Z), In k l -> k < next_pk l.
Proof.
  intros l k Hin. unfold next_pk. pose proof (fold_max_ge l k Hin). lia.
Qed.

Lemma next_pk_fresh : forall l : list Z, ~ In (next_pk l) l.
Proof.
  intros l Hin. apply next_pk_above in Hin. lia.
Qed.

Lemma memZ_In : forall (k : Z) (l : list Z), memZ k l = true <-> In k l.
Proof.
  intros k l. unfold memZ. rewrite existsb_exists. split.
  - intros [x [Hin Heq]]. apply Z.eqb_eq in Heq. subst. assumption.
  - intros Hin. exists k. split; [assumption|apply Z.eqb_refl].
Qed.

Lemma memZ_not_In : forall (k : Z) (l : list Z), memZ k l = false <-> ~ In k l.
Proof.
  intros k l. rewrite <- memZ_In. destruct (memZ k l); split; congruence.
Qed.

Lemma find_map_same_key :
  forall (A : Type) (p : A -> bool) (f : A -> A) (l : list A),
    (forall x, p (f x) = p x) ->
    find p (map f l) = option_map f (find p l).
Proof.
  intros A p f l Hp. induction l as [|x l IH]; simpl; [reflexivity|].
  rewrite Hp. destruct (p x); [reflexivity|exact IH].
Qed.

Lemma find_app_some :
  forall (A : Type) (p : A -> bool) (l1 l2 : list A) (x : A),
    find p l1 = Some x -> find p (l1 ++ l2) = Some x.
Proof.
  intros A p l1 l2 x. induction l1 as [|y l1 IH]; simpl; [discriminate|].
  destruct (p y); [trivial|exact IH].
Qed.

Lemma find_app_none :
  forall (A : Type) (p : A -> bool) (l1 l2 : list A),
    find p l1 = None -> find p (l1 ++ l2) = find p l2.
Proof.
  intros A p l1 l2. induction l1 as [|y l1 IH]; simpl; [reflexivity|].
  destruct (p y); [discriminate|exact IH].
Qed.

Lemma filter_ext_in_eq :
  forall (A : Type) (p q : A -> bool) (l : list A),
    (forall x, In x l -> p x = q x) -> filter p l = filter q l.
Proof.
  intros A p q l H. induction l as [|x l IH]; simpl; [reflexivity|].
  rewrite (H x (or_introl eq_refl)).
  rewrite IH; [reflexivity|]. intros y Hy. apply H. right. assumption.
Qed.

Lemma NoDup_map_same :
  forall (A : Type) (f : A -> Z) (l : list A) (x y : A),
    NoDup (map f l) -> In x l -> In y l -> f x = f y -> x = y.
Proof.
  intros A f l. induction l as [|z l IH]; simpl; intros x y Hnd Hx Hy Hf;
    [contradiction|].
  inversion Hnd as [|? ? Hz Hl]; subst.
  destruct Hx as [<-|Hx], Hy as [<-|Hy].
  - reflexivity.
  - exfalso. apply Hz. rewrite Hf. apply in_map. exact Hy.
  - exfalso. apply Hz. rewrite <- Hf. apply in_map. exact Hx.
  - apply IH; assumption.
Qed.

Lemma NoDup_snoc :
  forall (l : list Z) (k : Z), NoDup l -> ~ In k l -> NoDup (l ++ [k]).
Proof.
  intros l k Hnd Hk. apply NoDup_app; [exact Hnd|repeat constructor; auto|].
  intros x Hx [<-|[]]. contradiction.
Qed.

Lemma filter_nothing :
  forall (A : Type) (p : A -> bool) (l : list A),
    (forall x, In x l -> p x = false) -> filter p l = [].
Proof.
  intros A p l H. induction l as [|x l IH]; simpl; [reflexivity|].
  rewrite (H x (or_introl eq_refl)). apply IH.
  intros y Hy. apply H. right. exact Hy.
Qed.

(** ** Purchase-order status *)

Lemma PurchaseOrder_new_status_not_cancelled :
  forall db self, PurchaseOrder_new_status db self <> PO_CANCELLED.
Proof.
  intros db self. unfold PurchaseOrder_new_status.
  destruct (is_empty _); [discriminate|].
  destruct (_ =? 0); [discriminate|].
  destruct (_ <? _); discriminate.
Qed.



(** ** Invoice status *)

Lemma Invoice_super_save_frame :
  forall self db db' r,
    Invoice_super_save self db = (db', r) ->
    db' = set_invoices (invoices db') db.
Proof.
  intros self db db' r E. unfold Invoice_super_save in E.
  destruct (inv_pk self) as [k|].
  - destruct (existsb _ _); inversion E; subst; reflexivity.
  - inversion E; subst; reflexivity.
Qed.

Lemma Invoice_save_frame :
  forall self db db' r,
    Invoice_save self db = (db', r) ->
    db' = set_invoices (invoices db') db.
Proof.
  intros self db db' r E. unfold Invoice_save, transaction_atomic in E.
  destruct (Invoice_super_save (Invoice_recompute db self) db)
    as [db1 r1] eqn:E1.
  apply Invoice_super_save_frame in E1.
  destruct r1; inversion E; subst.
  - exact E1.
  - destruct db'; reflexivity.
Qed.

Lemma find_upsert :
  forall (A : Type) (p : A -> bool) (x : A) (l : list A),
    p x = true ->
    find p (if existsb p l then map (fun y => if p y then x else y) l
            else l ++ [x]) = Some x.
Proof.
  intros A p x l Hx. destruct (existsb p l) eqn:E.
  - induction l as [|y l IH]; simpl in *; [discriminate|].
    destruct (p y) eqn:Ey.
    + simpl. rewrite Hx. reflexivity.
    + simpl in E. simpl. rewrite Ey. apply IH. exact E.
  - induction l as [|y l IH]; simpl in *.
    + rewrite Hx. reflexivity.
    + apply orb_false_iff in E. destruct E as [Ey El].
      rewrite Ey. apply IH. exact El.
Qed.

Lemma Invoice_save_existing :
  forall db self k,
    inv_pk self = Some k ->
    exists db',
      Invoice_save self db = (db', Ok (Invoice_recompute db self))
      /\ get_invoice db' k = Some (Invoice_recompute db self)
      /\ db' = set_invoices (invoices db') db.
Proof.
  intros db self k Hk.
  assert (Hk' : inv_pk (Invoice_recompute db self) = Some k).
  { unfold Invoice_recompute. rewrite Hk. cbn.
    destruct (is_cancelled _); cbn; [exact Hk|].
    destruct (_ <=? 0); [exact Hk|]. destruct (0 <? _); exact Hk. }
  unfold Invoice_save, transaction_atomic, Invoice_super_save.
  rewrite Hk'.
  set (p := fun i : Invoice => opt_is (inv_pk i) k).
  set (saved := Invoice_recompute db self) in *.
  assert (Hp : p saved = true)
    by (unfold p; rewrite Hk'; simpl; apply Z.eqb_refl).
  pose proof (find_upsert Invoice p saved (invoices db) Hp) as Hf.
  fold p. destruct (existsb p (invoices db)).
  - eexists. split; [reflexivity|]. split; [exact Hf|reflexivity].
  - eexists. split; [reflexivity|]. split; [exact Hf|reflexivity].
Qed.




(** ** Stock consumption by invoice items *)

Lemma In_flat_map_opt_list :
  forall (A : Type) (f : A -> option Z) (l : list A) (x : A) (k : Z),
    In x l -> f x = Some k -> In k (flat_map (fun y => opt_list (f y)) l).
Proof.
  intros A f l x k Hin Hf. apply in_flat_map. exists x.
  split; [exact Hin|]. rewrite Hf. left. reflexivity.
Qed.

Lemma update_invoice_on_item_change_frame :
  forall instance db db' r,
    update_invoice_on_item_change instance db = (db', r) ->
    db' = set_invoices (invoices db') db.
Proof.
  intros instance db db' r E. unfold update_invoice_on_item_change in E.
  destruct (get_invoice db (ii_invoice instance)) as [inv|].
  - destruct (Invoice_save inv db) as [db1 r1] eqn:E1.
    apply Invoice_save_frame in E1.
    destruct r1; inversion E; subst; exact E1.
  - inversion E; subst. destruct db'; reflexivity.
Qed.

Lemma update_invoice_on_item_change_again :
  forall instance db db',
    update_invoice_on_item_change instance db = (db', Ok tt) ->
    forall db2,
      invoices db2 = invoices db' ->
      exists db3, update_invoice_on_item_change instance db2 = (db3, Ok tt).
Proof.
  intros instance db db' E db2 Hinv.
  unfold update_invoice_on_item_change in E |- *.
  destruct (get_invoice db (ii_invoice instance)) as [inv|] eqn:G;
    [|discriminate].
  destruct (inv_pk inv) as [k|] eqn:Hk.
  2:{ unfold get_invoice in G. apply find_some in G. destruct G as [_ G].
      rewrite Hk in G. discriminate. }
  assert (Hkk : k = ii_invoice instance).
  { unfold get_invoice in G. apply find_some in G. destruct G as [_ G].
    rewrite Hk in G. simpl in G. apply Z.eqb_eq in G. exact G. }
  destruct (Invoice_save_existing db inv k Hk) as [dbx [Hs [Hg _]]].
  rewrite Hs in E. inversion E; subst dbx.
  assert (G2 : get_invoice db2 (ii_invoice instance)
               = Some (Invoice_recompute db inv)).
  { unfold get_invoice in *. rewrite Hinv. rewrite <- Hkk. exact Hg. }
  rewrite G2.
  assert (Hk2 : inv_pk (Invoice_recompute db inv) = Some k).
  { unfold get_invoice in Hg. apply find_some in Hg. destruct Hg as [_ Hg].
    destruct (inv_pk (Invoice_recompute db inv)) as [j|]; [|discriminate].
    simpl in Hg. apply Z.eqb_eq in Hg. subst. reflexivity. }
  destruct (Invoice_save_existing db2 (Invoice_recompute db inv) k Hk2)
    as [db3 [Hs3 _]].
  rewrite Hs3. exists db3. reflexivity.
Qed.

Lemma filter_none_out :
  forall (A : Type) (p : A -> bool) (l : list A),
    (forall x, In x l -> p x = true) -> filter p l = l.
Proof.
  intros A p l H. induction l as [|x l IH]; simpl; [reflexivity|].
  rewrite (H x (or_introl eq_refl)). f_equal. apply IH.
  intros y Hy. apply H. right. exact Hy.
Qed.

Lemma InvoiceItem_full_clean_ok :
  forall self db db' cleaned,
    InvoiceItem_full_clean self db = (db', Ok cleaned) ->
    db' = db /\ ii_pk cleaned = ii_pk self
    /\ ii_stock_item cleaned = ii_stock_item self
    /\ ii_quantity cleaned = ii_quantity self
    /\ ii_invoice cleaned = ii_invoice self
    /\ 1 <= ii_quantity self.
Proof.
  intros self db db' cleaned E.
  unfold InvoiceItem_full_clean in E.
  destruct (InvoiceItem_clean self db) as [db1 r1] eqn:E1.
  destruct r1 as [c|e]; [|discriminate].
  destruct (InvoiceItem_clean_fields self) eqn:Ef; [|discriminate].
  inversion E; subst; clear E.
  assert (Hq : 1 <= ii_quantity self).
  { unfold InvoiceItem_clean_fields in Ef.
    apply andb_prop in Ef. destruct Ef as [Ef _].
    apply andb_prop in Ef. destruct Ef as [Ef _].
    apply Z.leb_le in Ef. exact Ef. }
  unfold InvoiceItem_clean in E1.
  destruct (ii_quantity self <=? 0); [discriminate|].
  destruct (unit_price_unset self).
  - destruct (ii_stock_item self) as [s|] eqn:Hs.
    + destruct (get_stock_item db s); [|discriminate].
      destruct (get_product_variant db _); [|discriminate].
      inversion E1; subst. cbn. repeat split; auto.
    + destruct (ii_service self) as [v|].
      * destruct (get_service db v); [|discriminate].
        inversion E1; subst. cbn. repeat split; auto.
      * inversion E1; subst. cbn. repeat split; auto.
  - inversion E1; subst. repeat split; auto.
Qed.

Lemma quantity_available_same_tables :
  forall db db' s,
    stock_item_transactions db' = stock_item_transactions db ->
    purchase_returns db' = purchase_returns db ->
    quantity_available db' s = quantity_available db s.
Proof.
  intros db db' s Ht Hr.
  unfold quantity_available, quantity_sold, quantity_returned,
    StockItem_transactions, StockItem_purchasereturn_set.
  rewrite Ht, Hr. reflexivity.
Qed.

(** C9.  Saving a new invoice item for [q] units of a batch records one
    transaction of [q] units and lowers the available quantity of the batch
    by [q]; deleting the item brings the available quantity back. *)
Theorem invoice_item_consumes_and_restores :
  forall (db db1 : DB) (item saved : InvoiceItem) (s : StockItem),
    transactions_have_items db ->
    ii_pk item = None ->
    ii_stock_item item = Some (si_pk s) ->
    InvoiceItem_save item db = (db1, Ok saved) ->
    quantity_available db1 s = quantity_available db s - ii_quantity item
    /\ (exists k,
          ii_pk saved = Some k
          /\ filter (fun t => tx_invoice_item t =? k)
                    (stock_item_transactions db1)
             = [mkStockItemTransaction k (si_pk s) (ii_quantity item)])
    /\ (exists db2,
          InvoiceItem_delete saved db1 = (db2, Ok tt)
          /\ quantity_available db2 s = quantity_available db s).
Proof.
  intros db db1 item saved s Hwf Hpk Hstock Hsave.
  unfold InvoiceItem_save in Hsave. unfold bind at 1 in Hsave.
  destruct (InvoiceItem_full_clean item db) as [dba ra] eqn:Ec.
  destruct ra as [cleaned|e]; [|discriminate].
  destruct (InvoiceItem_full_clean_ok _ _ _ _ Ec)
    as [-> [Hcpk [Hcs [Hcq [Hci Hq1]]]]].
  unfold bind at 1 in Hsave. unfold gets at 1 in Hsave.
  unfold cache_previous_invoice_item_state in Hsave.
  rewrite Hcpk, Hpk in Hsave.
  unfold bind at 1 in Hsave. unfold InvoiceItem_super_save in Hsave.
  rewrite Hcpk, Hpk in Hsave.
  set (k := next_pk (flat_map (fun i => opt_list (ii_pk i)) (invoice_items db)))
    in *.
  set (row := with_ii_pk k cleaned) in *.
  set (dbb := set_invoice_items (invoice_items db ++ [row]) db) in *.
  unfold bind at 1 in Hsave.
  destruct (update_invoice_on_item_change row dbb) as [dbc rc] eqn:Ei.
  destruct rc as [[]|e]; [|discriminate].
  pose proof (update_invoice_on_item_change_frame _ _ _ _ Ei) as Hfc.
  unfold bind at 1 in Hsave.
  (* no transaction refers to the new key *)
  assert (Hfresh : forall t, In t (stock_item_transactions db) ->
                     (tx_invoice_item t =? k) = false).
  { intros t Ht. apply Z.eqb_neq. intros Heq.
    destruct (Hwf t Ht) as [i [Hi Hik]].
    apply (next_pk_fresh (flat_map (fun i => opt_list (ii_pk i))
                                   (invoice_items db))).
    fold k. rewrite <- Heq.
    eapply In_flat_map_opt_list; eauto. }
  assert (Htc : stock_item_transactions dbc = stock_item_transactions db)
    by (rewrite Hfc; reflexivity).
  assert (Hrc : purchase_returns dbc = purchase_returns db)
    by (rewrite Hfc; reflexivity).
  assert (Hex : existsb (fun t => tx_invoice_item t =? k)
                        (stock_item_transactions dbc) = false).
  { rewrite Htc. apply not_true_is_false. intros Hx.
    apply existsb_exists in Hx. destruct Hx as [t [Ht Hk]].
    rewrite (Hfresh t Ht) in Hk. discriminate. }
  unfold update_stock_for_invoice_item, transaction_atomic in Hsave.
  unfold bind, ret in Hsave.
  assert (Hrs : ii_stock_item row = Some (si_pk s))
    by (unfold row; cbn; rewrite Hcs; exact Hstock).
  rewrite Hrs in Hsave.
  unfold update_or_create_transaction in Hsave.
  assert (Hrk : ii_pk row = Some k) by reflexivity.
  rewrite Hrk, Hex in Hsave.
  inversion Hsave; subst db1 saved; clear Hsave.
  change (ii_quantity row) with (ii_quantity cleaned). rewrite Hcq.
  set (tx := mkStockItemTransaction k (si_pk s) (ii_quantity item)).
  set (db1 := set_stock_item_transactions
                (stock_item_transactions dbc ++ [tx]) dbc).
  split.
  { unfold quantity_available, quantity_sold, quantity_returned,
      StockItem_transactions, StockItem_purchasereturn_set.
    cbn [stock_item_transactions purchase_returns db1
         set_stock_item_transactions].
    rewrite Htc, Hrc, filter_app, map_app, sumZ_app.
    cbn [filter tx tx_stock_item]. rewrite Z.eqb_refl.
    cbn [map sumZ fold_right tx_quantity].
    change (tx_quantity tx) with (ii_quantity item). lia. }
  split.
  { exists k. split; [reflexivity|].
    cbn [stock_item_transactions db1 set_stock_item_transactions].
    rewrite Htc, filter_app.
    rewrite (filter_ext_in_eq _ _ (fun _ => false) _ Hfresh).
    assert (Hnil : forall l : list StockItemTransaction,
               filter (fun _ => false) l = [])
      by (induction l; simpl; auto).
    rewrite Hnil. cbn [filter tx tx_invoice_item app].
    rewrite Z.eqb_refl. reflexivity. }
  (* deletion *)
  unfold InvoiceItem_delete. rewrite Hrk. unfold transaction_atomic.
  unfold bind at 1. unfold delete_transactions_of at 1. unfold modify at 1.
  rewrite Hrk.
  assert (Hdel : filter (fun t => negb (opt_is (Some k) (tx_invoice_item t)))
                        (stock_item_transactions db1)
                 = stock_item_transactions db).
  { cbn [stock_item_transactions db1 set_stock_item_transactions].
    rewrite Htc, filter_app.
    cbn [filter tx tx_invoice_item opt_is]. rewrite Z.eqb_refl.
    cbn [negb]. rewrite app_nil_r. apply filter_none_out.
    intros t Ht. cbn [opt_is]. rewrite Z.eqb_sym, (Hfresh t Ht).
    reflexivity. }
  rewrite Hdel.
  unfold bind at 1. unfold modify at 1.
  set (dbd := set_invoice_items _ _).
  assert (Hinv : invoices dbd = invoices dbc) by reflexivity.
  destruct (update_invoice_on_item_change_again _ _ _ Ei dbd Hinv)
    as [dbe He].
  unfold bind at 1. rewrite He.
  pose proof (update_invoice_on_item_change_frame _ _ _ _ He) as Hfe.
  unfold update_stock_for_invoice_item, transaction_atomic.
  unfold bind, ret. rewrite Hrs.
  unfold delete_transactions_of, modify. rewrite Hrk.
  eexists. split; [reflexivity|].
  assert (Hte : stock_item_transactions dbe = stock_item_transactions db)
    by (rewrite Hfe; reflexivity).
  assert (Hre : purchase_returns dbe = purchase_returns db)
    by (rewrite Hfe; cbn; exact Hrc).
  unfold quantity_available, quantity_sold, quantity_returned,
    StockItem_transactions, StockItem_purchasereturn_set.
  cbn [stock_item_transactions purchase_returns set_stock_item_transactions].
  rewrite Hte, Hre.
  rewrite (filter_none_out _ _ (stock_item_transactions db)).
  - reflexivity.
  - intros t Ht. cbn [opt_is]. rewrite Z.eqb_sym, (Hfresh t Ht). reflexivity.
Qed.

(** C1.  The form of an invoice line accepts 150 units of a batch of 100
    (the return form rejects that quantity of the same batch); the line is
    saved, and the batch is left with 150 sold of 100 received: its
    available quantity is 50 below zero. *)
Theorem invoice_item_oversells_batch :
  quantity_available receive_and_consume_db batch_A = 100
  /\ InvoiceItemForm_is_valid receive_and_consume_db (Some 1)
       oversell_of_batch_A = true
  /\ UnifiedReturnForm_is_valid receive_and_consume_db batch_A (Some 150)
     = false
  /\ snd (save_invoice_item_form (Some 1) oversell_of_batch_A
            receive_and_consume_db) = Ok RedirectWithSuccess
  /\ get_stock_item oversold_db 1 = Some batch_A
  /\ stock_item_transactions oversold_db = [mkStockItemTransaction 1 1 150]
  /\ quantity_sold oversold_db batch_A = 150
  /\ quantity_returned oversold_db batch_A = 0
  /\ quantity_available oversold_db batch_A = -50
  /\ ~ (quantity_sold oversold_db batch_A
        + quantity_returned oversold_db batch_A
        <= si_quantity batch_A).
Proof.
  split; [reflexivity|]. split; [reflexivity|]. split; [reflexivity|].
  split; [reflexivity|]. split; [reflexivity|]. split; [reflexivity|].
  split; [reflexivity|]. split; [reflexivity|]. split; [reflexivity|].
  vm_compute. intros H. apply H. reflexivity.
Qed.

(** The return form does bound the quantity: recording a return through
    [create_return_view] leaves no batch with a negative available
    quantity, when none had one. *)
Lemma create_return_view_keeps_available :
  forall (stock_item_pk : Z) (quantity : option Z) (db : DB),
    NoDup (map si_pk (stock_items db)) ->
    (forall s, In s (stock_items db) -> 0 <= quantity_available db s) ->
    forall s,
      In s (stock_items (fst (create_return_view stock_item_pk
                                (Some quantity) db))) ->
      0 <= quantity_available
             (fst (create_return_view stock_item_pk (Some quantity) db)) s.
Proof.
  intros k quantity db Hnd Hav.
  remember (fst (create_return_view k (Some quantity) db)) as db' eqn:Hdb'.
  unfold create_return_view in Hdb'.
  unfold bind at 1 in Hdb'. unfold get_or_404 in Hdb'.
  destruct (get_stock_item db k) as [stock|] eqn:G;
    [|subst db'; exact Hav].
  unfold ret at 1 in Hdb'. unfold bind at 1 in Hdb'.
  unfold gets at 1 in Hdb'.
  destruct (UnifiedReturnForm_is_valid db stock quantity) eqn:V;
    [|subst db'; exact Hav].
  unfold UnifiedReturnForm_is_valid in V.
  destruct quantity as [q|]; [|discriminate].
  apply andb_prop in V. destruct V as [V0 V1]. apply Z.leb_le in V0.
  assert (Hq : q <= quantity_available db stock \/ q = 0).
  { destruct (q =? 0) eqn:E0.
    - right. apply Z.eqb_eq. exact E0.
    - left. simpl in V1. apply negb_true_iff in V1. apply Z.ltb_ge in V1.
      exact V1. }
  unfold get_stock_item in G. apply find_some in G. destruct G as [Gin Gk].
  assert (Hnew : forall po s,
            In s (stock_items db) ->
            0 <= quantity_available
                   (set_purchase_returns
                      (purchase_returns db
                       ++ [mkPurchaseReturn
                             (next_pk (map pr_pk (purchase_returns db)))
                             po (si_pk stock) q RET_PENDING]) db) s).
  { intros po s Hs. pose proof (Hav s Hs) as H0.
    unfold quantity_available, quantity_sold, quantity_returned,
      StockItem_transactions, StockItem_purchasereturn_set in *.
    cbn [purchase_returns stock_item_transactions set_purchase_returns].
    rewrite filter_app, map_app, sumZ_app.
    cbn [filter pr_stock_item].
    destruct (si_pk stock =? si_pk s) eqn:Es.
    - apply Z.eqb_eq in Es.
      assert (stock = s)
        by (apply (NoDup_map_same _ si_pk _ _ _ Hnd); auto).
      subst s. cbn [map sumZ fold_right pr_quantity]. lia.
    - cbn [map sumZ fold_right]. lia. }
  unfold bind at 1 in Hdb'.
  destruct (si_purchase_order_item stock) as [i|].
  - unfold bind at 1 in Hdb'. unfold follow in Hdb'.
    destruct (get_purchase_order_item db i) as [line|];
      [|subst db'; exact Hav].
    unfold ret, bind, PurchaseReturn_objects_create, modify in Hdb'.
    cbn [fst or_zero] in Hdb'. subst db'. apply Hnew.
  - unfold ret, bind, PurchaseReturn_objects_create, modify in Hdb'.
    cbn [fst or_zero] in Hdb'. subst db'. apply Hnew.
Qed.

(** ** Purchase-order total and replacement batches *)

Lemma nested_return_db_reached :
  run_ops nested_return_ops receive_and_consume_db = nested_return_db.
Proof. vm_compute. reflexivity. Qed.

Lemma db_eta : forall db : DB,
  db = mkDB (product_variants db) (services db) (stock_items db)
         (purchase_orders db) (purchase_order_items db) (supplier_payments db)
         (stock_item_transactions db) (invoices db) (invoice_items db)
         (invoice_payments db) (refunds db) (purchase_returns db)
         (replacement_items db) (supplier_refunds db) (supplier_credits db)
         (credit_applications db).
Proof. destruct db; reflexivity. Qed.

Lemma StockItem_objects_create_cases :
  forall s db db' r,
    StockItem_objects_create s db = (db', r) ->
    (StockItem_full_clean s = true
     /\ r = Ok (with_si_pk (next_pk (map si_pk (stock_items db))) s)
     /\ db' = set_stock_items
                (stock_items db
                 ++ [with_si_pk (next_pk (map si_pk (stock_items db))) s]) db)
    \/ (StockItem_full_clean s = false
        /\ r = Raise ValidationError /\ db' = db).
Proof.
  intros s db db' r E. unfold StockItem_objects_create in E.
  destruct (StockItem_full_clean s); inversion E; subst; auto.
Qed.

Lemma update_status_of_return_frame :
  forall k db db' r,
    update_status_of_return k db = (db', r) ->
    db' = set_purchase_returns (purchase_returns db') db.
Proof.
  intros k db db' r E. unfold update_status_of_return in E. unfold_m.
  destruct (get_purchase_return db k); inversion E; subst.
  - reflexivity.
  - apply db_eta.
Qed.

Lemma update_status_of_order_frame :
  forall k db db' r,
    update_status_of_order k db = (db', r) ->
    db' = set_purchase_orders (purchase_orders db') db.
Proof.
  intros k db db' r E. unfold update_status_of_order in E.
  destruct (get_purchase_order db k).
  - unfold PurchaseOrder_update_status in E. inversion E; subst. reflexivity.
  - inversion E; subst. apply db_eta.
Qed.

Lemma ReplacementItem_super_save_frame :
  forall self db db' r,
    ReplacementItem_super_save self db = (db', r) ->
    db' = set_replacement_items (replacement_items db') db.
Proof.
  intros self db db' r E. unfold ReplacementItem_super_save in E.
  destruct (ri_pk self).
  - destruct (existsb _ _); inversion E; subst; reflexivity.
  - inversion E; subst; reflexivity.
Qed.

(** What [ReplacementItem.save] leaves in the batch table: the batches
    that were there, followed by the batches it created, none of which has
    an order line. *)
Lemma ReplacementItem_save_batches :
  forall now self db db' saved,
    ReplacementItem_save now self db = (db', Ok saved) ->
    purchase_order_items db' = purchase_order_items db
    /\ exists created,
         stock_items db' = stock_items db ++ created
         /\ (forall s, In s created ->
               si_purchase_order_item s = None /\ si_source s = REPLACEMENT)
         /\ (ri_pk self = None ->
               exists batch,
                 created = [batch]
                 /\ ri_created_stock_item saved = Some (si_pk batch)
                 /\ si_quantity batch = ri_quantity self).
Proof.
  intros now self db db' saved E.
  unfold ReplacementItem_save in E. unfold bind at 1 in E.
  destruct (ri_pk self) as [k|] eqn:Hk.
  - unfold ret at 1 in E. unfold bind at 1 in E.
    destruct (ReplacementItem_super_save self db) as [db1 r1] eqn:E1.
    apply ReplacementItem_super_save_frame in E1.
    destruct r1 as [sv|e]; [|discriminate].
    unfold bind at 1 in E.
    destruct (update_status_of_return (ri_purchase_return sv) db1)
      as [db2 r2] eqn:E2.
    apply update_status_of_return_frame in E2.
    destruct r2; [|discriminate]. unfold ret in E. inversion E; subst db'.
    rewrite E2, E1. cbn. split; [reflexivity|].
    exists []. rewrite app_nil_r. split; [reflexivity|].
    split; [intros s []|discriminate].
  - unfold bind at 1 in E. unfold follow at 1 in E.
    destruct (get_purchase_return db (ri_purchase_return self)) as [pr|];
      [|discriminate].
    unfold ret at 1 in E. unfold bind at 1 in E. unfold follow at 1 in E.
    destruct (get_stock_item db (pr_stock_item pr)) as [orig|];
      [|discriminate].
    unfold ret at 1 in E. unfold bind at 1 in E.
    destruct (StockItem_objects_create (replacement_batch now self orig) db)
      as [db0 r0] eqn:E0.
    destruct (StockItem_objects_create_cases _ _ _ _ E0)
      as [[_ [-> ->]]|[_ [-> ->]]]; [|discriminate].
    unfold ret at 1 in E. unfold bind at 1 in E.
    unfold ReplacementItem_super_save in E. cbn [ri_pk with_ri_created_stock_item] in E.
    rewrite Hk in E.
    unfold bind at 1 in E.
    match type of E with
    | context [update_status_of_return ?x ?d] =>
        destruct (update_status_of_return x d) as [db2 r2] eqn:E2
    end.
    apply update_status_of_return_frame in E2.
    destruct r2; [|discriminate]. unfold ret in E. inversion E; subst db' saved.
    rewrite E2. cbn. split; [reflexivity|].
    eexists. split; [reflexivity|].
    split; [intros s [<-|[]]; split; reflexivity|].
    intros _. eexists. split; [reflexivity|]. split; reflexivity.
Qed.

Lemma grand_total_extra_batches :
  forall db db' self created,
    purchase_order_items db' = purchase_order_items db ->
    stock_items db' = stock_items db ++ created ->
    (forall s, In s created -> si_purchase_order_item s = None) ->
    grand_total db' self = grand_total db self.
Proof.
  intros db db' self created Hi Hs Hc. unfold grand_total.
  rewrite Hs, filter_app, map_app, sumZ_app.
  assert (Hf : forall s, received_for_order db' self s
                         = received_for_order db self s).
  { intros s. unfold received_for_order, get_purchase_order_item.
    rewrite Hi. reflexivity. }
  rewrite (filter_ext _ _ Hf (stock_items db)).
  assert (Hn : filter (received_for_order db' self) created = []).
  { clear Hs. induction created as [|s l IH]; [reflexivity|]. simpl.
    unfold received_for_order at 1.
    rewrite (Hc s (or_introl eq_refl)). apply IH.
    intros x Hx. apply Hc. right. exact Hx. }
  rewrite Hn. simpl. lia.
Qed.

(** C3 (amended).  [grand_total] sums quantity times cost price over the
    batches received for a line of the order.  The batch that saving a new
    replacement item creates is stored with the replaced quantity and no
    order line; it is counted for no purchase order, and the total of every
    purchase order is what it was before the replacement. *)
Theorem grand_total_unchanged_by_replacement :
  forall (now : Z) (self : ReplacementItem) (db db' : DB)
         (saved : ReplacementItem),
    ri_pk self = None ->
    ReplacementItem_save now self db = (db', Ok saved) ->
    (exists batch,
       ri_created_stock_item saved = Some (si_pk batch)
       /\ In batch (stock_items db')
       /\ si_quantity batch = ri_quantity self
       /\ si_purchase_order_item batch = None
       /\ forall po, received_for_order db' po batch = false)
    /\ forall po : PurchaseOrder, grand_total db' po = grand_total db po.
Proof.
  intros now self db db' saved Hnew E.
  destruct (ReplacementItem_save_batches _ _ _ _ _ E)
    as [Hi [created [Hs [Hc Hb]]]].
  split.
  - destruct (Hb Hnew) as [batch [-> [Hcs Hq]]].
    exists batch. split; [exact Hcs|].
    split; [rewrite Hs; apply in_or_app; right; left; reflexivity|].
    split; [exact Hq|].
    destruct (Hc batch (or_introl eq_refl)) as [Hn _].
    split; [exact Hn|].
    intros po. unfold received_for_order. rewrite Hn. reflexivity.
  - intros po. apply (grand_total_extra_batches db db' po created Hi Hs).
    intros s Hin. apply Hc. exact Hin.
Qed.

(** C3 as stated fails: with batch B created as the replacement for a
    return of batch A of purchase order 1, the total of the order is the
    value of A alone (1000.00), not the value of A and B (1100.00). *)
Lemma grand_total_leaves_out_replacement_batch :
  grand_total nested_return_db order_1 = 100000
  /\ grand_total_with_replacements nested_return_db order_1 = 110000
  /\ grand_total nested_return_db order_1
     <> grand_total_with_replacements nested_return_db order_1.
Proof.
  split; [reflexivity|]. split; [reflexivity|].
  vm_compute. discriminate.
Qed.

(** ** Credit notes from supplier refunds *)

Lemma refund_supplier_reads :
  forall self self' db db2,
    sr_purchase_order self' = sr_purchase_order self ->
    sr_purchase_return self' = sr_purchase_return self ->
    purchase_orders db2 = purchase_orders db ->
    purchase_returns db2 = purchase_returns db ->
    stock_items db2 = stock_items db ->
    exists r,
      refund_supplier self db = (db, r)
      /\ refund_supplier self' db2 = (db2, r).
Proof.
  intros self self' db db2 Hpo Hpr H1 H2 H3.
  unfold refund_supplier. rewrite Hpo, Hpr.
  unfold get_purchase_order, get_purchase_return, get_stock_item.
  destruct (sr_purchase_order self) as [p|].
  - unfold_m. rewrite H1.
    destruct (find _ (purchase_orders db)); eexists; split; reflexivity.
  - destruct (sr_purchase_return self) as [r|].
    + unfold_m. rewrite H2.
      destruct (find _ (purchase_returns db)) as [pr|];
        unfold ret, raise; cbv beta iota.
      * rewrite H3.
        destruct (find _ (stock_items db)); eexists; split; reflexivity.
      * eexists; split; reflexivity.
    + eexists; split; reflexivity.
Qed.

Lemma map_return_key_status :
  forall (f : PurchaseReturn -> ReturnStatus) (p : PurchaseReturn -> bool)
         (l : list PurchaseReturn),
    map return_key (map (fun r => if p r then with_pr_status (f r) r else r) l)
    = map return_key l.
Proof.
  intros f p l. rewrite map_map. apply map_ext.
  intros r. destruct (p r); reflexivity.
Qed.

Lemma update_status_of_return_effect :
  forall k db db' r,
    update_status_of_return k db = (db', r) ->
    db' = set_purchase_returns (purchase_returns db') db
    /\ map return_key (purchase_returns db')
       = map return_key (purchase_returns db).
Proof.
  intros k db db' r E. unfold update_status_of_return in E. unfold_m.
  unfold PurchaseReturn_update_status, modify in E.
  destruct (get_purchase_return db k) as [pr|]; inversion E; subst.
  - split; [reflexivity|]. cbn.
    apply (map_return_key_status
             (fun _ => PurchaseReturn_new_status db pr)
             (fun r => pr_pk r =? pr_pk pr)).
  - split; [apply db_eta|reflexivity].
Qed.

Lemma same_ledger_tables_refl : forall db, same_ledger_tables db db.
Proof. intros db. repeat split. Qed.

Lemma same_ledger_tables_trans :
  forall a b c,
    same_ledger_tables a b -> same_ledger_tables b c ->
    same_ledger_tables a c.
Proof.
  intros a b c [A1 [A2 [A3 [A4 A5]]]] [B1 [B2 [B3 [B4 B5]]]].
  repeat split; congruence.
Qed.

Lemma update_status_of_return_tables :
  forall k db db' r,
    update_status_of_return k db = (db', r) ->
    same_ledger_tables db db'
    /\ map return_key (purchase_returns db')
       = map return_key (purchase_returns db).
Proof.
  intros k db db' r E.
  destruct (update_status_of_return_effect _ _ _ _ E) as [F K].
  split; [|exact K]. rewrite F. repeat split.
Qed.

Lemma update_status_of_order_tables :
  forall k db db' r,
    update_status_of_order k db = (db', r) ->
    same_ledger_tables db db'
    /\ purchase_returns db' = purchase_returns db.
Proof.
  intros k db db' r E. apply update_status_of_order_frame in E.
  rewrite E. repeat split.
Qed.

(** The end of [SupplierRefund.save]: the two status updates. *)
Lemma refund_status_updates :
  forall (ret_pk po_pk' : option Z) (row sv : SupplierRefund) (dbs db' : DB),
    (match ret_pk with
     | Some r0 => update_status_of_return r0
     | None => ret tt
     end ;;;
     match po_pk' with
     | Some p => update_status_of_order p
     | None => ret tt
     end ;;; ret row) dbs = (db', Ok sv) ->
    sv = row
    /\ same_ledger_tables dbs db'
    /\ map return_key (purchase_returns db')
       = map return_key (purchase_returns dbs).
Proof.
  intros ret_pk po_pk' row sv dbs db' Ef. unfold bind at 1 in Ef.
  assert (Hsecond : forall db3 db4 res,
            (match po_pk' with
             | Some p => update_status_of_order p
             | None => ret tt
             end ;;; ret row) db3 = (db4, Ok res) ->
            res = row /\ same_ledger_tables db3 db4
            /\ purchase_returns db4 = purchase_returns db3).
  { intros db3 db4 res E2. unfold bind in E2.
    destruct po_pk' as [p|].
    - destruct (update_status_of_order p db3) as [dbx rx] eqn:E4.
      apply update_status_of_order_tables in E4.
      destruct rx; [|discriminate]. unfold ret in E2.
      inversion E2; subst. split; [reflexivity|exact E4].
    - unfold ret in E2. inversion E2; subst.
      split; [reflexivity|]. split; [apply same_ledger_tables_refl|].
      reflexivity. }
  destruct ret_pk as [r0|].
  - destruct (update_status_of_return r0 dbs) as [db3 r3] eqn:E3.
    apply update_status_of_return_tables in E3. destruct E3 as [T3 K3].
    destruct r3; [|discriminate].
    destruct (Hsecond _ _ _ Ef) as [-> [T4 R4]].
    split; [reflexivity|].
    split; [eapply same_ledger_tables_trans; eauto|].
    rewrite R4. exact K3.
  - unfold ret at 1 in Ef.
    destruct (Hsecond _ _ _ Ef) as [-> [T4 R4]].
    split; [reflexivity|]. split; [exact T4|]. rewrite R4. reflexivity.
Qed.

(** Saving a new refund: it raises and the store is unchanged, or the
    refund is stored, with a credit note when a supplier is found. *)
Lemma SupplierRefund_save_new :
  forall (db db' : DB) (self : SupplierRefund) (res : result SupplierRefund),
    sr_pk self = None ->
    SupplierRefund_save self db = (db', res) ->
    (exists e, res = Raise e /\ db' = db)
    \/ (exists k,
          res = Ok (with_sr_pk k self)
          /\ supplier_refunds db' = supplier_refunds db ++ [with_sr_pk k self]
          /\ match supplier_of_refund db self with
             | Some s =>
                 supplier_credits db'
                 = supplier_credits db
                   ++ [mkSupplierCredit
                         (next_pk (map sc_pk (supplier_credits db)))
                         s k (sr_amount self) (sr_amount self) false]
             | None => supplier_credits db' = supplier_credits db
             end
          /\ map return_key (purchase_returns db')
             = map return_key (purchase_returns db)
          /\ replacement_items db' = replacement_items db
          /\ stock_items db' = stock_items db
          /\ credit_applications db' = credit_applications db).
Proof.
  intros db db' self res Hnew E.
  unfold SupplierRefund_save, transaction_atomic in E.
  match type of E with
  | context [match ?m db with _ => _ end] =>
      destruct (m db) as [dbx rx] eqn:Em
  end.
  destruct rx as [sv|e].
  2:{ inversion E; subst. left. exists e. split; reflexivity. }
  inversion E; subst dbx res; clear E. right.
  unfold bind at 1 in Em. unfold SupplierRefund_super_save in Em.
  rewrite Hnew in Em.
  set (k := next_pk (flat_map (fun r => opt_list (sr_pk r))
                              (supplier_refunds db))) in *.
  set (row := with_sr_pk k self) in *.
  set (db1 := set_supplier_refunds (supplier_refunds db ++ [row]) db) in *.
  cbn [fst snd] in Em.
  unfold bind at 1 in Em. unfold create_credit_on_refund in Em.
  unfold bind at 1 in Em.
  destruct (refund_supplier_reads self row db db1) as [r [Hr Hr1]];
    try reflexivity.
  rewrite Hr1 in Em. unfold supplier_of_refund. rewrite Hr.
  destruct r as [[s|]|e].
  - cbn [sr_purchase_return sr_pk row with_sr_pk] in Em.
    destruct (sr_purchase_return self) as [ret_pk|] eqn:Hret.
    2:{ unfold raise in Em. discriminate. }
    unfold SupplierCredit_objects_create, modify in Em.
    match type of Em with
    | context [set_supplier_credits ?l db1] =>
        set (db2 := set_supplier_credits l db1) in *
    end.
    destruct (refund_status_updates (Some ret_pk) (sr_purchase_order self)
                row sv db2 db' Em)
      as [-> [[T1 [T2 [T3 [T4 T5]]]] Hk]].
    exists k. split; [reflexivity|].
    rewrite T1, T2, T3, T4, T5, Hk. repeat split; reflexivity.
  - unfold ret at 1 in Em.
    destruct (refund_status_updates (sr_purchase_return self)
                (sr_purchase_order self) row sv db1 db' Em)
      as [-> [[T1 [T2 [T3 [T4 T5]]]] Hk]].
    exists k. split; [reflexivity|].
    rewrite T1, T2, T3, T4, T5, Hk. repeat split; reflexivity.
  - discriminate.
Qed.

(** C7 (amended).  Creating a supplier refund creates exactly one supplier
    credit when a supplier is found for it (the supplier of its purchase
    order, else the supplier of the returned batch): the credit is issued
    to that supplier, its source is the refund, its initial amount and its
    balance are the amount of the refund, and it is not marked used.  When
    no supplier is found, no credit is created. *)
Theorem refund_creates_credit_for_its_supplier :
  forall (db db' : DB) (self saved : SupplierRefund),
    sr_pk self = None ->
    SupplierRefund_save self db = (db', Ok saved) ->
    (exists k, sr_pk saved = Some k
       /\ supplier_refunds db' = supplier_refunds db ++ [saved]
       /\ sr_amount saved = sr_amount self
       /\ match supplier_of_refund db self with
          | Some s =>
              exists c,
                supplier_credits db'
                = supplier_credits db
                  ++ [mkSupplierCredit c s k (sr_amount self)
                        (sr_amount self) false]
          | None => supplier_credits db' = supplier_credits db
          end).
Proof.
  intros db db' self saved Hnew E.
  destruct (SupplierRefund_save_new db db' self _ Hnew E)
    as [[e [He _]]|[k [Hs [Hr [Hc _]]]]]; [discriminate|].
  inversion Hs; subst saved. exists k.
  split; [reflexivity|]. split; [exact Hr|]. split; [reflexivity|].
  destruct (supplier_of_refund db self); [|exact Hc].
  eexists. exact Hc.
Qed.

(** C7 as stated fails: the general refund of 50.00 recorded for the
    return of a batch that has no supplier is stored, and no supplier
    credit is created for it. *)
Lemma refund_without_supplier_creates_no_credit :
  exists db',
    create_general_refund_view 1 (Some (Some 5000)) no_supplier_db
    = (db', Ok RedirectWithSuccess)
    /\ supplier_refunds db' = [mkSupplierRefund (Some 1) None (Some 1) 5000]
    /\ supplier_credits db' = [].
Proof.
  eexists. split; [vm_compute; reflexivity|].
  split; reflexivity.
Qed.

(** ** Nested-return discovery *)

Section RelatedReturns.

Variable db : DB.
Variable self : PurchaseOrder.
Hypothesis unique_pk : NoDup (map pr_pk (purchase_returns db)).

Lemma same_pk_same_return :
  forall r r', In r (purchase_returns db) -> In r' (purchase_returns db) -> pr_pk r = pr_pk r' -> r = r'.
Proof.
  clear self. revert unique_pk.
  induction (purchase_returns db) as [|x l IH]; simpl; intros Hnd r r' Hr Hr' Hk;
    [contradiction|].
  inversion Hnd as [|? ? Hx Hl]; subst.
  destruct Hr as [<-|Hr], Hr' as [<-|Hr'].
  - reflexivity.
  - exfalso. apply Hx. rewrite Hk. apply in_map. exact Hr'.
  - exfalso. apply Hx. rewrite <- Hk. apply in_map. exact Hr.
  - apply IH; assumption.
Qed.

Lemma NoDup_map_filter :
  forall (A B : Type) (f : A -> B) (p : A -> bool) (l : list A),
    NoDup (map f l) -> NoDup (map f (filter p l)).
Proof.
  intros A B f p l. induction l as [|x l IH]; simpl; intros H; [exact H|].
  inversion H as [|? ? Hx Hl]; subst.
  destruct (p x); simpl; [constructor|]; auto.
  intros Hin. apply Hx. apply in_map_iff in Hin.
  destruct Hin as [y [Hy Hyin]]. apply filter_In in Hyin.
  rewrite <- Hy. apply in_map. tauto.
Qed.

(** The loop over [nested_returns]. *)
Lemma take_new_returns_spec :
  forall nested all newly processed all' newly' processed',
    take_new_returns nested all newly processed
    = (all', newly', processed') ->
    exists added,
      all' = all ++ added
      /\ newly' = newly ++ added
      /\ (forall k, In k processed'
                    <-> In k processed \/ In k (map pr_pk added))
      /\ (forall r, In r added -> In r nested /\ ~ In (pr_pk r) processed)
      /\ (forall r, In r nested -> In (pr_pk r) processed')
      /\ NoDup (map pr_pk added).
Proof.
  induction nested as [|nr rest IH];
    intros all newly processed all' newly' processed' E; simpl in E.
  - inversion E; subst. exists []. rewrite !app_nil_r.
    repeat split; simpl; try tauto; try constructor.
  - destruct (memZ (pr_pk nr) processed) eqn:Em; simpl in E.
    + apply memZ_In in Em.
      destruct (IH _ _ _ _ _ _ E) as [added [Ha [Hn [Hp [Hin [Hall Hnd]]]]]].
      exists added. repeat split; auto.
      * apply Hp.
      * apply Hp.
      * right. apply (Hin r H).
      * apply (Hin r H).
      * intros r [<-|Hr]; [apply Hp; left; exact Em|apply Hall; exact Hr].
    + apply memZ_not_In in Em.
      destruct (IH _ _ _ _ _ _ E) as [added [Ha [Hn [Hp [Hin [Hall Hnd]]]]]].
      exists (nr :: added).
      split; [rewrite Ha, <- app_assoc; reflexivity|].
      split; [rewrite Hn, <- app_assoc; reflexivity|].
      split.
      { intros k. rewrite Hp. simpl. split.
        - intros [[H|H]|H]; auto.
        - intros [H|[H|H]]; auto. }
      split.
      { intros r [<-|Hr].
        - split; [left; reflexivity|exact Em].
        - destruct (Hin r Hr) as [H1 H2]. split; [right; exact H1|].
          intros H. apply H2. right. exact H. }
      split.
      { intros r [<-|Hr].
        - apply Hp. left. left. reflexivity.
        - apply Hall. exact Hr. }
      simpl. constructor; [|exact Hnd].
      intros H. apply in_map_iff in H. destruct H as [r [Hk Hr]].
      destruct (Hin r Hr) as [_ H2]. apply H2. left. symmetry. exact Hk.
Qed.

Lemma closed_gives_result :
  forall all to_check processed,
    loop_invariant db self all to_check processed ->
    (forall r, In r to_check ->
       forall r', nested_return_of db r r' -> In r' all) ->
    loop_result db self all.
Proof.
  intros all to_check processed I Hfront. split; [apply I|].
  intros r. split; [intros H; apply (inv_sound _ _ _ _ _ I r H)|].
  intros H. induction H as [r Hin Hpo|r r' Hrel IH Hn].
  - apply (inv_direct _ _ _ _ _ I r Hin Hpo).
  - destruct (in_dec
                (fun a b : PurchaseReturn =>
                   ltac:(decide equality; try apply Z.eq_dec;
                         decide equality; apply Z.eq_dec)
                   : {a = b} + {a <> b})
                r to_check) as [Hc|Hc].
    + apply (Hfront r Hc r' Hn).
    + apply (inv_closed _ _ _ _ _ I r IH Hc r' Hn).
Qed.

Lemma in_pks_in_all :
  forall all to_check processed r,
    loop_invariant db self all to_check processed ->
    In r (purchase_returns db) -> In (pr_pk r) processed -> In r all.
Proof.
  intros all to_check processed r I Hr Hk.
  apply (inv_processed _ _ _ _ _ I) in Hk. apply in_map_iff in Hk.
  destruct Hk as [r0 [Hk0 Hr0]].
  assert (r0 = r)
    by (apply same_pk_same_return; auto; apply (inv_sound _ _ _ _ _ I r0 Hr0)).
  subst. exact Hr0.
Qed.

Lemma all_bounded :
  forall all to_check processed,
    loop_invariant db self all to_check processed ->
    (List.length all <= List.length (purchase_returns db))%nat.
Proof.
  intros all to_check processed I.
  rewrite <- (length_map pr_pk all), <- (length_map pr_pk (purchase_returns db)).
  apply NoDup_incl_length; [apply I|].
  intros k Hk. apply in_map_iff in Hk. destruct Hk as [r [<- Hr]].
  apply in_map. apply (inv_sound _ _ _ _ _ I r Hr).
Qed.

Lemma related_returns_loop_step :
  forall fuel all c rest processed,
    related_returns_loop (S fuel) db all (c :: rest) processed
    = let replacements :=
        filter (fun rep => memZ (ri_purchase_return rep)
                                (map pr_pk (c :: rest)))
               (replacement_items db) in
      if is_empty replacements then Some all
      else
        let replacement_stock_items :=
          flat_map (fun rep => opt_list (ri_created_stock_item rep))
                   replacements in
        if is_empty replacement_stock_items then Some all
        else
          let nested_returns :=
            filter (fun r => memZ (pr_stock_item r) replacement_stock_items
                             && negb (memZ (pr_pk r) processed))
                   (purchase_returns db) in
          let '(all', newly, processed') :=
            take_new_returns nested_returns all [] processed in
          if is_empty newly then Some all'
          else related_returns_loop fuel db all' newly processed'.
Proof. reflexivity. Qed.

Lemma related_returns_loop_correct :
  forall fuel all to_check processed,
    loop_invariant db self all to_check processed ->
    (List.length (purchase_returns db) < fuel + List.length all)%nat ->
    exists l,
      related_returns_loop fuel db all to_check processed = Some l
      /\ loop_result db self l.
Proof.
  induction fuel as [|fuel IH]; intros all to_check processed I Hfuel.
  { pose proof (all_bounded _ _ _ I). simpl in Hfuel. lia. }
  destruct to_check as [|c rest].
  { simpl. exists all. split; [reflexivity|].
    apply (closed_gives_result _ _ _ I). intros r []. }
  rewrite related_returns_loop_step. cbv zeta.
  set (to_check := c :: rest) in *.
  set (replacements :=
         filter (fun rep => memZ (ri_purchase_return rep)
                                 (map pr_pk to_check))
                (replacement_items db)).
  set (stock := flat_map (fun rep => opt_list (ri_created_stock_item rep))
                         replacements).
  (* every nested return of the frontier is made against one of [stock] *)
  assert (Hstock : forall r r',
            In r to_check -> nested_return_of db r r' ->
            In (pr_stock_item r') stock /\ In r' (purchase_returns db)).
  { intros r r' Hr [Hr' [rep [s [Hrep [Hpr [Hc Hs]]]]]].
    split; [|exact Hr'].
    unfold stock. apply in_flat_map. exists rep. split.
    - unfold replacements. apply filter_In. split; [exact Hrep|].
      apply memZ_In. rewrite Hpr. apply in_map. exact Hr.
    - rewrite Hc, Hs. left. reflexivity. }
  destruct (is_empty replacements) eqn:Er.
  { exists all. split; [reflexivity|].
    apply (closed_gives_result _ _ _ I).
    intros r Hr r' Hn. destruct (Hstock r r' Hr Hn) as [Hin _].
    unfold stock in Hin. destruct replacements; [|discriminate].
    simpl in Hin. contradiction. }
  destruct (is_empty stock) eqn:Es.
  { exists all. split; [reflexivity|].
    apply (closed_gives_result _ _ _ I).
    intros r Hr r' Hn. destruct (Hstock r r' Hr Hn) as [Hin _].
    destruct stock; [|discriminate]. simpl in Hin. contradiction. }
  set (nested :=
         filter (fun r => memZ (pr_stock_item r) stock
                          && negb (memZ (pr_pk r) processed))
                (purchase_returns db)).
  destruct (take_new_returns nested all [] processed)
    as [[all' newly] processed'] eqn:Et.
  destruct (take_new_returns_spec _ _ _ _ _ _ _ Et)
    as [added [Ha [Hn [Hp [Hin [Hall Hnd]]]]]].
  simpl in Hn. subst newly all'.
  (* the nested returns of the frontier are all taken *)
  assert (Hfront : forall r, In r to_check ->
            forall r', nested_return_of db r r' -> In r' (all ++ added)).
  { intros r Hr r' Hnr. destruct (Hstock r r' Hr Hnr) as [Hs Ht].
    destruct (memZ (pr_pk r') processed) eqn:Em.
    - apply memZ_In in Em. apply in_or_app. left.
      apply (in_pks_in_all _ _ _ r' I Ht Em).
    - assert (Hnest : In r' nested).
      { unfold nested. apply filter_In. split; [exact Ht|].
        rewrite Em. simpl. rewrite andb_true_r. apply memZ_In. exact Hs. }
      apply Hall in Hnest. apply Hp in Hnest.
      destruct Hnest as [Hk|Hk].
      + apply memZ_not_In in Em. contradiction.
      + apply in_map_iff in Hk. destruct Hk as [r0 [Hk0 Hr0]].
        assert (r0 = r').
        { apply same_pk_same_return; auto.
          destruct (Hin r0 Hr0) as [H0 _]. unfold nested in H0.
          apply filter_In in H0. apply H0. }
        subst. apply in_or_app. right. exact Hr0. }
  (* the invariant after the turn *)
  assert (I' : loop_invariant db self (all ++ added) added processed').
  { constructor.
    - intros k. rewrite Hp, map_app, in_app_iff.
      rewrite (inv_processed _ _ _ _ _ I k). tauto.
    - rewrite map_app. apply NoDup_app; [apply I|exact Hnd|].
      intros k Hk Hk'. apply in_map_iff in Hk'.
      destruct Hk' as [r [<- Hr]]. destruct (Hin r Hr) as [_ Hnp].
      apply Hnp. apply (inv_processed _ _ _ _ _ I). exact Hk.
    - intros r Hr. apply in_app_or in Hr. destruct Hr as [Hr|Hr];
        [apply (inv_sound _ _ _ _ _ I r Hr)|].
      destruct (Hin r Hr) as [Hnest _]. unfold nested in Hnest.
      apply filter_In in Hnest. destruct Hnest as [Ht Hc].
      split; [exact Ht|].
      apply andb_prop in Hc. destruct Hc as [Hc _].
      apply memZ_In in Hc. unfold stock in Hc. apply in_flat_map in Hc.
      destruct Hc as [rep [Hrep Hs]]. unfold replacements in Hrep.
      apply filter_In in Hrep. destruct Hrep as [Hrep Hm].
      apply memZ_In in Hm. apply in_map_iff in Hm.
      destruct Hm as [r0 [Hk0 Hr0]].
      apply (related_nested db self r0 r).
      + apply (inv_sound _ _ _ _ _ I). apply (inv_frontier _ _ _ _ _ I). exact Hr0.
      + split; [exact Ht|]. exists rep, (pr_stock_item r).
        split; [exact Hrep|]. split; [symmetry; exact Hk0|].
        split; [|reflexivity].
        destruct (ri_created_stock_item rep) as [s|]; simpl in Hs;
          [|contradiction].
        destruct Hs as [->|[]]. reflexivity.
    - intros r Hr. apply in_or_app. right. exact Hr.
    - intros r Hr Hnr r' Hnest.
      apply in_app_or in Hr. destruct Hr as [Hr|Hr]; [|contradiction].
      destruct (in_dec
                  (fun a b : PurchaseReturn =>
                     ltac:(decide equality; try apply Z.eq_dec;
                           decide equality; apply Z.eq_dec)
                     : {a = b} + {a <> b})
                  r to_check) as [Hc|Hc].
      + apply (Hfront r Hc r' Hnest).
      + apply in_or_app. left.
        apply (inv_closed _ _ _ _ _ I r Hr Hc r' Hnest).
    - intros r Hr Hpo. apply in_or_app. left.
      apply (inv_direct _ _ _ _ _ I r Hr Hpo). }
  destruct added as [|a added'] eqn:Hadd.
  - simpl. rewrite app_nil_r in *. exists all. split; [reflexivity|].
    apply (closed_gives_result _ _ _ I). exact Hfront.
  - rewrite <- Hadd in *.
    assert (Hne : is_empty added = false) by (rewrite Hadd; reflexivity).
    change (is_empty ([] ++ added)) with (is_empty added). rewrite Hne.
    change ([] ++ added) with added.
    apply IH; [exact I'|].
    rewrite length_app. rewrite Hadd. simpl. lia.
Qed.

Lemma direct_returns_invariant :
  loop_invariant db self (PurchaseOrder_returns db self)
    (PurchaseOrder_returns db self)
    (map pr_pk (PurchaseOrder_returns db self)).
Proof.
  constructor.
  - tauto.
  - apply NoDup_map_filter. exact unique_pk.
  - intros r Hr. unfold PurchaseOrder_returns in Hr.
    apply filter_In in Hr. destruct Hr as [Hr Hp].
    split; [exact Hr|]. apply related_direct; [exact Hr|].
    destruct (pr_purchase_order r) as [j|]; simpl in Hp; [|discriminate].
    apply Z.eqb_eq in Hp. subst. reflexivity.
  - apply incl_refl.
  - intros r Hr Hn. contradiction.
  - intros r Hr Hpo. unfold PurchaseOrder_returns. apply filter_In.
    split; [exact Hr|]. rewrite Hpo. simpl. apply Z.eqb_refl.
Qed.

End RelatedReturns.

(** The result of the loop does not depend on the bound: a run that ends
    within [fuel] turns ends with the same list under any larger bound. *)
Lemma related_returns_loop_more_fuel :
  forall fuel extra db all to_check processed l,
    related_returns_loop fuel db all to_check processed = Some l ->
    related_returns_loop (fuel + extra) db all to_check processed = Some l.
Proof.
  induction fuel as [|fuel IH]; intros extra db all to_check processed l H.
  - destruct to_check as [|c rest]; [|discriminate].
    destruct extra; exact H.
  - destruct to_check as [|c rest]; [exact H|].
    change (S fuel + extra)%nat with (S (fuel + extra)).
    rewrite related_returns_loop_step in *. cbv zeta in *.
    destruct (is_empty _); [exact H|].
    destruct (is_empty _); [exact H|].
    destruct (take_new_returns _ _ _ _) as [[all' newly] processed'].
    destruct (is_empty newly); [exact H|].
    apply IH. exact H.
Qed.

(** C2.  When the returns have distinct primary keys,
    [_get_all_related_returns] ends and yields, each once, exactly the
    returns related to the order: its direct returns and, step by step, the
    returns made against a batch that a replacement for a related return
    created. *)
Theorem get_all_related_returns_correct :
  forall (db : DB) (self : PurchaseOrder),
    NoDup (map pr_pk (purchase_returns db)) ->
    exists l,
      _get_all_related_returns db self = Some l
      /\ NoDup (map pr_pk l)
      /\ NoDup l
      /\ forall r, In r l <-> related_to_order db self r.
Proof.
  intros db self Hnd.
  destruct (related_returns_loop_correct db self Hnd
              (S (List.length (purchase_returns db)))
              (PurchaseOrder_returns db self)
              (PurchaseOrder_returns db self)
              (map pr_pk (PurchaseOrder_returns db self))
              (direct_returns_invariant db self Hnd))
    as [l [Hl [Hn Hr]]].
  - simpl. lia.
  - exists l. split; [exact Hl|]. split; [exact Hn|].
    split; [|exact Hr].
    apply (NoDup_map_inv pr_pk). exact Hn.
Qed.

(** ** Atomic stock receipt *)

Lemma get_purchase_order_item_pk :
  forall db k line,
    get_purchase_order_item db k = Some line -> poi_pk line = k.
Proof.
  intros db k line H. unfold get_purchase_order_item in H.
  apply find_some in H. destruct H as [_ H]. apply Z.eqb_eq in H. exact H.
Qed.

Lemma receive_form_ok :
  forall now po d db db',
    receive_form now po d db = (db', Ok tt) ->
    match requested_quantity d with
    | None => db' = db
    | Some qty =>
        exists line s,
          get_purchase_order_item db (rs_purchase_order_item_id d) = Some line
          /\ s = with_si_pk (next_pk (map si_pk (stock_items db)))
                   (received_batch now po line qty d)
          /\ stock_items db' = stock_items db ++ [s]
          /\ forall k,
               get_purchase_order_item db' k
               = option_map
                   (fun i => if poi_pk i =? poi_pk line
                             then with_poi_quantity_received
                                    (poi_quantity_received line + qty) i
                             else i)
                   (get_purchase_order_item db k)
    end.
Proof.
  intros now po d db db' E. unfold receive_form in E.
  destruct (requested_quantity d) as [qty|].
  2:{ unfold ret in E. inversion E. reflexivity. }
  unfold bind at 1 in E. unfold get_or_404 in E.
  destruct (get_purchase_order_item db (rs_purchase_order_item_id d))
    as [line|] eqn:G; [|discriminate].
  unfold ret at 1 in E. unfold bind at 1 in E.
  destruct (StockItem_objects_create (received_batch now po line qty d) db)
    as [db1 r1] eqn:E1.
  destruct (StockItem_objects_create_cases _ _ _ _ E1)
    as [[_ [-> ->]]|[_ [-> ->]]]; [|discriminate].
  unfold PurchaseOrderItem_save_quantity_received in E.
  unfold bind at 1 in E. unfold modify in E.
  match type of E with
  | context [update_status_of_order ?x ?y] =>
      destruct (update_status_of_order x y) as [db2 r2] eqn:E2
  end.
  destruct r2 as [[]|]; [|discriminate]. inversion E; subst db'.
  apply update_status_of_order_frame in E2.
  exists line. eexists. split; [reflexivity|]. split; [reflexivity|].
  rewrite E2. cbn. split; [reflexivity|].
  intros k. unfold get_purchase_order_item. cbn.
  apply find_map_same_key. intros x.
  destruct (poi_pk x =? poi_pk line); reflexivity.
Qed.

Lemma counters_advanced_nil : forall db, counters_advanced db db [].
Proof.
  intros db k. destruct (get_purchase_order_item db k); [|exact I].
  unfold requested_total. simpl. repeat split; lia.
Qed.

Lemma batch_of_form_earlier :
  forall db db1 forms po d s,
    counters_advanced db db1 forms ->
    batch_of_form db1 po d s -> batch_of_form db po d s.
Proof.
  intros db db1 forms po d s Hc [line [qty [Hq [Hg H]]]].
  specialize (Hc (rs_purchase_order_item_id d)). rewrite Hg in Hc.
  destruct (get_purchase_order_item db (rs_purchase_order_item_id d))
    as [line0|] eqn:G0; [|contradiction].
  destruct Hc as [_ [_ [_ [Hv _]]]].
  exists line0, qty. split; [exact Hq|]. split; [exact G0|].
  rewrite <- Hv. exact H.
Qed.

Lemma for_each_receive_form_ok :
  forall now po forms db db',
    for_each (receive_form now po) forms db = (db', Ok tt) ->
    exists created,
      stock_items db' = stock_items db ++ created
      /\ Forall2 (batch_of_form db po) (requested_forms forms) created
      /\ counters_advanced db db' forms.
Proof.
  intros now po forms. induction forms as [|d rest IH]; intros db db' E.
  - simpl in E. unfold ret in E. inversion E; subst.
    exists []. rewrite app_nil_r. split; [reflexivity|].
    split; [constructor|apply counters_advanced_nil].
  - simpl in E. unfold bind in E.
    destruct (receive_form now po d db) as [db1 r1] eqn:E1.
    destruct r1 as [[]|]; [|discriminate].
    apply receive_form_ok in E1.
    destruct (IH _ _ E) as [created [Hs [Hf Hc]]].
    unfold requested_forms. simpl.
    destruct (requested_quantity d) as [qty|] eqn:Hq.
    + destruct E1 as [line [s [Hg [Hsd [Hs1 Hk]]]]].
      assert (Hstep : counters_advanced db db1 [d]).
      { intros k. rewrite Hk.
        destruct (get_purchase_order_item db k) as [l0|] eqn:G0;
          cbn [option_map]; [|exact I].
        unfold requested_total. simpl. rewrite Hq.
        pose proof (get_purchase_order_item_pk _ _ _ G0) as Hp0.
        pose proof (get_purchase_order_item_pk _ _ _ Hg) as Hp1.
        rewrite Hp0, Hp1.
        rewrite (Z.eqb_sym (rs_purchase_order_item_id d) k).
        destruct (k =? rs_purchase_order_item_id d) eqn:Ek.
        - apply Z.eqb_eq in Ek. rewrite Ek in G0.
          rewrite Hg in G0. inversion G0 as [Hl].
          cbn. repeat split; lia.
        - repeat split; lia. }
      exists (s :: created).
      split; [rewrite Hs, Hs1, <- app_assoc; reflexivity|].
      split.
      * constructor.
        -- exists line, qty. subst s. cbn.
           rewrite (get_purchase_order_item_pk _ _ _ Hg).
           repeat split; auto.
        -- eapply Forall2_impl; [|exact Hf].
           intros a b Hab. eapply batch_of_form_earlier; eauto.
      * intros k. specialize (Hstep k). specialize (Hc k).
        destruct (get_purchase_order_item db k) as [l0|],
                 (get_purchase_order_item db1 k) as [l1|],
                 (get_purchase_order_item db' k) as [l2|];
          try contradiction; try exact I.
        unfold requested_total in *. simpl in *. rewrite Hq in *.
        destruct Hstep as [A1 [A2 [A3 [A4 A5]]]].
        destruct Hc as [B1 [B2 [B3 [B4 B5]]]].
        repeat split; try congruence. lia.
    + subst db1. exists created. split; [exact Hs|]. split; [exact Hf|].
      intros k. specialize (Hc k).
      destruct (get_purchase_order_item db k) as [l0|],
               (get_purchase_order_item db' k) as [l2|];
        try contradiction; try exact I.
      unfold requested_total in *. simpl. rewrite Hq. exact Hc.
Qed.

(** C4.  One submission of the receipt view either succeeds, and then the
    batch table has grown by exactly one batch for each form that asks for
    a quantity, in the order of the forms, and the received counter of
    every order line has grown by the quantities asked for that line; or
    it does not succeed (it raises, or it answers with the form or with a
    warning), and then the store is the one it started from. *)
Theorem receive_purchase_order_view_atomic :
  forall (now today pk : Z) (post : option (list ReceiveStockData))
         (db db' : DB) (r : result Response),
    receive_purchase_order_view now today pk post db = (db', r) ->
    (r = Ok RedirectWithSuccess
     /\ exists po forms created,
          get_purchase_order db pk = Some po
          /\ post = Some forms
          /\ stock_items db' = stock_items db ++ created
          /\ Forall2 (batch_of_form db po) (requested_forms forms) created
          /\ counters_advanced db db' forms)
    \/ (r <> Ok RedirectWithSuccess /\ db' = db).
Proof.
  intros now today pk post db db' r E.
  unfold receive_purchase_order_view, transaction_atomic in E.
  destruct (receive_purchase_order_body now today pk post db)
    as [db1 r1] eqn:Eb.
  destruct r1 as [resp|e].
  2:{ inversion E; subst. right. split; [discriminate|reflexivity]. }
  inversion E; subst db' r; clear E.
  unfold receive_purchase_order_body in Eb.
  unfold bind at 1 in Eb. unfold get_or_404 in Eb.
  destruct (get_purchase_order db pk) as [po|] eqn:G; [|discriminate].
  unfold ret at 1 in Eb. unfold bind at 1 in Eb. unfold gets at 1 in Eb.
  destruct (is_empty _).
  { unfold ret in Eb. inversion Eb; subst.
    right. split; [discriminate|reflexivity]. }
  destruct post as [forms|].
  2:{ unfold ret in Eb. inversion Eb; subst.
      right. split; [discriminate|reflexivity]. }
  unfold bind at 1 in Eb. unfold gets at 1 in Eb.
  destruct (formset_is_valid _ _ _ _ _).
  2:{ unfold ret in Eb. inversion Eb; subst.
      right. split; [discriminate|reflexivity]. }
  unfold bind at 1 in Eb.
  destruct (for_each (receive_form now po) forms db) as [db2 r2] eqn:Ef.
  destruct r2 as [[]|]; [|discriminate].
  unfold bind at 1 in Eb.
  destruct (update_status_of_order (po_pk po) db2) as [db3 r3] eqn:Eu.
  destruct r3 as [[]|]; [|discriminate].
  unfold ret in Eb. inversion Eb; subst db1 resp; clear Eb.
  apply update_status_of_order_frame in Eu.
  destruct (for_each_receive_form_ok _ _ _ _ _ Ef) as [created [Hs [Hf Hc]]].
  left. split; [reflexivity|].
  exists po, forms, created. split; [reflexivity|]. split; [reflexivity|].
  rewrite Eu. cbn. split; [exact Hs|]. split; [exact Hf|].
  intros k. specialize (Hc k). unfold get_purchase_order_item in *.
  cbn. exact Hc.
Qed.

(** ** Effects of the requests of the return and credit workflow *)

Lemma op_effect_refl : forall db, op_effect db db.
Proof. intros db. apply effect_none; reflexivity. Qed.

Lemma get_stock_item_pk :
  forall db k s, get_stock_item db k = Some s -> si_pk s = k.
Proof.
  intros db k s H. unfold get_stock_item in H. apply find_some in H.
  destruct H as [_ H]. apply Z.eqb_eq in H. exact H.
Qed.

Lemma get_purchase_return_found :
  forall db k r,
    get_purchase_return db k = Some r ->
    In r (purchase_returns db) /\ pr_pk r = k.
Proof.
  intros db k r H. unfold get_purchase_return in H. apply find_some in H.
  destruct H as [Hin H]. apply Z.eqb_eq in H. split; assumption.
Qed.

Lemma find_in_some :
  forall (A : Type) (p : A -> bool) (l : list A) (x : A),
    In x l -> p x = true -> exists y, find p l = Some y.
Proof.
  intros A p l x Hin Hp. destruct (find p l) as [y|] eqn:E.
  - exists y. reflexivity.
  - pose proof (find_none p l E x Hin) as H. rewrite Hp in H. discriminate.
Qed.

Lemma create_return_view_effect :
  forall s q db, op_effect db (fst (create_return_view s (Some q) db)).
Proof.
  intros s q db. unfold create_return_view.
  unfold bind at 1. unfold get_or_404.
  destruct (get_stock_item db s) as [stock|] eqn:G;
    [|apply op_effect_refl].
  unfold ret at 1. unfold bind at 1. unfold gets at 1.
  destruct (UnifiedReturnForm_is_valid db stock q) eqn:V;
    [|apply op_effect_refl].
  unfold UnifiedReturnForm_is_valid in V.
  destruct q as [qv|]; [|discriminate].
  apply andb_prop in V. destruct V as [V _]. apply Z.leb_le in V.
  pose proof (get_stock_item_pk _ _ _ G) as Hpk.
  assert (G' : get_stock_item db (si_pk stock) = Some stock)
    by (rewrite Hpk; exact G).
  unfold bind at 1.
  destruct (si_purchase_order_item stock) as [i|].
  - unfold bind at 1. unfold follow.
    destruct (get_purchase_order_item db i) as [line|];
      [|apply op_effect_refl].
    unfold ret. unfold bind. unfold PurchaseReturn_objects_create, modify.
    cbn [fst or_zero].
    apply (effect_return _ _ stock (Some (poi_purchase_order line)) qv G' V);
      reflexivity.
  - unfold ret. unfold bind. unfold PurchaseReturn_objects_create, modify.
    cbn [fst or_zero].
    apply (effect_return _ _ stock None qv G' V); reflexivity.
Qed.

Lemma SupplierRefundForm_is_valid_bounds :
  forall db r amount,
    SupplierRefundForm_is_valid db r amount = true ->
    exists a, amount = Some a /\ 1 <= a /\ a <= value_pending_action db r.
Proof.
  intros db r amount V. unfold SupplierRefundForm_is_valid in V.
  destruct amount as [a|]; [|discriminate]. exists a.
  split; [reflexivity|].
  apply andb_prop in V. destruct V as [V V4].
  apply andb_prop in V. destruct V as [V V3].
  apply andb_prop in V. destruct V as [V1 V2].
  apply Z.leb_le in V1. apply negb_true_iff in V4. apply Z.ltb_ge in V4.
  split; assumption.
Qed.

(** The part that the two refund views share: the form is valid and the
    refund is saved. *)
Lemma refund_saved_effect :
  forall db r po a (next : Response),
    In r (purchase_returns db) ->
    1 <= a ->
    a <= value_pending_action db r ->
    op_effect db
      (fst ((SupplierRefund_save (mkSupplierRefund None po (Some (pr_pk r)) a)
             ;;; ret next) db)).
Proof.
  intros db r po a next Hin H1 Ha. unfold bind.
  destruct (SupplierRefund_save (mkSupplierRefund None po (Some (pr_pk r)) a)
              db) as [db1 res] eqn:E.
  destruct (SupplierRefund_save_new db db1
              (mkSupplierRefund None po (Some (pr_pk r)) a) res eq_refl E)
    as [[e [-> ->]]|[k [-> [Hr [Hc [Hk [T1 [T2 T3]]]]]]]].
  - apply op_effect_refl.
  - unfold ret. cbn [fst].
    eapply (effect_refund db db1 r k po a); try assumption.
    cbn [sr_amount] in Hc.
    destruct (supplier_of_refund db _) as [s|];
      [right; exists s; exact Hc|left; exact Hc].
Qed.

Lemma add_supplier_refund_view_effect :
  forall p k amount db,
    op_effect db (fst (add_supplier_refund_view p k (Some amount) db)).
Proof.
  intros p k amount db. unfold add_supplier_refund_view.
  unfold bind at 1. unfold get_or_404 at 1.
  destruct (get_purchase_order db p) as [po|]; [|apply op_effect_refl].
  unfold ret at 1. unfold bind at 1. unfold get_or_404 at 1.
  destruct (find _ (purchase_returns db)) as [r|] eqn:G;
    [|apply op_effect_refl].
  apply find_some in G. destruct G as [Hin _].
  unfold ret at 1. unfold bind at 1. unfold gets at 1.
  destruct (value_pending_action db r <=? 0); [apply op_effect_refl|].
  unfold bind at 1. unfold gets at 1.
  destruct (SupplierRefundForm_is_valid db r amount) eqn:V;
    [|apply op_effect_refl].
  destruct (SupplierRefundForm_is_valid_bounds _ _ _ V) as [a [-> [H1 Ha]]].
  cbn [or_zero]. apply refund_saved_effect; assumption.
Qed.

Lemma create_general_refund_view_effect :
  forall k amount db,
    op_effect db (fst (create_general_refund_view k (Some amount) db)).
Proof.
  intros k amount db. unfold create_general_refund_view.
  unfold bind at 1. unfold get_or_404 at 1.
  destruct (get_purchase_return db k) as [r|] eqn:G;
    [|apply op_effect_refl].
  apply get_purchase_return_found in G. destruct G as [Hin _].
  unfold ret at 1.
  destruct (pr_purchase_order r); [apply op_effect_refl|].
  unfold bind at 1. unfold gets at 1.
  destruct (SupplierRefundForm_is_valid db r amount) eqn:V;
    [|apply op_effect_refl].
  destruct (SupplierRefundForm_is_valid_bounds _ _ _ V) as [a [-> [H1 Ha]]].
  cbn [or_zero]. apply refund_saved_effect; assumption.
Qed.

Lemma ReplacementStockForm_is_valid_bounds :
  forall db today r d,
    ReplacementStockForm_is_valid db today r d = true ->
    exists q, rp_quantity d = Some q /\ 1 <= q
              /\ q <= quantity_pending_action db r.
Proof.
  intros db today r d V. unfold ReplacementStockForm_is_valid in V.
  destruct (rp_quantity d) as [q|]; [|discriminate]. exists q.
  split; [reflexivity|].
  repeat (apply andb_prop in V; destruct V as [V ?]).
  apply Z.leb_le in V.
  match goal with
  | H : negb (_ <? q) = true |- _ =>
      apply negb_true_iff in H; apply Z.ltb_ge in H
  end.
  split; assumption.
Qed.

Lemma receive_replacement_view_effect :
  forall now today k d db,
    op_effect db (fst (receive_replacement_view now today k (Some d) db)).
Proof.
  intros now today k d db.
  unfold receive_replacement_view, transaction_atomic.
  match goal with
  | |- context [match ?m db with _ => _ end] =>
      destruct (m db) as [dbx rx] eqn:Em
  end.
  destruct rx as [resp|e]; [|apply op_effect_refl]. cbn [fst].
  unfold bind at 1 in Em. unfold get_or_404 at 1 in Em.
  destruct (get_purchase_return db k) as [r|] eqn:G; [|discriminate].
  pose proof (get_purchase_return_found _ _ _ G) as [Hin Hpk].
  unfold ret at 1 in Em. unfold bind at 1 in Em. unfold gets at 1 in Em.
  destruct (quantity_pending_action db r <=? 0).
  { unfold ret in Em. inversion Em. apply op_effect_refl. }
  unfold bind at 1 in Em. unfold gets at 1 in Em.
  destruct (ReplacementStockForm_is_valid db today r d) eqn:V.
  2:{ unfold ret in Em. inversion Em. apply op_effect_refl. }
  destruct (ReplacementStockForm_is_valid_bounds _ _ _ _ V)
    as [q [Hq [H1 Hle]]].
  rewrite Hq in Em. cbn [or_zero] in Em.
  unfold bind at 1 in Em.
  unfold ReplacementItem_save in Em. cbn [ri_pk] in Em.
  unfold bind at 1 in Em. unfold bind at 1 in Em.
  cbn [ri_purchase_return] in Em. rewrite <- Hpk in G. rewrite G in Em.
  unfold follow at 1 in Em. unfold ret at 1 in Em.
  unfold bind at 1 in Em. unfold follow at 1 in Em.
  destruct (get_stock_item db (pr_stock_item r)) as [orig|] eqn:Gs;
    [|discriminate].
  unfold ret at 1 in Em. unfold bind at 1 in Em.
  match type of Em with
  | context [StockItem_objects_create ?b db] =>
      destruct (StockItem_objects_create b db) as [db0 r0] eqn:E0;
      destruct (StockItem_objects_create_cases _ _ _ _ E0)
        as [[_ [-> ->]]|[_ [-> ->]]]; [|discriminate]
  end.
  unfold ret at 1 in Em. unfold bind at 1 in Em.
  unfold ReplacementItem_super_save in Em.
  cbn [ri_pk with_ri_created_stock_item] in Em.
  unfold bind at 1 in Em.
  match type of Em with
  | context [update_status_of_return ?x ?y] =>
      destruct (update_status_of_return x y) as [db2 r2] eqn:E2
  end.
  apply update_status_of_return_tables in E2.
  destruct E2 as [[T1 [T2 [T3 [T4 T5]]]] K2].
  destruct r2; [|discriminate]. unfold ret in Em.
  inversion Em; subst dbx resp; clear Em.
  cbn in T1, T2, T3, T4, T5, K2.
  match type of T3 with
  | _ = _ ++ [?b] =>
      match type of T1 with
      | _ = _ ++ [?rp] =>
          apply (effect_replacement db db2 r
                   (next_pk (flat_map (fun x => opt_list (ri_pk x))
                                      (replacement_items db)))
                   q orig b rp Hin Gs H1 Hle eq_refl eq_refl eq_refl eq_refl
                   K2 T1 T2 T3 T4 T5)
      end
  end.
Qed.

Lemma apply_supplier_credit_view_effect :
  forall p c a db,
    op_effect db (fst (apply_supplier_credit_view p (Some (c, a)) db)).
Proof.
  intros p c a db.
  unfold apply_supplier_credit_view, transaction_atomic.
  match goal with
  | |- context [match ?m db with _ => _ end] =>
      destruct (m db) as [dbx rx] eqn:Em
  end.
  destruct rx as [resp|e]; [|apply op_effect_refl]. cbn [fst].
  unfold bind at 1 in Em. unfold get_or_404 at 1 in Em.
  destruct (get_purchase_order db p) as [po|]; [|discriminate].
  unfold ret at 1 in Em.
  destruct c as [cid|], a as [amount|];
    try (unfold ret in Em; inversion Em; apply op_effect_refl).
  unfold bind at 1 in Em. unfold get_or_404 at 1 in Em.
  destruct (find _ (supplier_credits db)) as [credit|] eqn:G;
    [|discriminate].
  apply find_some in G. destruct G as [Hin _].
  unfold ret at 1 in Em. unfold bind at 1 in Em. unfold gets at 1 in Em.
  destruct (amount <=? 0) eqn:C1.
  { unfold ret in Em. inversion Em. apply op_effect_refl. }
  destruct (sc_balance credit <? amount) eqn:C2.
  { unfold ret in Em. inversion Em. apply op_effect_refl. }
  destruct (PurchaseOrder_balance_due db po <? amount).
  { unfold ret in Em. inversion Em. apply op_effect_refl. }
  apply Z.leb_gt in C1. apply Z.ltb_ge in C2.
  unfold bind at 1 in Em. unfold CreditApplication_objects_create in Em.
  unfold bind at 1 in Em. unfold update_credit_balance_on_application in Em.
  unfold bind at 1 in Em. unfold follow in Em.
  cbn [ca_credit ca_amount_applied] in Em.
  match type of Em with
  | context [get_supplier_credit ?d (sc_pk credit)] =>
      change (get_supplier_credit d (sc_pk credit))
        with (get_supplier_credit db (sc_pk credit)) in Em
  end.
  destruct (find_in_some _ (fun x => sc_pk x =? sc_pk credit)
              (supplier_credits db) credit Hin (Z.eqb_refl _))
    as [credit0 G0].
  fold (get_supplier_credit db (sc_pk credit)) in G0.
  rewrite G0 in Em. unfold ret, modify in Em.
  inversion Em; subst dbx resp; clear Em.
  eapply (effect_application db _ credit credit0 _ (po_pk po) amount);
    try eassumption; reflexivity.
Qed.

Lemma run_op_effect : forall op db, op_effect db (run_op op db).
Proof.
  intros [s q|p r a|r a|now today r d|p c a] db; simpl.
  - apply create_return_view_effect.
  - apply add_supplier_refund_view_effect.
  - apply create_general_refund_view_effect.
  - apply receive_replacement_view_effect.
  - apply apply_supplier_credit_view_effect.
Qed.

(** ** Credit balances *)





(** ** Value of returns *)

Lemma map_pr_pk_of_keys :
  forall l l' : list PurchaseReturn,
    map return_key l' = map return_key l -> map pr_pk l' = map pr_pk l.
Proof.
  intros l l' H.
  assert (Hk : forall m : list PurchaseReturn,
            map pr_pk m = map (fun k => fst (fst (fst k))) (map return_key m)).
  { intros m. rewrite map_map. reflexivity. }
  rewrite (Hk l), (Hk l'), H. reflexivity.
Qed.

Lemma return_key_eq :
  forall r r',
    return_key r = return_key r' ->
    pr_pk r = pr_pk r' /\ pr_purchase_order r = pr_purchase_order r'
    /\ pr_stock_item r = pr_stock_item r' /\ pr_quantity r = pr_quantity r'.
Proof.
  intros r r' H. unfold return_key in H. inversion H. auto.
Qed.

Lemma in_keys :
  forall (l l' : list PurchaseReturn) (r' : PurchaseReturn),
    map return_key l' = map return_key l ->
    In r' l' -> exists r, In r l /\ return_key r = return_key r'.
Proof.
  intros l l' r' H Hin.
  apply (in_map return_key) in Hin. rewrite H in Hin.
  apply in_map_iff in Hin. destruct Hin as [x [Hx Hxl]].
  exists x. split; assumption.
Qed.

(** The derived values of a return read its key and three tables. *)
Lemma return_values_same :
  forall db db' r r',
    return_key r' = return_key r ->
    replacement_items db' = replacement_items db ->
    supplier_refunds db' = supplier_refunds db ->
    (forall s, get_stock_item db (pr_stock_item r) = Some s ->
               get_stock_item db' (pr_stock_item r) = Some s) ->
    (exists s, get_stock_item db (pr_stock_item r) = Some s) ->
    total_value db' r' = total_value db r
    /\ value_of_items_replaced db' r' = value_of_items_replaced db r
    /\ amount_refunded db' r' = amount_refunded db r
    /\ quantity_replaced db' r' = quantity_replaced db r.
Proof.
  intros db db' r r' Hk Hrep Hrf Hst [s Hs].
  destruct (return_key_eq _ _ Hk) as [K1 [K2 [K3 K4]]].
  unfold total_value, value_of_items_replaced, amount_refunded,
    quantity_replaced, PurchaseReturn_replacementitem_set,
    PurchaseReturn_supplierrefund_set.
  rewrite Hrep, Hrf, K1, K3, K4, (Hst s Hs), Hs. repeat split.
Qed.

Lemma op_effect_returns :
  forall db db',
    op_effect db db' -> returns_consistent db -> returns_consistent db'.
Proof.
  intros db db' E K. destruct K as [K1 [K2 [K5 [K6 [K7 K3]]]]].
  destruct E as [Hk Hrep Hrf Hst _ _
                |stock po q Gs Hq Hret Hrep Hrf Hst _ _
                |r k po a Hin H1 Ha Hk Hrep Hrf Hst _ _
                |r k q orig batch rep Hin Go H1 Hq Hcp Hrk Hrr Hrq Hk Hrep
                   Hrf Hst _ _
                |c credit k po a _ _ _ _ Hret Hrep Hrf Hst _ _].
  - (* nothing recorded *)
    pose proof (map_pr_pk_of_keys _ _ Hk) as Hpk.
    unfold returns_consistent. rewrite Hpk, Hrep, Hrf, Hst.
    split; [exact K1|]. split; [exact K2|]. split.
    { intros r' Hr'. destruct (in_keys _ _ _ Hk Hr') as [r [Hr Hkr]].
      destruct (K5 r Hr) as [s Hs]. exists s.
      unfold get_stock_item in *. rewrite Hst.
      destruct (return_key_eq _ _ Hkr) as [A1 [A2 [A3 A4]]]. rewrite <- A3. exact Hs. }
    split; [exact K6|]. split; [exact K7|].
    intros r' Hr'. destruct (in_keys _ _ _ Hk Hr') as [r [Hr Hkr]].
    destruct (return_values_same db db' r r' (eq_sym Hkr) Hrep Hrf)
      as [V1 [V2 [V3 _]]].
    { intros s Hs. unfold get_stock_item in *. rewrite Hst. exact Hs. }
    { apply K5, Hr. }
    rewrite V1, V2, V3. apply K3, Hr.
  - (* a return created *)
    set (new := next_pk (map pr_pk (purchase_returns db))) in *.
    assert (Hfresh : ~ In new (map pr_pk (purchase_returns db)))
      by apply next_pk_fresh.
    unfold returns_consistent. rewrite Hret, Hrep, Hrf, Hst, map_app.
    split; [apply NoDup_snoc; assumption|]. split; [exact K2|]. split.
    { intros r Hr. apply in_app_or in Hr. destruct Hr as [Hr|[<-|[]]].
      - destruct (K5 r Hr) as [s Hs]. exists s.
        unfold get_stock_item in *. rewrite Hst. exact Hs.
      - exists stock. unfold get_stock_item in *. rewrite Hst. exact Gs. }
    split.
    { intros x Hx. apply in_or_app. left. apply K6, Hx. }
    split.
    { intros x j Hx Hj. apply in_or_app. left. apply (K7 x j Hx Hj). }
    intros r Hr. apply in_app_or in Hr. destruct Hr as [Hr|[<-|[]]].
    + destruct (return_values_same db db' r r eq_refl Hrep Hrf)
        as [V1 [V2 [V3 _]]].
      { intros s Hs. unfold get_stock_item in *. rewrite Hst. exact Hs. }
      { apply K5, Hr. }
      rewrite V1, V2, V3. apply K3, Hr.
    + unfold value_of_items_replaced, amount_refunded, total_value,
        quantity_replaced, PurchaseReturn_replacementitem_set,
        PurchaseReturn_supplierrefund_set.
      cbn [pr_pk pr_stock_item pr_quantity].
      unfold get_stock_item in *. rewrite Hst, Gs, Hrep, Hrf.
      rewrite !filter_nothing.
      * simpl. pose proof (K2 stock) as Hc.
        apply find_some in Gs. destruct Gs as [Gs _]. specialize (Hc Gs).
        nia.
      * intros x Hx. destruct (sr_purchase_return x) as [j|] eqn:Hj;
          [|reflexivity].
        simpl. apply Z.eqb_neq. intros Heq. apply Hfresh.
        rewrite <- Heq. apply (K7 x j Hx Hj).
      * intros x Hx. apply Z.eqb_neq. intros Heq. apply Hfresh.
        rewrite <- Heq. apply K6, Hx.
  - (* a refund recorded *)
    pose proof (map_pr_pk_of_keys _ _ Hk) as Hpk.
    unfold returns_consistent. rewrite Hpk, Hrep, Hst.
    split; [exact K1|]. split; [exact K2|]. split.
    { intros r' Hr'. destruct (in_keys _ _ _ Hk Hr') as [r0 [Hr0 Hkr]].
      destruct (K5 r0 Hr0) as [s Hs]. exists s.
      unfold get_stock_item in *. rewrite Hst.
      destruct (return_key_eq _ _ Hkr) as [A1 [A2 [A3 A4]]]. rewrite <- A3. exact Hs. }
    split; [exact K6|]. split.
    { intros x j Hx Hj. rewrite Hrf in Hx. apply in_app_or in Hx.
      destruct Hx as [Hx|[<-|[]]]; [apply (K7 x j Hx Hj)|].
      cbn in Hj. inversion Hj; subst. apply in_map. exact Hin. }
    intros r' Hr'. destruct (in_keys _ _ _ Hk Hr') as [r0 [Hr0 Hkr]].
    destruct (return_key_eq _ _ Hkr) as [A1 [A2 [A3 A4]]].
    pose proof (K3 r0 Hr0) as H3.
    destruct (K5 r0 Hr0) as [s Hs].
    unfold value_of_items_replaced, amount_refunded, total_value,
      quantity_replaced, PurchaseReturn_replacementitem_set,
      PurchaseReturn_supplierrefund_set in *.
    unfold get_stock_item in *.
    rewrite Hrep, Hrf, Hst, <- A1, <- A3, <- A4.
    rewrite Hs in *. rewrite filter_app, map_app, sumZ_app.
    cbn [filter sr_purchase_return opt_is].
    destruct (pr_pk r =? pr_pk r0) eqn:Ep.
    + apply Z.eqb_eq in Ep.
      assert (r = r0) by (apply (NoDup_map_same _ pr_pk _ _ _ K1); auto).
      subst r0. cbn [map sumZ fold_right sr_amount].
      unfold value_pending_action, value_of_items_replaced, amount_refunded,
        total_value, quantity_replaced, PurchaseReturn_replacementitem_set,
        PurchaseReturn_supplierrefund_set, get_stock_item in Ha.
      rewrite Hs in Ha. lia.
    + cbn [map sumZ fold_right]. lia.
  - (* a replacement received *)
    pose proof (map_pr_pk_of_keys _ _ Hk) as Hpk.
    assert (Hfind : forall j s, get_stock_item db j = Some s ->
                      get_stock_item db' j = Some s).
    { intros j s Hs. unfold get_stock_item in *. rewrite Hst.
      apply find_app_some. exact Hs. }
    assert (Horig : 0 <= si_cost_price orig).
    { apply K2. unfold get_stock_item in Go. apply find_some in Go.
      apply Go. }
    unfold returns_consistent. rewrite Hpk, Hrep, Hrf, Hst.
    split; [exact K1|]. split.
    { intros s Hs. apply in_app_or in Hs. destruct Hs as [Hs|[<-|[]]];
        [apply K2, Hs|]. rewrite Hcp. exact Horig. }
    split.
    { intros r' Hr'. destruct (in_keys _ _ _ Hk Hr') as [r0 [Hr0 Hkr]].
      destruct (K5 r0 Hr0) as [s Hs]. exists s.
      destruct (return_key_eq _ _ Hkr) as [A1 [A2 [A3 A4]]]. rewrite <- A3.
      apply Hfind. exact Hs. }
    split.
    { intros x Hx. apply in_app_or in Hx.
      destruct Hx as [Hx|[<-|[]]]; [apply K6, Hx|].
      rewrite Hrr. apply in_map. exact Hin. }
    split; [exact K7|].
    intros r' Hr'. destruct (in_keys _ _ _ Hk Hr') as [r0 [Hr0 Hkr]].
    destruct (return_key_eq _ _ Hkr) as [A1 [A2 [A3 A4]]].
    pose proof (K3 r0 Hr0) as H3.
    destruct (K5 r0 Hr0) as [s Hs].
    pose proof (Hfind _ _ Hs) as Hs'.
    unfold value_of_items_replaced, amount_refunded, total_value,
      quantity_replaced, PurchaseReturn_replacementitem_set,
      PurchaseReturn_supplierrefund_set in *.
    rewrite Hrep, Hrf, <- A1, <- A3, <- A4.
    rewrite Hs', Hs in *.
    rewrite filter_app, map_app, sumZ_app.
    cbn [filter]. rewrite Hrr.
    destruct (pr_pk r =? pr_pk r0) eqn:Ep.
    + apply Z.eqb_eq in Ep.
      assert (r = r0) by (apply (NoDup_map_same _ pr_pk _ _ _ K1); auto).
      subst r0. rewrite Go in Hs. inversion Hs; subst s.
      cbn [map sumZ fold_right]. rewrite Hrq.
      unfold quantity_pending_action, value_pending_action,
        value_of_items_replaced, amount_refunded, total_value,
        quantity_replaced, PurchaseReturn_replacementitem_set,
        PurchaseReturn_supplierrefund_set in Hq.
      rewrite Go in Hq.
      destruct (si_cost_price orig <=? 0) eqn:Ec.
      * apply Z.leb_le in Ec.
        assert (si_cost_price orig = 0) by lia. nia.
      * apply Z.leb_gt in Ec.
        rewrite Z.max_l in Hq by lia.
        rewrite Z.quot_div_nonneg in Hq by lia.
        match type of Hq with
        | q <= ?v / ?c =>
            pose proof (Z.mul_div_le v c Ec);
            assert (c * q <= c * (v / c)) by nia
        end.
        nia.
    + cbn [map sumZ fold_right]. lia.
  - (* a credit applied *)
    unfold returns_consistent. rewrite Hret, Hrep, Hrf, Hst.
    split; [exact K1|]. split; [exact K2|]. split.
    { intros r Hr. destruct (K5 r Hr) as [s Hs]. exists s.
      unfold get_stock_item in *. rewrite Hst. exact Hs. }
    split; [exact K6|]. split; [exact K7|].
    intros r Hr.
    destruct (return_values_same db db' r r eq_refl Hrep Hrf)
      as [V1 [V2 [V3 _]]].
    { intros s Hs. unfold get_stock_item in *. rewrite Hst. exact Hs. }
    { apply K5, Hr. }
    rewrite V1, V2, V3. apply K3, Hr.
Qed.

Lemma op_effect_pending :
  forall db db',
    op_effect db db' -> returns_consistent db ->
    forall r, In r (purchase_returns db) ->
      value_pending_action db' r <= value_pending_action db r.
Proof.
  intros db db' E K r0 Hr0. destruct K as [K1 [K2 [K5 [K6 [K7 K3]]]]].
  destruct (K5 r0 Hr0) as [s Hs].
  assert (Hsame : replacement_items db' = replacement_items db ->
                  supplier_refunds db' = supplier_refunds db ->
                  stock_items db' = stock_items db ->
                  value_pending_action db' r0 <= value_pending_action db r0).
  { intros Hrep Hrf Hst.
    destruct (return_values_same db db' r0 r0 eq_refl Hrep Hrf)
      as [V1 [V2 [V3 _]]].
    - intros x Hx. unfold get_stock_item in *. rewrite Hst. exact Hx.
    - exists s. exact Hs.
    - unfold value_pending_action. rewrite V1, V2, V3. lia. }
  destruct E as [Hk Hrep Hrf Hst _ _
                |stock po q Gs Hq Hret Hrep Hrf Hst _ _
                |r k po a Hin H1 Ha Hk Hrep Hrf Hst _ _
                |r k q orig batch rep Hin Go H1 Hq Hcp Hrk Hrr Hrq Hk Hrep
                   Hrf Hst _ _
                |c credit k po a _ _ _ _ Hret Hrep Hrf Hst _ _];
    try (apply Hsame; assumption).
  - (* a refund recorded *)
    unfold value_pending_action, value_of_items_replaced, amount_refunded,
      total_value, quantity_replaced, PurchaseReturn_replacementitem_set,
      PurchaseReturn_supplierrefund_set, get_stock_item.
    rewrite Hrep, Hrf, Hst. unfold get_stock_item in Hs. rewrite Hs.
    rewrite filter_app, map_app, sumZ_app.
    cbn [filter sr_purchase_return opt_is].
    destruct (pr_pk r =? pr_pk r0); cbn [map sumZ fold_right sr_amount]; lia.
  - (* a replacement received *)
    assert (Hs' : get_stock_item db' (pr_stock_item r0) = Some s).
    { unfold get_stock_item in *. rewrite Hst. apply find_app_some.
      exact Hs. }
    assert (Hc : 0 <= si_cost_price s).
    { apply K2. unfold get_stock_item in Hs. apply find_some in Hs.
      apply Hs. }
    unfold value_pending_action, value_of_items_replaced, amount_refunded,
      total_value, quantity_replaced, PurchaseReturn_replacementitem_set,
      PurchaseReturn_supplierrefund_set.
    rewrite Hrep, Hrf, Hs', Hs.
    rewrite filter_app, map_app, sumZ_app.
    cbn [filter]. rewrite Hrr.
    destruct (pr_pk r =? pr_pk r0); cbn [map sumZ fold_right];
      [rewrite Hrq|]; nia.
Qed.

Lemma run_ops_returns :
  forall ops db, returns_consistent db -> returns_consistent (run_ops ops db).
Proof.
  induction ops as [|op ops IH]; intros db K; [exact K|].
  simpl. apply IH. apply (op_effect_returns db); [apply run_op_effect|exact K].
Qed.

(** C5 (amended).  Starting from a store with no returns, replacement
    items or supplier refunds, in which no batch has a negative cost price,
    after any sequence of requests of the return and credit workflow the
    value replaced and the amount refunded of every return are together at
    most its total value, and no further request raises the value pending
    action of any return. *)
Theorem return_value_conserved :
  forall (db0 : DB) (ops : list Op),
    purchase_returns db0 = [] ->
    replacement_items db0 = [] ->
    supplier_refunds db0 = [] ->
    (forall s, In s (stock_items db0) -> 0 <= si_cost_price s) ->
    (forall r, In r (purchase_returns (run_ops ops db0)) ->
       value_of_items_replaced (run_ops ops db0) r
       + amount_refunded (run_ops ops db0) r
       <= total_value (run_ops ops db0) r)
    /\ (forall op r, In r (purchase_returns (run_ops ops db0)) ->
          value_pending_action (run_op op (run_ops ops db0)) r
          <= value_pending_action (run_ops ops db0) r).
Proof.
  intros db0 ops Hret Hrep Hrf Hcost.
  assert (K0 : returns_consistent db0).
  { unfold returns_consistent. rewrite Hret, Hrep, Hrf. simpl.
    split; [constructor|]. split; [exact Hcost|].
    split; [intros r []|]. split; [intros r []|].
    split; [intros r k []|intros r []]. }
  pose proof (run_ops_returns ops db0 K0) as K.
  split.
  - apply K.
  - intros op r Hr.
    apply (op_effect_pending _ _ (run_op_effect op _) K r Hr).
Qed.

(** C5 as stated fails for a batch with a negative cost price, which the
    receipt form and the model accept: the batch is received at -1.00, 10
    units of it are returned, and nothing replaced and nothing refunded
    already exceed the total value of the return, -10.00. *)
Lemma return_of_negative_cost_batch :
  option_map si_cost_price (get_stock_item negative_cost_db 1) = Some (-100)
  /\ purchase_returns negative_cost_db = []
  /\ replacement_items negative_cost_db = []
  /\ supplier_refunds negative_cost_db = []
  /\ purchase_returns (run_ops [CreateReturn 1 (Some 10)] negative_cost_db)
     = [return_of_negative_cost]
  /\ total_value (run_ops [CreateReturn 1 (Some 10)] negative_cost_db)
       return_of_negative_cost = -1000
  /\ ~ (value_of_items_replaced
          (run_ops [CreateReturn 1 (Some 10)] negative_cost_db)
          return_of_negative_cost
        + amount_refunded
            (run_ops [CreateReturn 1 (Some 10)] negative_cost_db)
            return_of_negative_cost
        <= total_value
             (run_ops [CreateReturn 1 (Some 10)] negative_cost_db)
             return_of_negative_cost).
Proof.
  split; [reflexivity|]. split; [reflexivity|]. split; [reflexivity|].
  split; [reflexivity|]. split; [reflexivity|]. split; [reflexivity|].
  vm_compute. intros H. apply H. reflexivity.
Qed.

(** ** The scenarios *)



Lemma invoice_item_consumes_and_restores_witness :
  quantity_available receive_and_consume_db batch_A = 100
  /\ quantity_available
       (fst (InvoiceItem_save twenty_of_batch_A receive_and_consume_db))
       batch_A = 80
  /\ exists db2,
       InvoiceItem_delete
         (mkInvoiceItem (Some 1) 1 None (Some 1) 20 (Some 1500) 0)
         (fst (InvoiceItem_save twenty_of_batch_A receive_and_consume_db))
       = (db2, Ok tt)
       /\ quantity_available db2 batch_A
          = quantity_available receive_and_consume_db batch_A.
Proof.
  split; [reflexivity|]. split; [reflexivity|].
  assert (Hwf : transactions_have_items receive_and_consume_db)
    by (intros t []).
  destruct (invoice_item_consumes_and_restores receive_and_consume_db
              (fst (InvoiceItem_save twenty_of_batch_A receive_and_consume_db))
              twenty_of_batch_A
              (mkInvoiceItem (Some 1) 1 None (Some 1) 20 (Some 1500) 0)
              batch_A Hwf eq_refl eq_refl eq_refl) as [_ [_ H]].
  exact H.
Defined.

Lemma grand_total_unchanged_by_replacement_witness :
  ri_pk (mkReplacementItem None 1 10 None "B" None) = None
  /\ snd (ReplacementItem_save 0 (mkReplacementItem None 1 10 None "B" None)
            (run_ops [CreateReturn 1 (Some 10)] receive_and_consume_db))
     = Ok (mkReplacementItem (Some 1) 1 10 (Some 2) "B" None)
  /\ grand_total (run_ops [CreateReturn 1 (Some 10)] receive_and_consume_db)
       order_1 = 100000
  /\ grand_total
       (fst (ReplacementItem_save 0
               (mkReplacementItem None 1 10 None "B" None)
               (run_ops [CreateReturn 1 (Some 10)] receive_and_consume_db)))
       order_1
     = grand_total
         (run_ops [CreateReturn 1 (Some 10)] receive_and_consume_db) order_1.
Proof.
  split; [reflexivity|]. split; [reflexivity|]. split; [reflexivity|].
  destruct (grand_total_unchanged_by_replacement 0
              (mkReplacementItem None 1 10 None "B" None)
              (run_ops [CreateReturn 1 (Some 10)] receive_and_consume_db)
              (fst (ReplacementItem_save 0
                      (mkReplacementItem None 1 10 None "B" None)
                      (run_ops [CreateReturn 1 (Some 10)]
                         receive_and_consume_db)))
              (mkReplacementItem (Some 1) 1 10 (Some 2) "B" None)
              eq_refl eq_refl) as [_ H].
  exact (H order_1).
Defined.

Lemma refund_creates_credit_for_its_supplier_witness :
  sr_pk (mkSupplierRefund None (Some 1) (Some 1) 10000) = None
  /\ supplier_of_refund
       (run_ops [CreateReturn 1 (Some 10)] receive_and_consume_db)
       (mkSupplierRefund None (Some 1) (Some 1) 10000) = Some 1
  /\ supplier_credits
       (fst (SupplierRefund_save
               (mkSupplierRefund None (Some 1) (Some 1) 10000)
               (run_ops [CreateReturn 1 (Some 10)] receive_and_consume_db)))
     = [mkSupplierCredit 1 1 1 10000 10000 false]
  /\ exists k,
       sr_pk (mkSupplierRefund (Some 1) (Some 1) (Some 1) 10000) = Some k
       /\ supplier_refunds
            (fst (SupplierRefund_save
                    (mkSupplierRefund None (Some 1) (Some 1) 10000)
                    (run_ops [CreateReturn 1 (Some 10)]
                       receive_and_consume_db)))
          = supplier_refunds
              (run_ops [CreateReturn 1 (Some 10)] receive_and_consume_db)
            ++ [mkSupplierRefund (Some 1) (Some 1) (Some 1) 10000]
       /\ sr_amount (mkSupplierRefund (Some 1) (Some 1) (Some 1) 10000)
          = sr_amount (mkSupplierRefund None (Some 1) (Some 1) 10000)
       /\ match supplier_of_refund
                  (run_ops [CreateReturn 1 (Some 10)] receive_and_consume_db)
                  (mkSupplierRefund None (Some 1) (Some 1) 10000) with
          | Some s =>
              exists c,
                supplier_credits
                  (fst (SupplierRefund_save
                          (mkSupplierRefund None (Some 1) (Some 1) 10000)
                          (run_ops [CreateReturn 1 (Some 10)]
                             receive_and_consume_db)))
                = supplier_credits
                    (run_ops [CreateReturn 1 (Some 10)]
                       receive_and_consume_db)
                  ++ [mkSupplierCredit c s k 10000 10000 false]
          | None =>
              supplier_credits
                (fst (SupplierRefund_save
                        (mkSupplierRefund None (Some 1) (Some 1) 10000)
                        (run_ops [CreateReturn 1 (Some 10)]
                           receive_and_consume_db)))
              = supplier_credits
                  (run_ops [CreateReturn 1 (Some 10)] receive_and_consume_db)
          end.
Proof.
  split; [reflexivity|]. split; [reflexivity|]. split; [reflexivity|].
  exact (refund_creates_credit_for_its_supplier
           (run_ops [CreateReturn 1 (Some 10)] receive_and_consume_db)
           (fst (SupplierRefund_save
                   (mkSupplierRefund None (Some 1) (Some 1) 10000)
                   (run_ops [CreateReturn 1 (Some 10)]
                      receive_and_consume_db)))
           (mkSupplierRefund None (Some 1) (Some 1) 10000)
           (mkSupplierRefund (Some 1) (Some 1) (Some 1) 10000)
           eq_refl eq_refl).
Defined.

Lemma get_all_related_returns_correct_witness :
  NoDup (map pr_pk (purchase_returns nested_return_db))
  /\ _get_all_related_returns nested_return_db order_1
     = Some [return_R1; return_R2]
  /\ exists l,
       _get_all_related_returns nested_return_db order_1 = Some l
       /\ NoDup (map pr_pk l)
       /\ NoDup l
       /\ forall r, In r l <-> related_to_order nested_return_db order_1 r.
Proof.
  assert (Hnd : NoDup (map pr_pk (purchase_returns nested_return_db))).
  { simpl. constructor.
    - intros [H|[]]. discriminate.
    - constructor; [intros []|constructor]. }
  split; [exact Hnd|]. split; [reflexivity|].
  exact (get_all_related_returns_correct nested_return_db order_1 Hnd).
Defined.

Lemma receive_purchase_order_view_atomic_witness :
  snd (receive_purchase_order_view 0 0 1 (Some [form_line_1; form_line_2])
         two_line_order_db) = Ok RedirectWithSuccess
  /\ map si_quantity
       (stock_items
          (fst (receive_purchase_order_view 0 0 1
                  (Some [form_line_1; form_line_2]) two_line_order_db)))
     = [100; 50]
  /\ map poi_quantity_received
       (purchase_order_items
          (fst (receive_purchase_order_view 0 0 1
                  (Some [form_line_1; form_line_2]) two_line_order_db)))
     = [100; 50]
  /\ ((snd (receive_purchase_order_view 0 0 1
              (Some [form_line_1; form_line_2]) two_line_order_db)
       = Ok RedirectWithSuccess
       /\ exists po forms created,
            get_purchase_order two_line_order_db 1 = Some po
            /\ Some [form_line_1; form_line_2] = Some forms
            /\ stock_items
                 (fst (receive_purchase_order_view 0 0 1
                         (Some [form_line_1; form_line_2])
                         two_line_order_db))
               = stock_items two_line_order_db ++ created
            /\ Forall2 (batch_of_form two_line_order_db po)
                 (requested_forms forms) created
            /\ counters_advanced two_line_order_db
                 (fst (receive_purchase_order_view 0 0 1
                         (Some [form_line_1; form_line_2])
                         two_line_order_db)) forms)
      \/ (snd (receive_purchase_order_view 0 0 1
                 (Some [form_line_1; form_line_2]) two_line_order_db)
          <> Ok RedirectWithSuccess
          /\ fst (receive_purchase_order_view 0 0 1
                    (Some [form_line_1; form_line_2]) two_line_order_db)
             = two_line_order_db)).
Proof.
  split; [reflexivity|]. split; [reflexivity|]. split; [reflexivity|].
  apply (receive_purchase_order_view_atomic 0 0 1
           (Some [form_line_1; form_line_2]) two_line_order_db).
  apply surjective_pairing.
Defined.

(** A receipt that fails at its second form: the body of the view has
    created the batch of the first form when the order line of the second
    is not found, and the view, which runs the body in a transaction,
    leaves the store as it was. *)
Lemma receipt_failing_midway :
  formset_is_valid two_line_order_db 0 0
    (purchase_order_items two_line_order_db)
    [form_line_1; form_line_missing] = true
  /\ snd (receive_purchase_order_body 0 0 1
            (Some [form_line_1; form_line_missing]) two_line_order_db)
     = Raise Http404
  /\ map si_quantity
       (stock_items
          (fst (receive_purchase_order_body 0 0 1
                  (Some [form_line_1; form_line_missing])
                  two_line_order_db))) = [100]
  /\ receive_purchase_order_view 0 0 1
       (Some [form_line_1; form_line_missing]) two_line_order_db
     = (two_line_order_db, Raise Http404).
Proof.
  split; [reflexivity|]. split; [reflexivity|]. split; reflexivity.
Qed.

Lemma return_value_conserved_witness :
  purchase_returns receive_and_consume_db = []
  /\ replacement_items receive_and_consume_db = []
  /\ supplier_refunds receive_and_consume_db = []
  /\ (forall s, In s (stock_items receive_and_consume_db) ->
        0 <= si_cost_price s)
  /\ In return_R1
       (purchase_returns (run_ops nested_return_ops receive_and_consume_db))
  /\ value_of_items_replaced
       (run_ops nested_return_ops receive_and_consume_db) return_R1
     + amount_refunded
         (run_ops nested_return_ops receive_and_consume_db) return_R1
     <= total_value
          (run_ops nested_return_ops receive_and_consume_db) return_R1
  /\ value_pending_action
       (run_op (CreateGeneralRefund 2 (Some 2000))
          (run_ops nested_return_ops receive_and_consume_db)) return_R2
     <= value_pending_action
          (run_ops nested_return_ops receive_and_consume_db) return_R2.
Proof.
  assert (Hcost : forall s, In s (stock_items receive_and_consume_db) ->
                    0 <= si_cost_price s).
  { intros s [<-|[]]. vm_compute. discriminate. }
  assert (H1 : In return_R1
                 (purchase_returns
                    (run_ops nested_return_ops receive_and_consume_db)))
    by (left; reflexivity).
  assert (H2 : In return_R2
                 (purchase_returns
                    (run_ops nested_return_ops receive_and_consume_db)))
    by (right; left; reflexivity).
  destruct (return_value_conserved receive_and_consume_db nested_return_ops
              eq_refl eq_refl eq_refl Hcost) as [Hv Hp].
  split; [reflexivity|]. split; [reflexivity|]. split; [reflexivity|].
  split; [exact Hcost|]. split; [exact H1|].
  split; [exact (Hv return_R1 H1)|].
  exact (Hp (CreateGeneralRefund 2 (Some 2000)) return_R2 H2).
Defined.


(** * Further properties *)

(** ** Patient payments and refunds *)

Lemma get_invoice_pk :
  forall db k inv, get_invoice db k = Some inv -> inv_pk inv = Some k.
Proof.
  intros db k inv H. unfold get_invoice in H.
  apply find_some in H. destruct H as [_ H].
  destruct (inv_pk inv) as [j|]; [|discriminate].
  simpl in H. apply Z.eqb_eq in H. subst. reflexivity.
Qed.

(** Saving the invoice of a view after a row was added to a table that is
    not the invoice table. *)
Lemma invoice_saved_by_receiver :
  forall (db1 db' : DB) (invoice : Invoice) (k : Z) (r : result unit),
    inv_pk invoice = Some k ->
    on_payment_change invoice db1 = (db', r) ->
    r = Ok tt
    /\ get_invoice db' k = Some (Invoice_recompute db1 invoice)
    /\ db' = set_invoices (invoices db') db1.
Proof.
  intros db1 db' invoice k r Hk E. unfold on_payment_change in E.
  destruct (Invoice_save_existing db1 invoice k Hk) as [dbx [Hs [Hg Hf]]].
  rewrite Hs in E. inversion E; subst. auto.
Qed.

Lemma balance_due_after_recompute :
  forall (db1 db' : DB) (invoice : Invoice),
    db' = set_invoices (invoices db') db1 ->
    Invoice_balance_due db' (Invoice_recompute db1 invoice)
    = match inv_pk invoice with
      | Some _ =>
          calculate_total_amount db1 invoice
          - Invoice_total_discount db1 invoice
          - Invoice_amount_paid db1 invoice
          + Invoice_total_refunded db1 invoice
      | None => Invoice_balance_due db1 invoice
      end.
Proof.
  intros db1 db' invoice Hf.
  assert (H : forall i, inv_pk i = inv_pk invoice ->
                inv_discount i = inv_discount invoice ->
                Invoice_balance_due db' i
                = inv_total_amount i - Invoice_total_discount db1 invoice
                  - Invoice_amount_paid db1 invoice
                  + Invoice_total_refunded db1 invoice).
  { intros i Hp Hd. rewrite Hf.
    unfold Invoice_balance_due, Invoice_net_amount, Invoice_total_discount,
      Invoice_amount_paid, Invoice_total_refunded, Invoice_invoice_items,
      Invoice_payments, Invoice_refunds.
    rewrite Hp, Hd. cbn. reflexivity. }
  unfold Invoice_recompute. destruct (inv_pk invoice) as [k|] eqn:Hk.
  - cbn zeta.
    destruct (negb _).
    + destruct (_ <=? 0); [|destruct (0 <? _)];
        rewrite H by (cbn; auto); reflexivity.
    + rewrite H by (cbn; auto). reflexivity.
  - rewrite H by auto.
    unfold Invoice_balance_due, Invoice_net_amount. reflexivity.
Qed.

Lemma status_after_recompute :
  forall (db1 : DB) (invoice : Invoice) (k : Z),
    inv_pk invoice = Some k ->
    inv_status invoice <> CANCELLED ->
    inv_status (Invoice_recompute db1 invoice)
    = if calculate_total_amount db1 invoice
         - Invoice_total_discount db1 invoice
         - Invoice_amount_paid db1 invoice
         + Invoice_total_refunded db1 invoice <=? 0
      then PAID
      else if 0 <? Invoice_amount_paid db1 invoice then PARTIAL
      else PENDING.
Proof.
  intros db1 invoice k Hk Hnc. unfold Invoice_recompute. rewrite Hk.
  cbn zeta.
  assert (Hst : is_cancelled
                  (inv_status
                     (with_inv_total_amount
                        (calculate_total_amount db1 invoice) invoice))
                = false).
  { cbn. destruct (inv_status invoice); try reflexivity.
    contradiction Hnc. reflexivity. }
  rewrite Hst. cbn [negb].
  set (self1 := with_inv_total_amount (calculate_total_amount db1 invoice)
                  invoice).
  change (sumZ (map ip_amount (Invoice_payments db1 self1)))
    with (Invoice_amount_paid db1 invoice).
  change (sumZ (map rf_amount (Invoice_refunds db1 self1)))
    with (Invoice_total_refunded db1 invoice).
  change (Invoice_net_amount db1 self1)
    with (calculate_total_amount db1 invoice
          - Invoice_total_discount db1 invoice).
  destruct (_ <=? 0); [reflexivity|].
  destruct (0 <? _); reflexivity.
Qed.

Lemma InvoicePaymentForm_is_valid_iff :
  forall db invoice amount,
    InvoicePaymentForm_is_valid db invoice amount = true
    <-> exists a, amount = Some a
                  /\ 1 <= a <= Invoice_balance_due db invoice
                  /\ a < 10 ^ 10.
Proof.
  intros db invoice amount. unfold InvoicePaymentForm_is_valid, fits_digits.
  destruct amount as [a|].
  - rewrite !andb_true_iff, !negb_true_iff, Z.leb_le, Z.ltb_lt, Z.leb_gt,
      Z.ltb_ge.
    split.
    + intros [[[H1 H2] H3] H4]. exists a. split; [reflexivity|]. lia.
    + intros [a' [Ha H]]. inversion Ha; subst a'. lia.
  - split; [discriminate|]. intros [a [Ha _]]. discriminate.
Qed.

Lemma add_invoice_payment_view_cases :
  forall (pk : Z) (amount : option Z) (db db' : DB) (r : result Response),
    add_invoice_payment_view pk (Some amount) db = (db', r) ->
    (exists invoice a db1,
       get_invoice db pk = Some invoice
       /\ amount = Some a
       /\ InvoicePaymentForm_is_valid db invoice (Some a) = true
       /\ r = Ok RedirectWithSuccess
       /\ db1 = set_invoice_payments
                  (invoice_payments db ++ [mkInvoicePayment pk a]) db
       /\ get_invoice db' pk = Some (Invoice_recompute db1 invoice)
       /\ db' = set_invoices (invoices db') db1)
    \/ (r <> Ok RedirectWithSuccess /\ db' = db
        /\ forall invoice,
             get_invoice db pk = Some invoice ->
             InvoicePaymentForm_is_valid db invoice amount = false).
Proof.
  intros pk amount db db' r E. unfold add_invoice_payment_view in E.
  unfold bind at 1 in E. unfold get_or_404 in E.
  destruct (get_invoice db pk) as [invoice|] eqn:G.
  2:{ unfold raise in E. inversion E; subst.
      right. split; [discriminate|]. split; [reflexivity|discriminate]. }
  unfold ret at 1 in E. unfold bind at 1 in E. unfold gets at 1 in E.
  destruct (InvoicePaymentForm_is_valid db invoice amount) eqn:V.
  2:{ unfold ret in E. inversion E; subst.
      right. split; [discriminate|]. split; [reflexivity|].
      intros i Hi. inversion Hi; subst. exact V. }
  destruct amount as [a|]; [|discriminate].
  unfold bind at 1 in E. unfold InvoicePayment_save in E.
  unfold bind at 1 in E. unfold modify in E. cbn [or_zero] in E.
  set (db1 := set_invoice_payments
                (invoice_payments db ++ [mkInvoicePayment pk a]) db) in *.
  destruct (on_payment_change invoice db1) as [db2 r2] eqn:E2.
  destruct (invoice_saved_by_receiver db1 db2 invoice pk r2
              (get_invoice_pk _ _ _ G) E2) as [-> [Hg Hf]].
  unfold ret in E. inversion E; subst db2 r; clear E.
  left. exists invoice, a, db1. repeat split; auto.
Qed.

(** A payment is recorded for an invoice exactly when the invoice exists
    and the amount is at least 0.01, at most the balance due and within
    the digits of the column; the payment table then grows by that one row
    and the lines and refunds are untouched.  Any other request leaves the
    store as it was. *)
Theorem invoice_payment_within_balance :
  forall (pk : Z) (amount : option Z) (db db' : DB) (r : result Response),
    add_invoice_payment_view pk (Some amount) db = (db', r) ->
    (r = Ok RedirectWithSuccess
     <-> exists invoice a,
           get_invoice db pk = Some invoice
           /\ amount = Some a
           /\ 1 <= a <= Invoice_balance_due db invoice
           /\ a < 10 ^ 10)
    /\ (r = Ok RedirectWithSuccess ->
        invoice_payments db'
        = invoice_payments db ++ [mkInvoicePayment pk (or_zero amount)]
        /\ invoice_items db' = invoice_items db
        /\ refunds db' = refunds db)
    /\ (r <> Ok RedirectWithSuccess -> db' = db).
Proof.
  intros pk amount db db' r E.
  destruct (add_invoice_payment_view_cases _ _ _ _ _ E)
    as [[invoice [a [db1 [G [Ha [V [Hr [Hd [_ Hf]]]]]]]]]|[Hr [Hdb Hv]]].
  - split; [|split].
    + split; [intros _|intros _; exact Hr].
      exists invoice, a. split; [exact G|]. split; [exact Ha|].
      apply InvoicePaymentForm_is_valid_iff in V.
      destruct V as [a' [Ha' V]]. inversion Ha'; subst a'. exact V.
    + intros _. rewrite Hf, Hd, Ha. cbn. repeat split.
    + intros H. contradiction H.
  - split; [|split].
    + split; [intros H; contradiction Hr|].
      intros [invoice [a [G [Ha V]]]]. subst amount.
      specialize (Hv invoice G).
      assert (Ht : InvoicePaymentForm_is_valid db invoice (Some a) = true).
      { apply InvoicePaymentForm_is_valid_iff. exists a. auto. }
      rewrite Ht in Hv. discriminate.
    + intros H. contradiction Hr.
    + intros _. exact Hdb.
Qed.

(** After a payment is recorded for an invoice that is not cancelled and
    whose stored total is the one its lines give, the balance due of the
    stored invoice has fallen by the amount and is not negative, and the
    invoice is PAID when the amount was the whole balance and PARTIAL
    otherwise (the earlier payments not being negative together). *)
Theorem invoice_payment_settles_balance :
  forall (pk a : Z) (db db' : DB) (invoice : Invoice),
    get_invoice db pk = Some invoice ->
    total_in_sync db invoice ->
    inv_status invoice <> CANCELLED ->
    0 <= Invoice_amount_paid db invoice ->
    add_invoice_payment_view pk (Some (Some a)) db
    = (db', Ok RedirectWithSuccess) ->
    exists saved,
      get_invoice db' pk = Some saved
      /\ Invoice_balance_due db' saved = Invoice_balance_due db invoice - a
      /\ 0 <= Invoice_balance_due db' saved
      /\ inv_status saved
         = if a =? Invoice_balance_due db invoice then PAID else PARTIAL.
Proof.
  intros pk a db db' invoice G Hsync Hnc Hpaid E.
  destruct (add_invoice_payment_view_cases _ _ _ _ _ E)
    as [[invoice' [a' [db1 [G' [Ha [V [_ [Hd [Hg Hf]]]]]]]]]|[H _]];
    [|contradiction H; reflexivity].
  rewrite G in G'. inversion G'; subst invoice'. inversion Ha; subst a'.
  clear G' Ha.
  pose proof (get_invoice_pk _ _ _ G) as Hk.
  exists (Invoice_recompute db1 invoice). split; [exact Hg|].
  assert (Hitems : calculate_total_amount db1 invoice
                   = inv_total_amount invoice).
  { rewrite Hsync. subst db1. reflexivity. }
  assert (Hdisc : Invoice_total_discount db1 invoice
                  = Invoice_total_discount db invoice)
    by (subst db1; reflexivity).
  assert (Hp : Invoice_amount_paid db1 invoice
               = Invoice_amount_paid db invoice + a).
  { subst db1. unfold Invoice_amount_paid, Invoice_payments. rewrite Hk.
    cbn [invoice_payments set_invoice_payments].
    rewrite filter_app, map_app, sumZ_app. cbn.
    rewrite Z.eqb_refl. cbn. lia. }
  assert (Hrf : Invoice_total_refunded db1 invoice
                = Invoice_total_refunded db invoice)
    by (subst db1; reflexivity).
  apply InvoicePaymentForm_is_valid_iff in V.
  destruct V as [a' [Ha' [[V1 V4] _]]]. inversion Ha'; subst a'; clear Ha'.
  assert (Hb : Invoice_balance_due db' (Invoice_recompute db1 invoice)
               = Invoice_balance_due db invoice - a).
  { rewrite (balance_due_after_recompute db1 db' invoice Hf). rewrite Hk.
    rewrite Hitems, Hdisc, Hp, Hrf.
    unfold Invoice_balance_due, Invoice_net_amount. lia. }
  split; [exact Hb|]. split; [lia|].
  rewrite (status_after_recompute db1 invoice pk Hk Hnc).
  rewrite Hitems, Hdisc, Hp, Hrf.
  replace (inv_total_amount invoice - Invoice_total_discount db invoice
           - (Invoice_amount_paid db invoice + a)
           + Invoice_total_refunded db invoice)
    with (Invoice_balance_due db invoice - a)
    by (unfold Invoice_balance_due, Invoice_net_amount; lia).
  destruct (a =? Invoice_balance_due db invoice) eqn:Ea.
  - apply Z.eqb_eq in Ea.
    replace (Invoice_balance_due db invoice - a <=? 0) with true
      by (symmetry; apply Z.leb_le; lia).
    reflexivity.
  - apply Z.eqb_neq in Ea.
    replace (Invoice_balance_due db invoice - a <=? 0) with false
      by (symmetry; apply Z.leb_gt; lia).
    replace (0 <? Invoice_amount_paid db invoice + a) with true
      by (symmetry; apply Z.ltb_lt; lia).
    reflexivity.
Qed.

Lemma invoice_saved_by_refund_receiver :
  forall (db1 db' : DB) (invoice : Invoice) (k : Z) (r : result unit),
    inv_pk invoice = Some k ->
    on_refund_change invoice db1 = (db', r) ->
    r = Ok tt
    /\ get_invoice db' k = Some (Invoice_recompute db1 invoice)
    /\ db' = set_invoices (invoices db') db1.
Proof.
  intros db1 db' invoice k r Hk E. unfold on_refund_change in E.
  destruct (Invoice_save_existing db1 invoice k Hk) as [dbx [Hs [Hg Hf]]].
  rewrite Hs in E. inversion E; subst. auto.
Qed.

Lemma RefundForm_is_valid_iff :
  forall db invoice amount,
    RefundForm_is_valid db invoice amount = true
    <-> exists a, amount = Some a
                  /\ 1 <= a <= - Invoice_balance_due db invoice
                  /\ a < 10 ^ 10.
Proof.
  intros db invoice amount. unfold RefundForm_is_valid, fits_digits.
  destruct amount as [a|].
  - rewrite !andb_true_iff, !negb_true_iff, Z.leb_le, Z.ltb_lt, !Z.leb_gt,
      Z.ltb_ge.
    split.
    + intros [[[[H1 H2] H3] H4] H5]. exists a. split; [reflexivity|]. lia.
    + intros [a' [Ha H]]. inversion Ha; subst a'. lia.
  - split; [discriminate|]. intros [a [Ha _]]. discriminate.
Qed.

Lemma record_refund_view_cases :
  forall (pk : Z) (amount : option Z) (db db' : DB) (r : result Response),
    record_refund_view pk (Some amount) db = (db', r) ->
    (exists invoice a db1,
       get_invoice db pk = Some invoice
       /\ amount = Some a
       /\ RefundForm_is_valid db invoice (Some a) = true
       /\ r = Ok RedirectWithSuccess
       /\ db1 = set_refunds (refunds db ++ [mkRefund pk a]) db
       /\ get_invoice db' pk = Some (Invoice_recompute db1 invoice)
       /\ db' = set_invoices (invoices db') db1)
    \/ (r <> Ok RedirectWithSuccess /\ db' = db
        /\ forall invoice,
             get_invoice db pk = Some invoice ->
             RefundForm_is_valid db invoice amount = false).
Proof.
  intros pk amount db db' r E. unfold record_refund_view in E.
  unfold bind at 1 in E. unfold get_or_404 in E.
  destruct (get_invoice db pk) as [invoice|] eqn:G.
  2:{ unfold raise in E. inversion E; subst.
      right. split; [discriminate|]. split; [reflexivity|discriminate]. }
  unfold ret at 1 in E. unfold bind at 1 in E. unfold gets at 1 in E.
  destruct (0 <=? Invoice_balance_due db invoice) eqn:B.
  { unfold ret in E. inversion E; subst.
    right. split; [discriminate|]. split; [reflexivity|].
    intros i Hi. inversion Hi; subst.
    unfold RefundForm_is_valid. destruct amount as [a|]; [|reflexivity].
    rewrite B. cbn. rewrite andb_false_r. reflexivity. }
  unfold bind at 1 in E. unfold gets at 1 in E.
  destruct (RefundForm_is_valid db invoice amount) eqn:V.
  2:{ unfold ret in E. inversion E; subst.
      right. split; [discriminate|]. split; [reflexivity|].
      intros i Hi. inversion Hi; subst. exact V. }
  destruct amount as [a|]; [|discriminate].
  unfold bind at 1 in E. unfold Refund_save in E.
  unfold bind at 1 in E. unfold modify in E. cbn [or_zero] in E.
  set (db1 := set_refunds (refunds db ++ [mkRefund pk a]) db) in *.
  destruct (on_refund_change invoice db1) as [db2 r2] eqn:E2.
  destruct (invoice_saved_by_refund_receiver db1 db2 invoice pk r2
              (get_invoice_pk _ _ _ G) E2) as [-> [Hg Hf]].
  unfold ret in E. inversion E; subst db2 r; clear E.
  left. exists invoice, a, db1. repeat split; auto.
Qed.

(** A refund is recorded for an invoice exactly when the invoice exists
    and is overpaid, and the amount is at least 0.01, at most what was
    overpaid and within the digits of the column; the refund table then
    grows by that one row.  Any other request leaves the store as it
    was. *)
Theorem invoice_refund_only_when_overpaid :
  forall (pk : Z) (amount : option Z) (db db' : DB) (r : result Response),
    record_refund_view pk (Some amount) db = (db', r) ->
    (r = Ok RedirectWithSuccess
     <-> exists invoice a,
           get_invoice db pk = Some invoice
           /\ amount = Some a
           /\ 1 <= a <= - Invoice_balance_due db invoice
           /\ a < 10 ^ 10)
    /\ (r = Ok RedirectWithSuccess ->
        refunds db' = refunds db ++ [mkRefund pk (or_zero amount)]
        /\ invoice_items db' = invoice_items db
        /\ invoice_payments db' = invoice_payments db)
    /\ (r <> Ok RedirectWithSuccess -> db' = db).
Proof.
  intros pk amount db db' r E.
  destruct (record_refund_view_cases _ _ _ _ _ E)
    as [[invoice [a [db1 [G [Ha [V [Hr [Hd [_ Hf]]]]]]]]]|[Hr [Hdb Hv]]].
  - split; [|split].
    + split; [intros _|intros _; exact Hr].
      exists invoice, a. split; [exact G|]. split; [exact Ha|].
      apply RefundForm_is_valid_iff in V.
      destruct V as [a' [Ha' V]]. inversion Ha'; subst a'. exact V.
    + intros _. rewrite Hf, Hd, Ha. cbn. repeat split.
    + intros H. contradiction H.
  - split; [|split].
    + split; [intros H; contradiction Hr|].
      intros [invoice [a [G [Ha V]]]]. subst amount.
      specialize (Hv invoice G).
      assert (Ht : RefundForm_is_valid db invoice (Some a) = true).
      { apply RefundForm_is_valid_iff. exists a. auto. }
      rewrite Ht in Hv. discriminate.
    + intros H. contradiction Hr.
    + intros _. exact Hdb.
Qed.

(** After a refund is recorded for an invoice that is not cancelled and
    whose stored total is the one its lines give, the balance due of the
    stored invoice has risen by the amount, is still not above zero, and
    the invoice is PAID. *)
Theorem invoice_refund_leaves_invoice_paid :
  forall (pk a : Z) (db db' : DB) (invoice : Invoice),
    get_invoice db pk = Some invoice ->
    total_in_sync db invoice ->
    inv_status invoice <> CANCELLED ->
    record_refund_view pk (Some (Some a)) db
    = (db', Ok RedirectWithSuccess) ->
    exists saved,
      get_invoice db' pk = Some saved
      /\ Invoice_balance_due db' saved = Invoice_balance_due db invoice + a
      /\ Invoice_balance_due db' saved <= 0
      /\ inv_status saved = PAID.
Proof.
  intros pk a db db' invoice G Hsync Hnc E.
  destruct (record_refund_view_cases _ _ _ _ _ E)
    as [[invoice' [a' [db1 [G' [Ha [V [_ [Hd [Hg Hf]]]]]]]]]|[H _]];
    [|contradiction H; reflexivity].
  rewrite G in G'. inversion G'; subst invoice'. inversion Ha; subst a'.
  clear G' Ha.
  pose proof (get_invoice_pk _ _ _ G) as Hk.
  exists (Invoice_recompute db1 invoice). split; [exact Hg|].
  assert (Hitems : calculate_total_amount db1 invoice
                   = inv_total_amount invoice).
  { rewrite Hsync. subst db1. reflexivity. }
  assert (Hdisc : Invoice_total_discount db1 invoice
                  = Invoice_total_discount db invoice)
    by (subst db1; reflexivity).
  assert (Hp : Invoice_amount_paid db1 invoice
               = Invoice_amount_paid db invoice)
    by (subst db1; reflexivity).
  assert (Hrf : Invoice_total_refunded db1 invoice
                = Invoice_total_refunded db invoice + a).
  { subst db1. unfold Invoice_total_refunded, Invoice_refunds. rewrite Hk.
    cbn [refunds set_refunds].
    rewrite filter_app, map_app, sumZ_app. cbn.
    rewrite Z.eqb_refl. cbn. lia. }
  apply RefundForm_is_valid_iff in V.
  destruct V as [a' [Ha' [[V1 V4] _]]]. inversion Ha'; subst a'; clear Ha'.
  assert (Hb : Invoice_balance_due db' (Invoice_recompute db1 invoice)
               = Invoice_balance_due db invoice + a).
  { rewrite (balance_due_after_recompute db1 db' invoice Hf). rewrite Hk.
    rewrite Hitems, Hdisc, Hp, Hrf.
    unfold Invoice_balance_due, Invoice_net_amount. lia. }
  split; [exact Hb|]. split; [lia|].
  rewrite (status_after_recompute db1 invoice pk Hk Hnc).
  rewrite Hitems, Hdisc, Hp, Hrf.
  replace (inv_total_amount invoice - Invoice_total_discount db invoice
           - Invoice_amount_paid db invoice
           + (Invoice_total_refunded db invoice + a))
    with (Invoice_balance_due db invoice + a)
    by (unfold Invoice_balance_due, Invoice_net_amount; lia).
  replace (Invoice_balance_due db invoice + a <=? 0) with true
    by (symmetry; apply Z.leb_le; lia).
  reflexivity.
Qed.

(** ** Invoice totals *)

Lemma sumZ_map_sub :
  forall (A : Type) (f g : A -> Z) (l : list A),
    sumZ (map f l) - sumZ (map g l) = sumZ (map (fun x => f x - g x) l).
Proof.
  intros A f g l. induction l as [|x l IH]; simpl; [reflexivity|]. lia.
Qed.

Lemma total_after_recompute :
  forall (db : DB) (self : Invoice) (k : Z),
    inv_pk self = Some k ->
    inv_total_amount (Invoice_recompute db self)
    = calculate_total_amount db self
    /\ inv_pk (Invoice_recompute db self) = Some k
    /\ inv_discount (Invoice_recompute db self) = inv_discount self.
Proof.
  intros db self k Hk. unfold Invoice_recompute. rewrite Hk. cbn zeta.
  destruct (negb _).
  - destruct (_ <=? 0); [|destruct (0 <? _)]; cbn; auto.
  - cbn. auto.
Qed.


Lemma only_transactions_refl :
  forall db, db = set_stock_item_transactions (stock_item_transactions db) db.
Proof. intros db. destruct db; reflexivity. Qed.

Lemma delete_transactions_of_frame :
  forall instance db db' r,
    delete_transactions_of instance db = (db', r) ->
    r = Ok tt
    /\ db' = set_stock_item_transactions (stock_item_transactions db') db.
Proof.
  intros instance db db' r E. unfold delete_transactions_of, modify in E.
  inversion E; subst. split; reflexivity.
Qed.

Lemma update_or_create_transaction_frame :
  forall instance s db db' r,
    update_or_create_transaction instance s db = (db', r) ->
    db' = set_stock_item_transactions (stock_item_transactions db') db.
Proof.
  intros instance s db db' r E. unfold update_or_create_transaction in E.
  destruct (ii_pk instance) as [k|].
  - destruct (existsb _ _); inversion E; subst; reflexivity.
  - inversion E; subst. apply only_transactions_refl.
Qed.

Lemma update_stock_for_invoice_item_frame :
  forall instance previous_state deleted db db' r,
    update_stock_for_invoice_item instance previous_state deleted db
    = (db', r) ->
    db' = set_stock_item_transactions (stock_item_transactions db') db.
Proof.
  intros instance previous_state deleted db db' r E.
  unfold update_stock_for_invoice_item, transaction_atomic in E.
  match type of E with
  | context [match ?m db with _ => _ end] =>
      destruct (m db) as [dbx rx] eqn:Em
  end.
  destruct rx as [u|e].
  2:{ inversion E; subst. apply only_transactions_refl. }
  inversion E; subst dbx r; clear E.
  unfold bind at 1 in Em.
  match type of Em with
  | context [match ?m db with _ => _ end] =>
      destruct (m db) as [db1 r1] eqn:E1
  end.
  assert (F1 : db1 = set_stock_item_transactions
                       (stock_item_transactions db1) db).
  { destruct previous_state as [[[prev|] q]|].
    - destruct (negb _).
      + apply delete_transactions_of_frame in E1. apply E1.
      + unfold ret in E1. inversion E1; subst.
        apply only_transactions_refl.
    - unfold ret in E1. inversion E1; subst. apply only_transactions_refl.
    - unfold ret in E1. inversion E1; subst. apply only_transactions_refl. }
  destruct r1 as [[]|]; [|discriminate].
  unfold bind at 1 in Em.
  match type of Em with
  | context [match ?m db1 with _ => _ end] =>
      destruct (m db1) as [db2 r2] eqn:E2
  end.
  assert (F2 : db2 = set_stock_item_transactions
                       (stock_item_transactions db2) db1).
  { destruct deleted, (ii_stock_item instance).
    - apply delete_transactions_of_frame in E2. apply E2.
    - unfold ret in E2. inversion E2; subst. apply only_transactions_refl.
    - unfold ret in E2. inversion E2; subst. apply only_transactions_refl.
    - unfold ret in E2. inversion E2; subst. apply only_transactions_refl. }
  destruct r2 as [[]|]; [|discriminate].
  assert (F3 : db' = set_stock_item_transactions
                       (stock_item_transactions db') db2).
  { destruct deleted, (ii_stock_item instance).
    - unfold ret in Em. inversion Em; subst. apply only_transactions_refl.
    - unfold ret in Em. inversion Em; subst. apply only_transactions_refl.
    - apply update_or_create_transaction_frame in Em. exact Em.
    - unfold ret in Em. inversion Em; subst. apply only_transactions_refl. }
  rewrite F3, F2, F1. reflexivity.
Qed.

(** The receiver that saves the invoice of a line leaves the invoice
    stored with the total that its lines give. *)
Lemma update_invoice_on_item_change_total :
  forall instance db db',
    update_invoice_on_item_change instance db = (db', Ok tt) ->
    exists inv,
      get_invoice db' (ii_invoice instance) = Some inv
      /\ inv_pk inv = Some (ii_invoice instance)
      /\ inv_total_amount inv = calculate_total_amount db inv
      /\ db' = set_invoices (invoices db') db.
Proof.
  intros instance db db' E.
  pose proof (update_invoice_on_item_change_frame _ _ _ _ E) as Hf.
  unfold update_invoice_on_item_change in E.
  destruct (get_invoice db (ii_invoice instance)) as [inv|] eqn:G;
    [|discriminate].
  pose proof (get_invoice_pk _ _ _ G) as Hk.
  destruct (Invoice_save_existing db inv _ Hk) as [dbx [Hs [Hg _]]].
  rewrite Hs in E. inversion E; subst dbx.
  destruct (total_after_recompute db inv _ Hk) as [Ht [Hp _]].
  exists (Invoice_recompute db inv).
  split; [exact Hg|]. split; [exact Hp|]. split; [|exact Hf].
  rewrite Ht. unfold calculate_total_amount, Invoice_invoice_items.
  rewrite Hp, Hk. reflexivity.
Qed.

(** After an invoice line is saved or deleted, the invoice it belongs to
    is stored with the total that its remaining lines give: the sum of
    quantity times unit price. *)
Theorem invoice_total_follows_lines :
  forall (db db' : DB) (item : InvoiceItem),
    (exists saved, InvoiceItem_save item db = (db', Ok saved))
    \/ InvoiceItem_delete item db = (db', Ok tt) ->
    exists inv,
      get_invoice db' (ii_invoice item) = Some inv
      /\ inv_total_amount inv = calculate_total_amount db' inv.
Proof.
  intros db db' item [[saved E]|E].
  - unfold InvoiceItem_save in E. unfold bind at 1 in E.
    destruct (InvoiceItem_full_clean item db) as [dba ra] eqn:Ec.
    destruct ra as [cleaned|e]; [|discriminate].
    destruct (InvoiceItem_full_clean_ok _ _ _ _ Ec)
      as [-> [Hcpk [Hcs [Hcq [Hci Hq1]]]]].
    unfold bind at 1 in E. unfold gets at 1 in E.
    unfold bind at 1 in E.
    destruct (InvoiceItem_super_save cleaned db) as [dbb rb] eqn:Es.
    destruct rb as [row|e]; [|discriminate].
    assert (Hrow : ii_invoice row = ii_invoice item).
    { unfold InvoiceItem_super_save in Es.
      destruct (ii_pk cleaned).
      - destruct (existsb _ _); inversion Es; subst; exact Hci.
      - inversion Es; subst. cbn. exact Hci. }
    unfold bind at 1 in E.
    destruct (update_invoice_on_item_change row dbb) as [dbc rc] eqn:Ei.
    destruct rc as [[]|e]; [|discriminate].
    destruct (update_invoice_on_item_change_total _ _ _ Ei)
      as [inv [Hg [Hp [Ht Hf]]]].
    unfold bind at 1 in E.
    match type of E with
    | context [update_stock_for_invoice_item ?a ?b ?c dbc] =>
        destruct (update_stock_for_invoice_item a b c dbc)
          as [dbd rd] eqn:Eu
    end.
    destruct rd as [[]|e]; [|discriminate].
    unfold ret in E. inversion E; subst dbd saved; clear E.
    apply update_stock_for_invoice_item_frame in Eu.
    exists inv. rewrite <- Hrow. split.
    + rewrite Eu. unfold get_invoice in *. cbn. exact Hg.
    + rewrite Ht. unfold calculate_total_amount, Invoice_invoice_items.
      rewrite Hp. rewrite Eu. cbn. rewrite Hf. reflexivity.
  - unfold InvoiceItem_delete in E.
    destruct (ii_pk item) as [k|] eqn:Hk; [|discriminate].
    unfold transaction_atomic in E.
    match type of E with
    | context [match ?m db with _ => _ end] =>
        destruct (m db) as [dbx rx] eqn:Em
    end.
    destruct rx as [[]|e]; [|discriminate].
    inversion E; subst dbx; clear E.
    unfold bind at 1 in Em.
    destruct (delete_transactions_of item db) as [db1 r1] eqn:E1.
    apply delete_transactions_of_frame in E1. destruct E1 as [-> F1].
    unfold bind at 1 in Em. unfold modify at 1 in Em.
    set (db2 := set_invoice_items _ db1) in *.
    unfold bind at 1 in Em.
    destruct (update_invoice_on_item_change item db2) as [db3 r3] eqn:Ei.
    destruct r3 as [[]|e]; [|discriminate].
    destruct (update_invoice_on_item_change_total _ _ _ Ei)
      as [inv [Hg [Hp [Ht Hf]]]].
    apply update_stock_for_invoice_item_frame in Em.
    exists inv. split.
    + rewrite Em. unfold get_invoice in *. cbn. exact Hg.
    + rewrite Ht. unfold calculate_total_amount, Invoice_invoice_items.
      rewrite Hp. rewrite Em. cbn. rewrite Hf. reflexivity.
Qed.

(** ** Supplier payments *)

Lemma get_purchase_order_pk :
  forall db k po,
    get_purchase_order db k = Some po ->
    po_pk po = k /\ In po (purchase_orders db).
Proof.
  intros db k po H. unfold get_purchase_order in H.
  apply find_some in H. destruct H as [Hin H]. apply Z.eqb_eq in H. auto.
Qed.

Lemma SupplierPaymentForm_is_valid_iff :
  forall db po amount,
    SupplierPaymentForm_is_valid db po amount = true
    <-> exists a, amount = Some a
                  /\ 1 <= a <= PurchaseOrder_balance_due db po
                  /\ a < 10 ^ 10.
Proof.
  intros db po amount. unfold SupplierPaymentForm_is_valid, fits_digits.
  destruct amount as [a|].
  - rewrite !andb_true_iff, !negb_true_iff, Z.leb_le, Z.ltb_lt, Z.leb_gt,
      Z.ltb_ge.
    split.
    + intros [[[H1 H2] H3] H4]. exists a. split; [reflexivity|]. lia.
    + intros [a' [Ha H]]. inversion Ha; subst a'. lia.
  - split; [discriminate|]. intros [a [Ha _]]. discriminate.
Qed.

(** The balance due of an order reads its key only, and the tables of
    batches, order lines, payments and credit applications. *)
Lemma PurchaseOrder_balance_due_same :
  forall db db' p p',
    po_pk p' = po_pk p ->
    stock_items db' = stock_items db ->
    purchase_order_items db' = purchase_order_items db ->
    supplier_payments db' = supplier_payments db ->
    credit_applications db' = credit_applications db ->
    PurchaseOrder_balance_due db' p' = PurchaseOrder_balance_due db p.
Proof.
  intros db db' p p' Hk H1 H2 H3 H4.
  unfold PurchaseOrder_balance_due, grand_total, PurchaseOrder_amount_paid,
    amount_credited, received_for_order, get_purchase_order_item.
  rewrite Hk, H1, H2, H3, H4. reflexivity.
Qed.

Lemma add_supplier_payment_view_cases :
  forall (pk : Z) (amount : option Z) (db db' : DB) (r : result Response),
    add_supplier_payment_view pk (Some amount) db = (db', r) ->
    (exists po a db1,
       get_purchase_order db pk = Some po
       /\ amount = Some a
       /\ SupplierPaymentForm_is_valid db po (Some a) = true
       /\ r = Ok RedirectWithSuccess
       /\ db1 = set_supplier_payments
                  (supplier_payments db ++ [mkSupplierPayment pk a]) db
       /\ db' = set_purchase_orders
                  (map (fun p => if po_pk p =? pk
                                 then with_po_status
                                        (PurchaseOrder_new_status db1 po) p
                                 else p)
                       (purchase_orders db)) db1)
    \/ (r <> Ok RedirectWithSuccess /\ db' = db
        /\ forall po,
             get_purchase_order db pk = Some po ->
             SupplierPaymentForm_is_valid db po amount = false).
Proof.
  intros pk amount db db' r E. unfold add_supplier_payment_view in E.
  unfold bind at 1 in E. unfold get_or_404 in E.
  destruct (get_purchase_order db pk) as [po|] eqn:G.
  2:{ unfold raise in E. inversion E; subst.
      right. split; [discriminate|]. split; [reflexivity|discriminate]. }
  unfold ret at 1 in E. unfold bind at 1 in E. unfold gets at 1 in E.
  destruct (SupplierPaymentForm_is_valid db po amount) eqn:V.
  2:{ unfold ret in E. inversion E; subst.
      right. split; [discriminate|]. split; [reflexivity|].
      intros i Hi. inversion Hi; subst. exact V. }
  destruct amount as [a|]; [|discriminate].
  destruct (get_purchase_order_pk _ _ _ G) as [Hk _].
  unfold bind at 1 in E. unfold SupplierPayment_save in E.
  unfold bind at 1 in E. unfold modify in E.
  cbn [or_zero sp_purchase_order] in E. rewrite Hk in E.
  set (db1 := set_supplier_payments
                (supplier_payments db ++ [mkSupplierPayment pk a]) db) in *.
  unfold update_status_of_order in E.
  change (get_purchase_order db1 pk) with (get_purchase_order db pk) in E.
  rewrite G in E. unfold PurchaseOrder_update_status in E.
  unfold ret in E. rewrite Hk in E. inversion E; subst db' r; clear E.
  left. exists po, a, db1. repeat split; auto.
Qed.

(** A supplier payment is recorded for a purchase order exactly when the
    order exists and the amount is at least 0.01, at most the balance due
    and within the digits of the column; the balance due of the order then
    falls by the amount and is not negative.  Any other request leaves the
    store as it was. *)
Theorem supplier_payment_within_balance :
  forall (pk : Z) (amount : option Z) (db db' : DB) (r : result Response),
    add_supplier_payment_view pk (Some amount) db = (db', r) ->
    (r = Ok RedirectWithSuccess
     <-> exists po a,
           get_purchase_order db pk = Some po
           /\ amount = Some a
           /\ 1 <= a <= PurchaseOrder_balance_due db po
           /\ a < 10 ^ 10)
    /\ (r = Ok RedirectWithSuccess ->
        supplier_payments db'
        = supplier_payments db ++ [mkSupplierPayment pk (or_zero amount)]
        /\ forall po,
             get_purchase_order db pk = Some po ->
             exists po',
               get_purchase_order db' pk = Some po'
               /\ PurchaseOrder_balance_due db' po'
                  = PurchaseOrder_balance_due db po - or_zero amount
               /\ 0 <= PurchaseOrder_balance_due db' po')
    /\ (r <> Ok RedirectWithSuccess -> db' = db).
Proof.
  intros pk amount db db' r E.
  destruct (add_supplier_payment_view_cases _ _ _ _ _ E)
    as [[po [a [db1 [G [Ha [V [Hr [Hd Hf]]]]]]]]|[Hr [Hdb Hv]]].
  - apply SupplierPaymentForm_is_valid_iff in V.
    destruct V as [a' [Ha' V]]. inversion Ha'; subst a'; clear Ha'.
    split; [|split].
    + split; [intros _|intros _; exact Hr].
      exists po, a. auto.
    + intros _. split; [rewrite Hf, Hd, Ha; reflexivity|].
      intros po0 G0. rewrite G in G0. inversion G0; subst po0; clear G0.
      destruct (get_purchase_order_pk _ _ _ G) as [Hk _].
      exists (with_po_status (PurchaseOrder_new_status db1 po) po).
      assert (Hg : get_purchase_order db' pk
                   = Some (with_po_status (PurchaseOrder_new_status db1 po) po)).
      { rewrite Hf. unfold get_purchase_order.
        cbn [purchase_orders set_purchase_orders].
        rewrite (find_map_same_key _
                   (fun p => po_pk p =? pk)
                   (fun p => if po_pk p =? pk
                             then with_po_status
                                    (PurchaseOrder_new_status db1 po) p
                             else p)).
        - fold (get_purchase_order db pk). rewrite G. cbn.
          rewrite Hk, Z.eqb_refl. reflexivity.
        - intros x. destruct (po_pk x =? pk) eqn:Ex; cbn; rewrite Ex;
            reflexivity. }
      split; [exact Hg|].
      assert (Hb : PurchaseOrder_balance_due db'
                     (with_po_status (PurchaseOrder_new_status db1 po) po)
                   = PurchaseOrder_balance_due db po - a).
      { rewrite Hf, Hd.
        unfold PurchaseOrder_balance_due, grand_total,
          PurchaseOrder_amount_paid, amount_credited, received_for_order,
          get_purchase_order_item.
        cbn [stock_items purchase_order_items supplier_payments
             credit_applications set_purchase_orders set_supplier_payments
             po_pk with_po_status].
        rewrite filter_app, map_app, sumZ_app. cbn [filter sp_purchase_order].
        rewrite Hk, Z.eqb_refl. cbn. lia. }
      rewrite Ha. cbn [or_zero]. split; [exact Hb|]. rewrite Hb. lia.
    + intros H. contradiction H.
  - split; [|split].
    + split; [intros H; contradiction Hr|].
      intros [po [a [G [Ha V]]]]. subst amount.
      specialize (Hv po G).
      assert (Ht : SupplierPaymentForm_is_valid db po (Some a) = true).
      { apply SupplierPaymentForm_is_valid_iff. exists a. auto. }
      rewrite Ht in Hv. discriminate.
    + intros H. contradiction Hr.
    + intros _. exact Hdb.
Qed.

Lemma filter_map_commute :
  forall (A : Type) (p : A -> bool) (g : A -> A) (l : list A),
    (forall x, p (g x) = p x) ->
    filter p (map g l) = map g (filter p l).
Proof.
  intros A p g l H. induction l as [|x l IH]; simpl; [reflexivity|].
  rewrite H. destruct (p x); simpl; rewrite IH; reflexivity.
Qed.

Lemma sumZ_less_at_key :
  forall (A : Type) (key : A -> Z) (f : A -> Z) (k a : Z) (l : list A),
    NoDup (map key l) ->
    sumZ (map (fun x => f x - (if key x =? k then a else 0)) l)
    = sumZ (map f l) - (if existsb (fun x => key x =? k) l then a else 0).
Proof.
  intros A key f k a l. induction l as [|x l IH]; simpl; intros Hnd;
    [reflexivity|].
  inversion Hnd as [|? ? Hx Hl]; subst. rewrite (IH Hl).
  destruct (key x =? k) eqn:Ex; cbn [orb]; [|lia].
  apply Z.eqb_eq in Ex.
  assert (Hno : existsb (fun y => key y =? k) l = false).
  { apply not_true_is_false. intros Hy. apply existsb_exists in Hy.
    destruct Hy as [y [Hy Hk]]. apply Z.eqb_eq in Hk.
    apply Hx. rewrite Ex, <- Hk. apply in_map. exact Hy. }
  rewrite Hno. lia.
Qed.

(** A payment recorded for a purchase order lowers the outstanding
    balance of the supplier of the order by the amount paid, and leaves
    the outstanding balance of every other supplier as it was. *)
Theorem supplier_payment_lowers_outstanding_balance :
  forall (pk a : Z) (db db' : DB) (po : PurchaseOrder),
    NoDup (map po_pk (purchase_orders db)) ->
    get_purchase_order db pk = Some po ->
    add_supplier_payment_view pk (Some (Some a)) db
    = (db', Ok RedirectWithSuccess) ->
    forall supplier : Z,
      get_outstanding_balance db' supplier
      = get_outstanding_balance db supplier
        - (if supplier =? po_supplier po then a else 0).
Proof.
  intros pk a db db' po Hnd G E supplier.
  destruct (add_supplier_payment_view_cases _ _ _ _ _ E)
    as [[po' [a' [db1 [G' [Ha [V [_ [Hd Hf]]]]]]]]|[H _]];
    [|contradiction H; reflexivity].
  rewrite G in G'. inversion G'; subst po'. inversion Ha; subst a'.
  clear G' Ha V.
  destruct (get_purchase_order_pk _ _ _ G) as [Hk Hin].
  unfold get_outstanding_balance.
  set (g := fun p => if po_pk p =? pk
                     then with_po_status (PurchaseOrder_new_status db1 po) p
                     else p) in *.
  assert (Hg_supplier : forall x, po_supplier (g x) = po_supplier x)
    by (intros x; unfold g; destruct (po_pk x =? pk); reflexivity).
  assert (Hg_pk : forall x, po_pk (g x) = po_pk x)
    by (intros x; unfold g; destruct (po_pk x =? pk); reflexivity).
  assert (Ho : purchase_orders db' = map g (purchase_orders db))
    by (rewrite Hf; reflexivity).
  rewrite Ho.
  rewrite (filter_map_commute _ (fun p => po_supplier p =? supplier) g)
    by (intros x; cbn; rewrite Hg_supplier; reflexivity).
  rewrite map_map.
  set (L := filter (fun p => po_supplier p =? supplier) (purchase_orders db)).
  assert (Hbal : forall x,
            PurchaseOrder_balance_due db' (g x)
            = PurchaseOrder_balance_due db x
              - (if po_pk x =? pk then a else 0)).
  { intros x. rewrite Hf, Hd.
    unfold PurchaseOrder_balance_due, grand_total,
      PurchaseOrder_amount_paid, amount_credited, received_for_order,
      get_purchase_order_item.
    cbn [stock_items purchase_order_items supplier_payments
         credit_applications set_purchase_orders set_supplier_payments].
    rewrite Hg_pk.
    rewrite filter_app, map_app, sumZ_app. cbn [filter sp_purchase_order].
    rewrite (Z.eqb_sym pk (po_pk x)).
    destruct (po_pk x =? pk); cbn; lia. }
  rewrite (map_ext _ _ Hbal).
  rewrite (sumZ_less_at_key _ po_pk (PurchaseOrder_balance_due db) pk a L)
    by (apply NoDup_map_filter; exact Hnd).
  f_equal.
  destruct (supplier =? po_supplier po) eqn:Es.
  - apply Z.eqb_eq in Es.
    assert (Hex : existsb (fun x => po_pk x =? pk) L = true).
    { apply existsb_exists. exists po. split.
      - unfold L. apply filter_In. split; [exact Hin|].
        apply Z.eqb_eq. symmetry. exact Es.
      - apply Z.eqb_eq. exact Hk. }
    rewrite Hex. reflexivity.
  - apply Z.eqb_neq in Es.
    assert (Hex : existsb (fun x => po_pk x =? pk) L = false).
    { apply not_true_is_false. intros Hx. apply existsb_exists in Hx.
      destruct Hx as [x [Hx Hxk]]. apply Z.eqb_eq in Hxk.
      unfold L in Hx. apply filter_In in Hx. destruct Hx as [Hx Hs].
      apply Z.eqb_eq in Hs.
      assert (x = po).
      { apply (NoDup_map_same _ po_pk (purchase_orders db)); auto.
        congruence. }
      subst x. apply Es. symmetry. exact Hs. }
    rewrite Hex. reflexivity.
Qed.

(** ** Status of a purchase order and stock receipt *)

Lemma sumZ_nonneg :
  forall (A : Type) (f : A -> Z) (l : list A),
    (forall x, In x l -> 0 <= f x) -> 0 <= sumZ (map f l).
Proof.
  intros A f l H. induction l as [|x l IH]; simpl; [lia|].
  pose proof (H x (or_introl eq_refl)).
  assert (0 <= sumZ (map f l)) by (apply IH; intros y Hy; apply H; right; auto).
  lia.
Qed.

Lemma sumZ_le :
  forall (A : Type) (f g : A -> Z) (l : list A),
    (forall x, In x l -> f x <= g x) ->
    sumZ (map f l) <= sumZ (map g l)
    /\ (sumZ (map f l) = sumZ (map g l) -> forall x, In x l -> f x = g x).
Proof.
  intros A f g l H. induction l as [|x l IH]; simpl.
  - split; [lia|]. intros _ x [].
  - pose proof (H x (or_introl eq_refl)) as Hx.
    destruct IH as [IH1 IH2]; [intros y Hy; apply H; right; exact Hy|].
    split; [lia|]. intros Heq y [<-|Hy]; [lia|].
    apply IH2; [lia|exact Hy].
Qed.

Lemma sumZ_positive :
  forall (A : Type) (f : A -> Z) (l : list A),
    (forall x, In x l -> 0 <= f x) ->
    (0 < sumZ (map f l) <-> exists x, In x l /\ 0 < f x).
Proof.
  intros A f l H. induction l as [|x l IH]; simpl.
  - split; [lia|]. intros [x [[] _]].
  - pose proof (H x (or_introl eq_refl)) as Hx.
    assert (Hl : forall y, In y l -> 0 <= f y)
      by (intros y Hy; apply H; right; exact Hy).
    pose proof (sumZ_nonneg _ f l Hl) as Hs.
    specialize (IH Hl). split.
    + intros Hp. destruct (Z.eq_dec (f x) 0) as [E|E].
      * destruct (proj1 IH) as [y [Hy Hfy]]; [lia|].
        exists y. split; [right; exact Hy|exact Hfy].
      * exists x. split; [left; reflexivity|lia].
    + intros [y [[<-|Hy] Hfy]]; [lia|].
      assert (0 < sumZ (map f l)) by (apply IH; exists y; auto). lia.
Qed.

Lemma order_completed_iff :
  forall (db : DB) (po : PurchaseOrder),
    (forall line, In line (PurchaseOrder_items db po) ->
       0 <= poi_quantity_received line <= poi_quantity line) ->
    (PurchaseOrder_new_status db po = PO_COMPLETED
     <-> (exists line, In line (PurchaseOrder_items db po)
                       /\ 0 < poi_quantity_received line)
         /\ forall line, In line (PurchaseOrder_items db po) ->
              is_fully_received line = true).
Proof.
  intros db po H. unfold PurchaseOrder_new_status. cbn zeta.
  remember (PurchaseOrder_items db po) as items eqn:Hdef. clear Hdef.
  assert (H0 : forall x, In x items -> 0 <= poi_quantity_received x)
    by (intros x Hx; apply H; exact Hx).
  assert (H1 : forall x, In x items ->
                 poi_quantity_received x <= poi_quantity x)
    by (intros x Hx; apply H; exact Hx).
  pose proof (sumZ_nonneg _ poi_quantity_received items H0) as Hs0.
  pose proof (sumZ_positive _ poi_quantity_received items H0) as Hpos.
  destruct (sumZ_le _ poi_quantity_received poi_quantity items H1)
    as [Hle Heq].
  destruct items as [|x items'].
  { cbn. split; [discriminate|]. intros [[line [[] _]] _]. }
  change (is_empty (x :: items')) with false. cbv iota.
  remember (x :: items') as items eqn:Hitems. clear Hitems.
  destruct (_ =? 0) eqn:E0.
  { apply Z.eqb_eq in E0. split; [discriminate|].
    intros [Hex _]. apply Hpos in Hex. lia. }
  apply Z.eqb_neq in E0.
  destruct (_ <? _) eqn:E1.
  - apply Z.ltb_lt in E1. split; [discriminate|].
    intros [_ Hall]. exfalso.
    assert (Hge : sumZ (map poi_quantity items)
                  <= sumZ (map poi_quantity_received items)).
    { apply sumZ_le. intros y Hy. specialize (Hall y Hy).
      unfold is_fully_received in Hall. apply Z.leb_le in Hall. exact Hall. }
    lia.
  - apply Z.ltb_ge in E1. split; [intros _|reflexivity].
    split; [apply Hpos; lia|].
    intros line Hl. unfold is_fully_received. apply Z.leb_le.
    rewrite (Heq ltac:(lia) line Hl). lia.
Qed.

(** While no line of an order has received more than was ordered, the
    status that [update_status] derives is COMPLETED exactly when
    something has been received and every line is fully received; and an
    order of the table whose derived status is COMPLETED accepts no further
    receipt: the receipt view answers with the warning and writes
    nothing. *)
Theorem order_completed_iff_all_lines_received :
  forall (db : DB) (po : PurchaseOrder),
    In po (purchase_orders db) ->
    (forall line, In line (PurchaseOrder_items db po) ->
       0 <= poi_quantity_received line <= poi_quantity line) ->
    (PurchaseOrder_new_status db po = PO_COMPLETED
     <-> (exists line, In line (PurchaseOrder_items db po)
                       /\ 0 < poi_quantity_received line)
         /\ forall line, In line (PurchaseOrder_items db po) ->
              is_fully_received line = true)
    /\ (PurchaseOrder_new_status db po = PO_COMPLETED ->
        forall (now today : Z) (post : option (list ReceiveStockData)),
          receive_purchase_order_view now today (po_pk po) post db
          = (db, Ok RedirectWithWarning)).
Proof.
  intros db po Hin H.
  pose proof (order_completed_iff db po H) as Hiff.
  split; [exact Hiff|].
  intros Hc now today post. apply Hiff in Hc. destruct Hc as [_ Hall].
  unfold receive_purchase_order_view, transaction_atomic,
    receive_purchase_order_body.
  unfold bind at 1. unfold get_or_404.
  destruct (get_purchase_order db (po_pk po)) as [po'|] eqn:G.
  2:{ exfalso. unfold get_purchase_order in G.
      pose proof (find_none _ _ G po Hin) as Hn. cbn in Hn.
      rewrite Z.eqb_refl in Hn. discriminate. }
  destruct (get_purchase_order_pk _ _ _ G) as [Hk _].
  unfold ret at 1. unfold bind at 1. unfold gets at 1.
  assert (Hitems : PurchaseOrder_items db po' = PurchaseOrder_items db po)
    by (unfold PurchaseOrder_items; rewrite Hk; reflexivity).
  rewrite Hitems.
  rewrite (filter_nothing _ _ (PurchaseOrder_items db po)).
  - reflexivity.
  - intros x Hx. specialize (Hall x Hx). unfold is_fully_received in Hall.
    apply Z.leb_le in Hall. apply Z.ltb_ge. exact Hall.
Qed.

Lemma receive_purchase_order_view_status :
  forall (now today pk : Z) (post : option (list ReceiveStockData))
         (db db' : DB),
    receive_purchase_order_view now today pk post db
    = (db', Ok RedirectWithSuccess) ->
    exists po',
      get_purchase_order db' pk = Some po'
      /\ po_status po' = PurchaseOrder_new_status db' po'.
Proof.
  intros now today pk post db db' E.
  unfold receive_purchase_order_view, transaction_atomic in E.
  destruct (receive_purchase_order_body now today pk post db)
    as [db1 r1] eqn:Eb.
  destruct r1 as [resp|e]; [|discriminate].
  inversion E; subst db1 resp; clear E.
  unfold receive_purchase_order_body in Eb.
  unfold bind at 1 in Eb. unfold get_or_404 in Eb.
  destruct (get_purchase_order db pk) as [po|] eqn:G; [|discriminate].
  unfold ret at 1 in Eb. unfold bind at 1 in Eb. unfold gets at 1 in Eb.
  destruct (is_empty _); [discriminate|].
  destruct post as [forms|]; [|discriminate].
  unfold bind at 1 in Eb. unfold gets at 1 in Eb.
  destruct (formset_is_valid _ _ _ _ _); [|discriminate].
  unfold bind at 1 in Eb.
  destruct (for_each (receive_form now po) forms db) as [db2 r2] eqn:Ef.
  destruct r2 as [[]|]; [|discriminate].
  unfold bind at 1 in Eb.
  destruct (get_purchase_order_pk _ _ _ G) as [Hk _]. rewrite Hk in Eb.
  unfold update_status_of_order in Eb.
  destruct (get_purchase_order db2 pk) as [po2|] eqn:G2; [|discriminate].
  unfold PurchaseOrder_update_status in Eb. unfold ret in Eb.
  inversion Eb as [Hdb]; clear Eb.
  destruct (get_purchase_order_pk _ _ _ G2) as [Hk2 _].
  exists (with_po_status (PurchaseOrder_new_status db2 po2) po2).
  split.
  - unfold get_purchase_order. cbn [purchase_orders set_purchase_orders].
    rewrite (find_map_same_key _ (fun p => po_pk p =? pk)).
    + fold (get_purchase_order db2 pk). rewrite G2. cbn.
      rewrite Hk2, Z.eqb_refl. reflexivity.
    + intros x. destruct (po_pk x =? po_pk po2); reflexivity.
  - cbn [po_status with_po_status].
    unfold PurchaseOrder_new_status, PurchaseOrder_items. reflexivity.
Qed.

(** After a receipt that succeeds, the stored status of the order is the
    one its lines give in the resulting store; whatever the status was
    before, it is not CANCELLED afterwards. *)
Theorem receipt_sets_status_from_lines :
  forall (now today pk : Z) (post : option (list ReceiveStockData))
         (db db' : DB),
    receive_purchase_order_view now today pk post db
    = (db', Ok RedirectWithSuccess) ->
    exists po',
      get_purchase_order db' pk = Some po'
      /\ po_status po' = PurchaseOrder_new_status db' po'
      /\ po_status po' <> PO_CANCELLED.
Proof.
  intros now today pk post db db' E.
  destruct (receive_purchase_order_view_status _ _ _ _ _ _ E)
    as [po' [G Hs]].
  exists po'. split; [exact G|]. split; [exact Hs|].
  rewrite Hs. apply PurchaseOrder_new_status_not_cancelled.
Qed.

(** Cancelling succeeds only for an order that is PENDING and writes
    CANCELLED into its row and nothing else; the receipt view does not
    look at the status, so a receipt that succeeds afterwards leaves the
    order not CANCELLED. *)
Theorem cancelled_order_revived_by_receipt :
  forall (now today pk : Z) (post : option (list ReceiveStockData))
         (db db1 db2 : DB),
    cancel_purchase_order_view pk true db = (db1, Ok RedirectWithSuccess) ->
    receive_purchase_order_view now today pk post db1
    = (db2, Ok RedirectWithSuccess) ->
    (exists po,
       get_purchase_order db pk = Some po
       /\ po_status po = PO_PENDING
       /\ get_purchase_order db1 pk = Some (with_po_status PO_CANCELLED po)
       /\ db1 = set_purchase_orders (purchase_orders db1) db)
    /\ (exists po2,
          get_purchase_order db2 pk = Some po2
          /\ po_status po2 <> PO_CANCELLED).
Proof.
  intros now today pk post db db1 db2 Ec Er. split.
  - unfold cancel_purchase_order_view in Ec.
    unfold bind at 1 in Ec. unfold get_or_404 in Ec.
    destruct (get_purchase_order db pk) as [po|] eqn:G; [|discriminate].
    unfold ret at 1 in Ec.
    destruct (is_po_pending (po_status po)) eqn:Hp; [|discriminate].
    cbn [negb] in Ec. unfold bind, PurchaseOrder_save, modify, ret in Ec.
    inversion Ec as [Hdb]; clear Ec.
    destruct (get_purchase_order_pk _ _ _ G) as [Hk _].
    exists po. split; [reflexivity|].
    split; [destruct (po_status po); try discriminate; reflexivity|].
    split; [|reflexivity].
    unfold get_purchase_order. cbn [purchase_orders set_purchase_orders].
    cbn [po_pk with_po_status].
    pose proof (find_upsert PurchaseOrder (fun p => po_pk p =? pk)
                  (with_po_status PO_CANCELLED po) (purchase_orders db)) as Hu.
    assert (Hex : existsb (fun p => po_pk p =? pk) (purchase_orders db)
                  = true).
    { apply existsb_exists. exists po. unfold get_purchase_order in G.
      apply find_some in G. exact G. }
    rewrite Hex in Hu. rewrite Hk. apply Hu. cbn. rewrite Hk.
    apply Z.eqb_refl.
  - destruct (receive_purchase_order_view_status _ _ _ _ _ _ Er)
      as [po' [G Hs]].
    exists po'. split; [exact G|].
    rewrite Hs. apply PurchaseOrder_new_status_not_cancelled.
Qed.

Lemma receive_form_keys :
  forall now po d db db',
    receive_form now po d db = (db', Ok tt) ->
    map poi_pk (purchase_order_items db')
    = map poi_pk (purchase_order_items db).
Proof.
  intros now po d db db' E. unfold receive_form in E.
  destruct (requested_quantity d) as [qty|].
  2:{ unfold ret in E. inversion E. reflexivity. }
  unfold bind at 1 in E. unfold get_or_404 in E.
  destruct (get_purchase_order_item db (rs_purchase_order_item_id d))
    as [line|] eqn:G; [|discriminate].
  unfold ret at 1 in E. unfold bind at 1 in E.
  destruct (StockItem_objects_create (received_batch now po line qty d) db)
    as [db1 r1] eqn:E1.
  destruct (StockItem_objects_create_cases _ _ _ _ E1)
    as [[_ [-> ->]]|[_ [-> ->]]]; [|discriminate].
  unfold PurchaseOrderItem_save_quantity_received in E.
  unfold bind at 1 in E. unfold modify in E.
  match type of E with
  | context [update_status_of_order ?x ?y] =>
      destruct (update_status_of_order x y) as [db2 r2] eqn:E2
  end.
  destruct r2 as [[]|]; [|discriminate]. inversion E; subst db'.
  apply update_status_of_order_frame in E2. rewrite E2. cbn.
  rewrite map_map. apply map_ext. intros i.
  destruct (poi_pk i =? poi_pk line); reflexivity.
Qed.

Lemma for_each_receive_form_keys :
  forall now po forms db db',
    for_each (receive_form now po) forms db = (db', Ok tt) ->
    map poi_pk (purchase_order_items db')
    = map poi_pk (purchase_order_items db).
Proof.
  intros now po forms. induction forms as [|d rest IH]; intros db db' E.
  - simpl in E. unfold ret in E. inversion E. reflexivity.
  - simpl in E. unfold bind in E.
    destruct (receive_form now po d db) as [db1 r1] eqn:E1.
    destruct r1 as [[]|]; [|discriminate].
    rewrite (IH _ _ E). apply (receive_form_keys _ _ _ _ _ E1).
Qed.

Lemma receive_purchase_order_view_success :
  forall (now today pk : Z) (forms : list ReceiveStockData) (db db' : DB),
    receive_purchase_order_view now today pk (Some forms) db
    = (db', Ok RedirectWithSuccess) ->
    formset_is_valid db now today (items_to_receive db pk) forms = true
    /\ counters_advanced db db' forms
    /\ map poi_pk (purchase_order_items db')
       = map poi_pk (purchase_order_items db).
Proof.
  intros now today pk forms db db' E.
  unfold receive_purchase_order_view, transaction_atomic in E.
  destruct (receive_purchase_order_body now today pk (Some forms) db)
    as [db1 r1] eqn:Eb.
  destruct r1 as [resp|e]; [|discriminate].
  inversion E; subst db1 resp; clear E.
  unfold receive_purchase_order_body in Eb.
  unfold bind at 1 in Eb. unfold get_or_404 in Eb.
  unfold items_to_receive.
  destruct (get_purchase_order db pk) as [po|] eqn:G; [|discriminate].
  unfold ret at 1 in Eb. unfold bind at 1 in Eb. unfold gets at 1 in Eb.
  destruct (is_empty _); [discriminate|].
  unfold bind at 1 in Eb. unfold gets at 1 in Eb.
  destruct (formset_is_valid _ _ _ _ _) eqn:V; [|discriminate].
  unfold bind at 1 in Eb.
  destruct (for_each (receive_form now po) forms db) as [db2 r2] eqn:Ef.
  destruct r2 as [[]|]; [|discriminate].
  unfold bind at 1 in Eb.
  destruct (update_status_of_order (po_pk po) db2) as [db3 r3] eqn:Eu.
  destruct r3 as [[]|]; [|discriminate].
  unfold ret in Eb. inversion Eb; subst db3; clear Eb.
  apply update_status_of_order_frame in Eu.
  destruct (for_each_receive_form_ok _ _ _ _ _ Ef) as [created [_ [_ Hc]]].
  split; [reflexivity|]. split.
  - intros k. specialize (Hc k). rewrite Eu.
    unfold get_purchase_order_item in *. cbn. exact Hc.
  - rewrite Eu. cbn. apply (for_each_receive_form_keys _ _ _ _ _ Ef).
Qed.

(** A form that is valid for the line it is paired with asks for no more
    than the line has left to receive. *)
Lemma ReceiveStockForm_is_valid_quantity :
  forall db now today line d qty,
    ReceiveStockForm_is_valid db now today (Some line) d = true ->
    requested_quantity d = Some qty ->
    0 < qty <= quantity_remaining line.
Proof.
  intros db now today line d qty V Hq.
  unfold requested_quantity in Hq.
  destruct (rs_quantity_to_receive d) as [q|] eqn:Hr; [|discriminate].
  destruct ((q =? 0) || (q <=? 0)) eqn:Hz; [discriminate|].
  inversion Hq; subst q; clear Hq.
  apply orb_false_iff in Hz. destruct Hz as [_ Hz].
  apply Z.leb_gt in Hz. split; [exact Hz|].
  unfold ReceiveStockForm_is_valid in V.
  apply andb_prop in V. destruct V as [_ V].
  unfold ReceiveStockForm_clean in V. rewrite Hr in V.
  replace (qty <=? 0) with false in V by (symmetry; apply Z.leb_gt; lia).
  cbv zeta in V.
  apply andb_prop in V. destruct V as [_ V].
  apply negb_true_iff in V. apply Z.ltb_ge in V. exact V.
Qed.

Lemma formset_is_valid_from_nth :
  forall db now today lines forms n i d,
    formset_is_valid_from db now today lines n forms = true ->
    nth_error forms i = Some d ->
    ReceiveStockForm_is_valid db now today
      (nth_error lines (n + i)%nat) d = true.
Proof.
  intros db now today lines forms.
  induction forms as [|d0 rest IH]; intros n i d V Hi.
  - destruct i; discriminate.
  - simpl in V. apply andb_prop in V. destruct V as [V0 V].
    destruct i as [|i].
    + simpl in Hi. inversion Hi; subst. rewrite Nat.add_0_r. exact V0.
    + simpl in Hi. rewrite Nat.add_succ_r.
      apply (IH (S n) i d V Hi).
Qed.

(** What the forms of a receipt ask for one order line, when every form
    is for the line it is paired with and is valid for it. *)
Lemma requested_total_within :
  forall (forms : list ReceiveStockData) (lines : list PurchaseOrderItem),
    NoDup (map poi_pk lines) ->
    forms_match_lines forms lines = true ->
    (forall i d line qty,
       nth_error forms i = Some d -> nth_error lines i = Some line ->
       requested_quantity d = Some qty ->
       0 < qty <= quantity_remaining line) ->
    forall k,
      0 <= requested_total k forms
      /\ ((forall line, In line lines -> poi_pk line <> k) ->
          requested_total k forms = 0)
      /\ (forall line, In line lines -> poi_pk line = k ->
            0 < quantity_remaining line ->
            requested_total k forms <= quantity_remaining line).
Proof.
  induction forms as [|d rest IH]; intros lines Hnd Hm Hv k.
  - unfold requested_total. simpl. split; [lia|]. split; [reflexivity|].
    intros line _ _ Hr. lia.
  - destruct lines as [|l lines']; [discriminate|].
    simpl in Hm. apply andb_prop in Hm. destruct Hm as [Hid Hm].
    apply Z.eqb_eq in Hid.
    inversion Hnd as [|? ? Hl Hnd']; subst.
    assert (Hv' : forall i d0 line qty,
               nth_error rest i = Some d0 ->
               nth_error lines' i = Some line ->
               requested_quantity d0 = Some qty ->
               0 < qty <= quantity_remaining line).
    { intros i d0 line qty H1 H2 H3. apply (Hv (S i) d0 line qty); auto. }
    destruct (IH lines' Hnd' Hm Hv' k) as [I1 [I2 I3]].
    assert (Hhead : requested_total k (d :: rest)
                    = match requested_quantity d with
                      | Some qty =>
                          if rs_purchase_order_item_id d =? k then qty else 0
                      | None => 0
                      end + requested_total k rest)
      by reflexivity.
    rewrite Hhead.
    assert (Hd : forall qty, requested_quantity d = Some qty ->
                   0 < qty <= quantity_remaining l)
      by (intros qty Hq; apply (Hv 0%nat d l qty); auto).
    split; [|split].
    + destruct (requested_quantity d) as [qty|]; [|lia].
      specialize (Hd qty eq_refl).
      destruct (_ =? k); lia.
    + intros Hno. rewrite I2 by (intros x Hx; apply Hno; right; exact Hx).
      destruct (requested_quantity d) as [qty|]; [|lia].
      rewrite Hid.
      replace (poi_pk l =? k) with false; [lia|].
      symmetry. apply Z.eqb_neq. apply Hno. left. reflexivity.
    + intros line [<-|Hin] Hk Hrem.
      * rewrite I2.
        -- rewrite Hid, Hk, Z.eqb_refl.
           destruct (requested_quantity d) as [qty|]; [|lia].
           specialize (Hd qty eq_refl). lia.
        -- intros x Hx Hxk. apply Hl. rewrite Hk, <- Hxk.
           apply in_map. exact Hx.
      * assert (Hne : poi_pk l <> k).
        { intros Hlk. apply Hl. rewrite Hlk, <- Hk. apply in_map. exact Hin. }
        rewrite Hid.
        replace (poi_pk l =? k) with false
          by (symmetry; apply Z.eqb_neq; exact Hne).
        specialize (I3 line Hin Hk Hrem).
        destruct (requested_quantity d); lia.
Qed.

Lemma get_purchase_order_item_in :
  forall db line,
    NoDup (map poi_pk (purchase_order_items db)) ->
    In line (purchase_order_items db) ->
    get_purchase_order_item db (poi_pk line) = Some line.
Proof.
  intros db line Hnd Hin. unfold get_purchase_order_item.
  destruct (find_in_some _ (fun i => poi_pk i =? poi_pk line)
              (purchase_order_items db) line Hin (Z.eqb_refl _))
    as [y Hy].
  rewrite Hy. f_equal. apply find_some in Hy. destruct Hy as [Hyin Hyk].
  apply Z.eqb_eq in Hyk.
  apply (NoDup_map_same _ poi_pk (purchase_order_items db)); auto.
Qed.

(** A receipt whose forms are each for the order line they are paired
    with never receives more than was ordered: when no line of the store
    had received more than its quantity, none has afterwards. *)
Theorem receipt_within_order :
  forall (now today pk : Z) (forms : list ReceiveStockData) (db db' : DB),
    NoDup (map poi_pk (purchase_order_items db)) ->
    lines_within_order db ->
    forms_match_lines forms (items_to_receive db pk) = true ->
    receive_purchase_order_view now today pk (Some forms) db
    = (db', Ok RedirectWithSuccess) ->
    lines_within_order db'.
Proof.
  intros now today pk forms db db' Hnd Hw Hm E.
  destruct (receive_purchase_order_view_success _ _ _ _ _ _ E)
    as [V [Hc Hkeys]].
  set (lines := items_to_receive db pk) in *.
  assert (Hlines : forall l, In l lines ->
            In l (purchase_order_items db)
            /\ poi_quantity_received l < poi_quantity l).
  { intros l Hl. unfold lines, items_to_receive in Hl.
    destruct (get_purchase_order db pk) as [po|]; [|contradiction].
    apply filter_In in Hl. destruct Hl as [Hl Hopen].
    unfold PurchaseOrder_items in Hl. apply filter_In in Hl.
    apply Z.ltb_lt in Hopen. tauto. }
  assert (Hndl : NoDup (map poi_pk lines)).
  { unfold lines, items_to_receive.
    destruct (get_purchase_order db pk) as [po|]; [|constructor].
    apply NoDup_map_filter. unfold PurchaseOrder_items.
    apply NoDup_map_filter. exact Hnd. }
  assert (Hv : forall i d line qty,
             nth_error forms i = Some d -> nth_error lines i = Some line ->
             requested_quantity d = Some qty ->
             0 < qty <= quantity_remaining line).
  { intros i d line qty H1 H2 H3.
    pose proof (formset_is_valid_from_nth _ _ _ _ _ 0%nat i d V H1) as Hd.
    cbn [Nat.add] in Hd. rewrite H2 in Hd.
    apply (ReceiveStockForm_is_valid_quantity _ _ _ _ _ _ Hd H3). }
  intros line' Hin'.
  assert (Hnd' : NoDup (map poi_pk (purchase_order_items db')))
    by (rewrite Hkeys; exact Hnd).
  pose proof (get_purchase_order_item_in db' line' Hnd' Hin') as G'.
  pose proof (Hc (poi_pk line')) as Hck. rewrite G' in Hck.
  destruct (get_purchase_order_item db (poi_pk line')) as [line|] eqn:G;
    [|contradiction].
  destruct Hck as [Hrec [Hpk [_ [_ Hq]]]].
  assert (Hin : In line (purchase_order_items db)).
  { unfold get_purchase_order_item in G. apply find_some in G. apply G. }
  pose proof (Hw line Hin) as Hb.
  destruct (requested_total_within forms lines Hndl Hm Hv (poi_pk line'))
    as [R1 [R2 R3]].
  rewrite Hrec, Hq.
  destruct (in_dec
              (fun a b : PurchaseOrderItem =>
                 ltac:(decide equality; try apply Z.eq_dec))
              line lines) as [Hl|Hl].
  - destruct (Hlines line Hl) as [_ Hopen].
    specialize (R3 line Hl (eq_sym Hpk)).
    unfold quantity_remaining in R3. lia.
  - rewrite R2; [lia|].
    intros x Hx Hxk. apply Hl.
    assert (x = line).
    { apply (NoDup_map_same _ poi_pk (purchase_order_items db)); auto.
      - apply Hlines. exact Hx.
      - congruence. }
    subst x. exact Hx.
Qed.

Lemma round_half_even_le :
  forall num den m : Z,
    0 < den -> num <= m * den -> round_half_even num den <= m.
Proof.
  intros num den m Hden Hle. unfold round_half_even.
  pose proof (Z.div_mod num den ltac:(lia)) as Hdm.
  pose proof (Z.mod_pos_bound num den Hden) as Hr.
  assert (Hf : num / den <= m)
    by (apply Z.div_le_upper_bound; [exact Hden|lia]).
  destruct (Z.eq_dec (num / den) m) as [Hm|Hm].
  - assert (H0 : num mod den = 0) by nia.
    rewrite H0.
    replace (2 * 0 <? den) with true by (symmetry; apply Z.ltb_lt; lia).
    lia.
  - destruct (2 * (num mod den) <? den); [lia|].
    destruct (den <? 2 * (num mod den)); [lia|].
    destruct (Z.even (num / den)); lia.
Qed.

(** When a receipt form that [clean] accepts gives an MRP and gives its
    discount as a percentage (or gives none), the batch that the view
    creates for it has a cost price that is not above its MRP: the view
    computes the cost that the form has checked. *)
Theorem received_cost_within_mrp :
  forall (db : DB) (now : Z) (po : PurchaseOrder)
         (purchase_order_item : option PurchaseOrderItem)
         (po_item : PurchaseOrderItem) (d : ReceiveStockData) (qty m : Z),
    ReceiveStockForm_clean db purchase_order_item d = true ->
    requested_quantity d = Some qty ->
    rs_mrp d = Some m ->
    m <> 0 ->
    rs_discount_percentage d <> None \/ rs_discount_amount d = None ->
    si_cost_price (received_batch now po po_item qty d)
    <= si_mrp (received_batch now po po_item qty d).
Proof.
  intros db now po poi po_item d qty m V Hq Hm Hm0 Hdisc.
  unfold requested_quantity in Hq.
  destruct (rs_quantity_to_receive d) as [q|] eqn:Hr; [|discriminate].
  destruct ((q =? 0) || (q <=? 0)) eqn:Hz; [discriminate|].
  inversion Hq; subst q; clear Hq.
  apply orb_false_iff in Hz. destruct Hz as [_ Hz].
  unfold ReceiveStockForm_clean in V. rewrite Hr, Hz in V. cbv zeta in V.
  rewrite Hm in V.
  apply andb_prop in V. destruct V as [V _].
  apply andb_prop in V. destruct V as [V Hfinal].
  apply andb_prop in V. destruct V as [V _].
  apply andb_prop in V. destruct V as [V _].
  apply andb_prop in V. destruct V as [V _].
  apply andb_prop in V. destruct V as [V _].
  apply andb_prop in V. destruct V as [_ Hbase].
  rewrite Hbase in Hfinal.
  assert (Ht : truthy (Some m) = true)
    by (cbn; apply negb_true_iff; apply Z.eqb_neq; exact Hm0).
  rewrite Ht in Hfinal. cbn [andb or_zero] in Hfinal.
  cbn [si_cost_price si_mrp received_batch]. rewrite Hm. cbn [or_zero].
  unfold final_cost_per_item, final_discount_percentage.
  unfold form_final_cost in Hfinal.
  apply round_half_even_le; [reflexivity|].
  destruct (rs_discount_percentage d) as [p|].
  - apply negb_true_iff in Hfinal. apply Z.ltb_ge in Hfinal. lia.
  - destruct Hdisc as [Hd|Hd]; [contradiction Hd; reflexivity|].
    rewrite Hd in Hfinal |- *.
    apply negb_true_iff in Hfinal. apply Z.ltb_ge in Hfinal. lia.
Qed.

(** ** Stock figures *)

Lemma sumZ_flat_map :
  forall (A B : Type) (f : B -> Z) (g : A -> list B) (l : list A),
    sumZ (map f (flat_map g l))
    = sumZ (map (fun x => sumZ (map f (g x))) l).
Proof.
  intros A B f g l. induction l as [|x l IH]; simpl; [reflexivity|].
  rewrite map_app, sumZ_app, IH. reflexivity.
Qed.

Lemma sumZ_map_const :
  forall (A : Type) (c : Z) (l : list A),
    sumZ (map (fun _ => c) l) = c * Z.of_nat (List.length l).
Proof.
  intros A c l. induction l as [|x l IH]; [simpl; lia|].
  cbn [map sumZ fold_right List.length]. fold (sumZ (map (fun _ => c) l)).
  rewrite IH. lia.
Qed.

Lemma sumZ_left_join :
  forall (A : Type) (f : A -> Z) (l : list A),
    sumZ (map (fun o => match o with Some x => f x | None => 0 end)
              (left_join l))
    = sumZ (map f l).
Proof.
  intros A f l. destruct l as [|x l]; [reflexivity|].
  unfold left_join. rewrite map_map. reflexivity.
Qed.

Lemma sumZ_left_join_scaled :
  forall (A : Type) (f : A -> Z) (c : Z) (l : list A),
    sumZ (map (fun o => match o with Some x => f x * c | None => 0 end)
              (left_join l))
    = sumZ (map f l) * c.
Proof.
  intros A f c l. rewrite (sumZ_left_join A (fun x => f x * c) l).
  induction l as [|x l IH]; simpl; [reflexivity|].
  fold (sumZ (map (fun x0 => f x0 * c) l)). fold (sumZ (map f l)).
  rewrite IH. lia.
Qed.

Lemma join_width_positive :
  forall (A : Type) (l : list A), 1 <= join_width l.
Proof.
  intros A l. unfold join_width. destruct l as [|x l]; cbn [left_join].
  - simpl. lia.
  - rewrite length_map. cbn [List.length]. lia.
Qed.

Lemma join_width_one :
  forall (A : Type) (l : list A),
    (List.length l <= 1)%nat -> join_width l = 1.
Proof.
  intros A l H. unfold join_width.
  destruct l as [|x [|y l]]; cbn in *; try reflexivity. lia.
Qed.

(** The three sums of the query for one batch: every transaction is
    counted once for each return of the batch and every return once for
    each transaction, the batch itself once for each pair. *)
Lemma joined_rows_sums :
  forall (db : DB) (s : StockItem),
    let wt := join_width (StockItem_transactions db s) in
    let wr := join_width (StockItem_purchasereturn_set db s) in
    sold_qty db s = quantity_sold db s * wr
    /\ returned_qty db s = quantity_returned db s * wt
    /\ Z.of_nat (List.length (stock_rows db s)) = wt * wr.
Proof.
  intros db s wt wr. unfold sold_qty, returned_qty, stock_rows.
  set (T := StockItem_transactions db s) in *.
  set (R := StockItem_purchasereturn_set db s) in *.
  split; [|split].
  - rewrite sumZ_flat_map.
    rewrite (map_ext
               (fun t => sumZ (map (fun row : option StockItemTransaction
                                               * option PurchaseReturn =>
                                      match fst row with
                                      | Some t0 => tx_quantity t0
                                      | None => 0
                                      end)
                                   (map (fun r => (t, r)) (left_join R))))
               (fun t => match t with
                         | Some t0 => tx_quantity t0 * wr
                         | None => 0
                         end)).
    + apply (sumZ_left_join_scaled _ tx_quantity wr T).
    + intros t. rewrite map_map. cbn [fst].
      rewrite sumZ_map_const. destruct t; reflexivity.
  - rewrite sumZ_flat_map.
    rewrite (map_ext
               (fun t => sumZ (map (fun row : option StockItemTransaction
                                               * option PurchaseReturn =>
                                      match snd row with
                                      | Some r0 => pr_quantity r0
                                      | None => 0
                                      end)
                                   (map (fun r => (t, r)) (left_join R))))
               (fun _ => quantity_returned db s)).
    + rewrite sumZ_map_const. reflexivity.
    + intros t. rewrite map_map. cbn [snd].
      apply (sumZ_left_join _ pr_quantity R).
  - rewrite (flat_map_constant_length (c := List.length (left_join R))).
    + unfold wt, wr, join_width. lia.
    + intros t _. apply length_map.
Qed.

Lemma stock_available_by_batch :
  forall (db : DB) (variant : Z),
    stock_available db variant
    = sumZ (map (fun s =>
                   si_quantity s
                   * join_width (StockItem_transactions db s)
                   * join_width (StockItem_purchasereturn_set db s)
                   - quantity_sold db s
                     * join_width (StockItem_purchasereturn_set db s)
                   - quantity_returned db s
                     * join_width (StockItem_transactions db s))
                (ProductVariant_stock_items db variant)).
Proof.
  intros db variant. unfold stock_available, variant_stock_rows.
  fold (ProductVariant_stock_items db variant).
  cbv zeta. rewrite !sumZ_flat_map.
  rewrite !sumZ_map_sub. apply f_equal. apply map_ext. intros s.
  destruct (joined_rows_sums db s) as [Hs [Hr Hn]].
  unfold sold_qty, returned_qty, stock_rows in Hs, Hr, Hn.
  rewrite !sumZ_flat_map. rewrite sumZ_flat_map in Hs, Hr.
  assert (H1 : sumZ (map (fun x => sumZ (map (fun row : StockItem
                              * option StockItemTransaction
                              * option PurchaseReturn =>
                              si_quantity (fst (fst row)))
                            (map (fun r => (s, x, r))
                               (left_join (StockItem_purchasereturn_set db s)))))
                         (left_join (StockItem_transactions db s)))
               = si_quantity s
                 * join_width (StockItem_transactions db s)
                 * join_width (StockItem_purchasereturn_set db s)).
  { rewrite (map_ext _ (fun _ => si_quantity s
                          * join_width (StockItem_purchasereturn_set db s))).
    - rewrite sumZ_map_const. unfold join_width. lia.
    - intros t. rewrite map_map. cbn [fst]. rewrite sumZ_map_const.
      reflexivity. }
  rewrite H1, <- Hs, <- Hr.
  f_equal; [f_equal|].
  - f_equal. apply map_ext. intros t. rewrite !map_map. reflexivity.
  - f_equal. apply map_ext. intros t. rewrite !map_map. reflexivity.
Qed.

(** The stock figure behind the product field of an invoice line agrees
    with [stock_quantity] for a variant none of whose batches has more
    than one transaction or more than one return. *)
Theorem stock_available_agrees_with_stock_quantity :
  forall (db : DB) (variant : Z),
    (forall s, In s (ProductVariant_stock_items db variant) ->
       (List.length (StockItem_transactions db s) <= 1)%nat
       /\ (List.length (StockItem_purchasereturn_set db s) <= 1)%nat) ->
    stock_available db variant = stock_quantity db variant.
Proof.
  intros db variant H. rewrite stock_available_by_batch.
  unfold stock_quantity. f_equal. apply map_ext_in. intros s Hs.
  destruct (H s Hs) as [Ht Hr].
  rewrite (join_width_one _ _ Ht), (join_width_one _ _ Hr).
  unfold quantity_available. lia.
Qed.

(** That figure is never below [stock_quantity] while no batch of the
    variant is oversold and the sold and returned quantities are not
    negative: a variant that has stock is not kept out of the product
    field by the way the query joins transactions and returns. *)
Theorem stock_available_not_below_stock_quantity :
  forall (db : DB) (variant : Z),
    (forall s, In s (ProductVariant_stock_items db variant) ->
       0 <= quantity_sold db s /\ 0 <= quantity_returned db s
       /\ 0 <= quantity_available db s) ->
    stock_quantity db variant <= stock_available db variant.
Proof.
  intros db variant H. rewrite stock_available_by_batch.
  unfold stock_quantity. apply sumZ_le. intros s Hs.
  destruct (H s Hs) as [H1 [H2 H3]].
  pose proof (join_width_positive _ (StockItem_transactions db s)) as Wt.
  pose proof (join_width_positive _ (StockItem_purchasereturn_set db s)) as Wr.
  unfold quantity_available in *.
  set (wt := join_width (StockItem_transactions db s)) in *.
  set (wr := join_width (StockItem_purchasereturn_set db s)) in *.
  set (q := si_quantity s) in *.
  set (sold := quantity_sold db s) in *.
  set (ret := quantity_returned db s) in *.
  clearbody wt wr q sold ret.
  assert (E : q * wt * wr - sold * wr - ret * wt - (q - sold - ret)
              = (q - sold - ret) * (wt * wr - 1)
                + sold * (wr * (wt - 1)) + ret * (wt * (wr - 1))) by ring.
  assert (P : 1 <= wt * wr) by nia.
  assert (0 <= (q - sold - ret) * (wt * wr - 1))
    by (apply Z.mul_nonneg_nonneg; lia).
  assert (0 <= sold * (wr * (wt - 1)))
    by (apply Z.mul_nonneg_nonneg; [lia|apply Z.mul_nonneg_nonneg; lia]).
  assert (0 <= ret * (wt * (wr - 1)))
    by (apply Z.mul_nonneg_nonneg; [lia|apply Z.mul_nonneg_nonneg; lia]).
  lia.
Qed.

(** Every batch that [get_invoice_context_data] offers to the invoice
    form has a positive available quantity, the sold and returned
    quantities of the batches not being negative; and a batch of an active
    variant with at most one transaction and at most one return is offered
    exactly when its available quantity is positive. *)
Theorem offered_batches_have_stock :
  forall (db : DB),
    (forall s, In s (stock_items db) ->
       0 <= quantity_sold db s /\ 0 <= quantity_returned db s) ->
    (forall variant_id pk mrp available,
       In (pk, mrp, available) (batches_data db variant_id) ->
       0 < available)
    /\ (forall s,
          In s (stock_items db) ->
          (List.length (StockItem_transactions db s) <= 1)%nat ->
          (List.length (StockItem_purchasereturn_set db s) <= 1)%nat ->
          existsb (fun v => pv_is_active v
                            && (pv_pk v =? si_product_variant s))
                  (product_variants db) = true ->
          (In s (available_stock db) <-> 0 < quantity_available db s)).
Proof.
  intros db H. split.
  - intros v pk mrp available Hin. unfold batches_data in Hin.
    apply in_map_iff in Hin. destruct Hin as [s [Heq Hs]].
    inversion Heq; subst; clear Heq.
    apply filter_In in Hs. destruct Hs as [Hs _].
    unfold available_stock in Hs. apply filter_In in Hs.
    destruct Hs as [Hs Hc]. apply andb_prop in Hc. destruct Hc as [Hc _].
    apply Z.ltb_lt in Hc.
    destruct (joined_rows_sums db s) as [E1 [E2 _]]. cbv zeta in E1, E2.
    destruct (H s Hs) as [H1 H2].
    pose proof (join_width_positive _ (StockItem_transactions db s)) as Wt.
    pose proof (join_width_positive _ (StockItem_purchasereturn_set db s))
      as Wr.
    unfold quantity_available. rewrite E1, E2 in Hc. nia.
  - intros s Hs Ht Hr Hv. unfold available_stock. rewrite filter_In.
    destruct (joined_rows_sums db s) as [E1 [E2 _]]. cbv zeta in E1, E2.
    rewrite (join_width_one _ _ Ht) in E2.
    rewrite (join_width_one _ _ Hr) in E1.
    rewrite Hv, andb_true_r, Z.ltb_lt, E1, E2.
    unfold quantity_available. split; [intros [_ Hc]; lia|].
    intros Hc. split; [exact Hs|lia].
Qed.

(** ** Supplier credit *)






(** ** Replacements against a return *)

Lemma amount_refunded_nonneg :
  forall db r,
    (forall rf, In rf (supplier_refunds db) -> 0 <= sr_amount rf) ->
    0 <= amount_refunded db r.
Proof.
  intros db r H. unfold amount_refunded. apply sumZ_nonneg.
  intros x Hx. apply H. unfold PurchaseReturn_supplierrefund_set in Hx.
  apply filter_In in Hx. apply Hx.
Qed.

Lemma quantity_replaced_same :
  forall db db' r r',
    pr_pk r' = pr_pk r ->
    replacement_items db' = replacement_items db ->
    quantity_replaced db' r' = quantity_replaced db r.
Proof.
  intros db db' r r' Hk Hrep.
  unfold quantity_replaced, PurchaseReturn_replacementitem_set.
  rewrite Hk, Hrep. reflexivity.
Qed.

Lemma op_effect_replaced :
  forall db db',
    op_effect db db' -> returns_consistent db ->
    replaced_within_returned db -> replaced_within_returned db'.
Proof.
  intros db db' E K [R1 [R2 R3]]. destruct K as [K1 [K2 [K5 [K6 [K7 K3]]]]].
  destruct E as [Hk Hrep Hrf Hst _ _
                |stock po q Gs Hq Hret Hrep Hrf Hst _ _
                |r k po a Hin H1 Ha Hk Hrep Hrf Hst _ _
                |r k q orig batch rep Hin Go H1 Hq Hcp Hrk Hrr Hrq Hk Hrep
                   Hrf Hst _ _
                |c credit k po a _ _ _ _ Hret Hrep Hrf Hst _ _].
  - (* nothing recorded *)
    unfold replaced_within_returned. rewrite Hrep, Hrf.
    split; [exact R1|]. split; [exact R2|].
    intros r' Hr'. destruct (in_keys _ _ _ Hk Hr') as [r [Hr Hkr]].
    destruct (return_key_eq _ _ Hkr) as [A1 [_ [_ A4]]].
    rewrite (quantity_replaced_same db db' r r' (eq_sym A1) Hrep), <- A4.
    apply R3, Hr.
  - (* a return created *)
    unfold replaced_within_returned. rewrite Hrep, Hrf, Hret.
    split; [exact R1|]. split; [exact R2|].
    intros r Hr. apply in_app_or in Hr. destruct Hr as [Hr|[<-|[]]].
    + rewrite (quantity_replaced_same db db' r r eq_refl Hrep).
      apply R3, Hr.
    + unfold quantity_replaced, PurchaseReturn_replacementitem_set.
      rewrite Hrep. cbn [pr_pk pr_quantity].
      rewrite filter_nothing; [simpl; exact Hq|].
      intros x Hx. apply Z.eqb_neq. intros Heq.
      apply (next_pk_fresh (map pr_pk (purchase_returns db))).
      rewrite <- Heq. apply K6, Hx.
  - (* a refund recorded *)
    unfold replaced_within_returned. rewrite Hrep, Hrf.
    split.
    { intros rf Hx. apply in_app_or in Hx.
      destruct Hx as [Hx|[<-|[]]]; [apply R1, Hx|cbn; lia]. }
    split; [exact R2|].
    intros r' Hr'. destruct (in_keys _ _ _ Hk Hr') as [r0 [Hr0 Hkr]].
    destruct (return_key_eq _ _ Hkr) as [A1 [_ [_ A4]]].
    rewrite (quantity_replaced_same db db' r0 r' (eq_sym A1) Hrep), <- A4.
    apply R3, Hr0.
  - (* a replacement received *)
    unfold replaced_within_returned. rewrite Hrep, Hrf.
    split; [exact R1|]. split.
    { intros x Hx. apply in_app_or in Hx.
      destruct Hx as [Hx|[<-|[]]]; [apply R2, Hx|lia]. }
    intros r' Hr'. destruct (in_keys _ _ _ Hk Hr') as [r0 [Hr0 Hkr]].
    destruct (return_key_eq _ _ Hkr) as [A1 [_ [_ A4]]].
    pose proof (R3 r0 Hr0) as H3.
    unfold quantity_replaced, PurchaseReturn_replacementitem_set in *.
    rewrite Hrep, <- A1, <- A4.
    rewrite filter_app, map_app, sumZ_app. cbn [filter]. rewrite Hrr.
    destruct (pr_pk r =? pr_pk r0) eqn:Ep; [|cbn [map sumZ fold_right]; lia].
    apply Z.eqb_eq in Ep.
    assert (r = r0) by (apply (NoDup_map_same _ pr_pk _ _ _ K1); auto).
    subst r0. cbn [map sumZ fold_right]. rewrite Hrq.
    pose proof (amount_refunded_nonneg db r R1) as Hrf0.
    unfold quantity_pending_action in Hq. rewrite Go in Hq.
    destruct (si_cost_price orig <=? 0) eqn:Ec.
    + unfold quantity_replaced, PurchaseReturn_replacementitem_set in Hq.
      lia.
    + apply Z.leb_gt in Ec.
      assert (Hv : value_pending_action db r
                   <= Z.max ((pr_quantity r
                              - sumZ (map ri_quantity
                                        (filter (fun rep0 =>
                                                   ri_purchase_return rep0
                                                   =? pr_pk r)
                                                (replacement_items db))))
                             * si_cost_price orig) 0).
      { unfold value_pending_action, total_value, value_of_items_replaced,
          quantity_replaced, PurchaseReturn_replacementitem_set.
        rewrite Go. lia. }
      pose proof (Z.le_max_r (total_value db r
                              - value_of_items_replaced db r
                              - amount_refunded db r) 0) as Hv0.
      fold (value_pending_action db r) in Hv0.
      rewrite Z.quot_div_nonneg in Hq by lia.
      pose proof (Z.mul_div_le (value_pending_action db r)
                    (si_cost_price orig) Ec) as Hmd.
      assert (Hqc : si_cost_price orig * q
                    <= si_cost_price orig
                       * (value_pending_action db r / si_cost_price orig))
        by nia.
      nia.
  - (* a credit applied *)
    unfold replaced_within_returned. rewrite Hrep, Hrf, Hret.
    split; [exact R1|]. split; [exact R2|].
    intros r Hr.
    rewrite (quantity_replaced_same db db' r r eq_refl Hrep).
    apply R3, Hr.
Qed.

Lemma run_ops_replaced :
  forall ops db,
    returns_consistent db -> replaced_within_returned db ->
    replaced_within_returned (run_ops ops db).
Proof.
  induction ops as [|op ops IH]; intros db K R; [exact R|].
  simpl. apply IH.
  - apply (op_effect_returns db); [apply run_op_effect|exact K].
  - apply (op_effect_replaced db); [apply run_op_effect|exact K|exact R].
Qed.

(** Starting from a store with no returns, replacement items or supplier
    refunds, in which no batch has a negative cost price, after any
    sequence of requests of the return and credit workflow the units
    replaced for a return are never more than the units returned, and
    never negative. *)
Theorem replaced_never_exceeds_returned :
  forall (db0 : DB) (ops : list Op),
    purchase_returns db0 = [] ->
    replacement_items db0 = [] ->
    supplier_refunds db0 = [] ->
    (forall s, In s (stock_items db0) -> 0 <= si_cost_price s) ->
    forall r, In r (purchase_returns (run_ops ops db0)) ->
      0 <= quantity_replaced (run_ops ops db0) r <= pr_quantity r.
Proof.
  intros db0 ops Hret Hrep Hrf Hcost r Hr.
  assert (K0 : returns_consistent db0).
  { unfold returns_consistent. rewrite Hret, Hrep, Hrf. simpl.
    split; [constructor|]. split; [exact Hcost|].
    split; [intros x []|]. split; [intros x []|].
    split; [intros x k []|intros x []]. }
  assert (R0 : replaced_within_returned db0).
  { unfold replaced_within_returned. rewrite Hret, Hrep, Hrf.
    split; [intros x []|]. split; intros x []. }
  destruct (run_ops_replaced ops db0 K0 R0) as [_ [R2 R3]].
  split; [|apply R3, Hr].
  unfold quantity_replaced. apply sumZ_nonneg.
  intros x Hx. apply R2. unfold PurchaseReturn_replacementitem_set in Hx.
  apply filter_In in Hx. apply Hx.
Qed.

(** ** Status of a return *)

Lemma PurchaseReturn_new_status_same :
  forall db db' r r',
    return_key r' = return_key r ->
    replacement_items db' = replacement_items db ->
    supplier_refunds db' = supplier_refunds db ->
    stock_items db' = stock_items db ->
    PurchaseReturn_new_status db' r' = PurchaseReturn_new_status db r.
Proof.
  intros db db' r r' Hk Hrep Hrf Hst.
  destruct (return_key_eq _ _ Hk) as [K1 [K2 [K3 K4]]].
  unfold PurchaseReturn_new_status, value_pending_action, total_value,
    value_of_items_replaced, amount_refunded, quantity_replaced,
    PurchaseReturn_replacementitem_set, PurchaseReturn_supplierrefund_set,
    get_stock_item.
  rewrite Hrep, Hrf, Hst, K1, K3, K4. reflexivity.
Qed.

Lemma update_status_of_return_status :
  forall k db db',
    update_status_of_return k db = (db', Ok tt) ->
    exists r',
      get_purchase_return db' k = Some r'
      /\ pr_status r' = PurchaseReturn_new_status db' r'.
Proof.
  intros k db db' E. unfold update_status_of_return in E.
  unfold bind, follow in E.
  destruct (get_purchase_return db k) as [pr|] eqn:G; [|discriminate].
  unfold ret, PurchaseReturn_update_status, modify in E.
  inversion E as [Hdb]; clear E.
  destruct (get_purchase_return_found _ _ _ G) as [_ Hk].
  exists (with_pr_status (PurchaseReturn_new_status db pr) pr). split.
  - unfold get_purchase_return.
    cbn [purchase_returns set_purchase_returns].
    rewrite (find_map_same_key _ (fun r => pr_pk r =? k)).
    + fold (get_purchase_return db k). rewrite G. cbn [option_map].
      rewrite Hk at 1. rewrite Hk, Z.eqb_refl. reflexivity.
    + intros x. destruct (pr_pk x =? pr_pk pr); reflexivity.
  - cbn [pr_status with_pr_status].
    symmetry. apply PurchaseReturn_new_status_same; reflexivity.
Qed.

Lemma status_kept_by_order_update :
  forall p k db db' r r',
    update_status_of_order p db = (db', r) ->
    get_purchase_return db k = Some r' ->
    pr_status r' = PurchaseReturn_new_status db r' ->
    get_purchase_return db' k = Some r'
    /\ pr_status r' = PurchaseReturn_new_status db' r'.
Proof.
  intros p k db db' r r' E G Hs.
  apply update_status_of_order_frame in E. rewrite E.
  split; [exact G|]. rewrite Hs.
  symmetry. apply PurchaseReturn_new_status_same; reflexivity.
Qed.

Lemma SupplierRefund_save_status :
  forall (db db' : DB) (self saved : SupplierRefund) (k : Z),
    sr_purchase_return self = Some k ->
    SupplierRefund_save self db = (db', Ok saved) ->
    exists r',
      get_purchase_return db' k = Some r'
      /\ pr_status r' = PurchaseReturn_new_status db' r'.
Proof.
  intros db db' self saved k Hret E.
  unfold SupplierRefund_save, transaction_atomic in E.
  match type of E with
  | context [match ?m db with _ => _ end] =>
      destruct (m db) as [dbx rx] eqn:Em
  end.
  destruct rx as [sv|e]; [|discriminate].
  inversion E; subst dbx sv; clear E.
  unfold bind at 1 in Em.
  destruct (SupplierRefund_super_save self db) as [db1 r1].
  destruct r1 as [sv|]; [|discriminate].
  unfold bind at 1 in Em.
  destruct (create_credit_on_refund (fst sv) (snd sv) db1) as [db2 r2].
  destruct r2 as [[]|]; [|discriminate].
  unfold bind at 1 in Em. rewrite Hret in Em.
  destruct (update_status_of_return k db2) as [db3 r3] eqn:E3.
  destruct r3 as [[]|]; [|discriminate].
  destruct (update_status_of_return_status _ _ _ E3) as [r' [G Hs]].
  unfold bind at 1 in Em.
  destruct (sr_purchase_order self) as [p|].
  - destruct (update_status_of_order p db3) as [db4 r4] eqn:E4.
    destruct r4 as [[]|]; [|discriminate].
    unfold ret in Em. inversion Em; subst db4. exists r'.
    apply (status_kept_by_order_update _ _ _ _ _ _ E4 G Hs).
  - unfold ret in Em. inversion Em; subst db3. exists r'. auto.
Qed.

Lemma ReplacementItem_save_status :
  forall (now : Z) (db db' : DB) (self saved : ReplacementItem),
    ri_pk self = None ->
    ReplacementItem_save now self db = (db', Ok saved) ->
    exists r',
      get_purchase_return db' (ri_purchase_return self) = Some r'
      /\ pr_status r' = PurchaseReturn_new_status db' r'.
Proof.
  intros now db db' self saved Hpk E.
  unfold ReplacementItem_save in E. rewrite Hpk in E.
  unfold bind at 1 in E.
  match type of E with
  | context [match ?m db with _ => _ end] =>
      destruct (m db) as [db1 r1] eqn:E1
  end.
  destruct r1 as [self1|]; [|discriminate].
  assert (H1 : ri_purchase_return self1 = ri_purchase_return self
               /\ ri_pk self1 = None).
  { unfold bind at 1 in E1. unfold follow at 1 in E1.
    destruct (get_purchase_return db (ri_purchase_return self));
      [|discriminate].
    unfold ret at 1 in E1. unfold bind at 1 in E1. unfold follow at 1 in E1.
    destruct (get_stock_item db _); [|discriminate].
    unfold ret at 1 in E1. unfold bind at 1 in E1.
    destruct (StockItem_objects_create _ db) as [dbs rs].
    destruct rs; [|discriminate]. unfold ret in E1. inversion E1; subst.
    cbn. auto. }
  destruct H1 as [Hr1 Hp1].
  unfold bind at 1 in E.
  unfold ReplacementItem_super_save in E. rewrite Hp1 in E.
  unfold bind at 1 in E. cbn [ri_purchase_return with_ri_pk] in E.
  rewrite Hr1 in E.
  match type of E with
  | context [update_status_of_return ?x ?y] =>
      destruct (update_status_of_return x y) as [db2 r2] eqn:E2
  end.
  destruct r2 as [[]|]; [|discriminate].
  unfold ret in E. inversion E; subst db2.
  apply (update_status_of_return_status _ _ _ E2).
Qed.

Lemma PurchaseReturn_new_status_values :
  forall db r,
    PurchaseReturn_new_status db r <> RET_REFUNDED
    /\ PurchaseReturn_new_status db r <> RET_REPLACED
    /\ (PurchaseReturn_new_status db r = RET_FULLY_PROCESSED
        <-> value_pending_action db r <= 0).
Proof.
  intros db r. unfold PurchaseReturn_new_status.
  destruct (value_pending_action db r <? 1) eqn:E.
  - apply Z.ltb_lt in E. split; [discriminate|]. split; [discriminate|].
    split; [lia|reflexivity].
  - apply Z.ltb_ge in E.
    destruct (_ || _); (split; [discriminate|]; split; [discriminate|];
                        split; [discriminate|lia]).
Qed.

(** After a refund or a replacement is recorded against a return, the
    stored status of the return is the one its figures give in the
    resulting store: FULLY_PROCESSED exactly when nothing is pending
    action; REFUNDED and REPLACED are never assigned. *)
Theorem return_status_follows_figures :
  forall (now today order_pk return_pk : Z) (amount : option Z)
         (d : ReplacementStockData) (db db' : DB),
    add_supplier_refund_view order_pk return_pk (Some amount) db
    = (db', Ok RedirectWithSuccess)
    \/ create_general_refund_view return_pk (Some amount) db
       = (db', Ok RedirectWithSuccess)
    \/ receive_replacement_view now today return_pk (Some d) db
       = (db', Ok RedirectWithSuccess) ->
    exists r',
      get_purchase_return db' return_pk = Some r'
      /\ pr_status r' = PurchaseReturn_new_status db' r'
      /\ pr_status r' <> RET_REFUNDED
      /\ pr_status r' <> RET_REPLACED
      /\ (pr_status r' = RET_FULLY_PROCESSED
          <-> value_pending_action db' r' <= 0).
Proof.
  intros now today order_pk return_pk amount d db db' H.
  assert (Hex : exists r',
             get_purchase_return db' return_pk = Some r'
             /\ pr_status r' = PurchaseReturn_new_status db' r').
  { destruct H as [E|[E|E]].
    - unfold add_supplier_refund_view in E.
      unfold bind at 1 in E. unfold get_or_404 at 1 in E.
      destruct (get_purchase_order db order_pk) as [po|]; [|discriminate].
      unfold ret at 1 in E. unfold bind at 1 in E.
      unfold get_or_404 at 1 in E.
      destruct (find _ (purchase_returns db)) as [r|] eqn:G;
        [|discriminate].
      apply find_some in G. destruct G as [_ Hm].
      apply andb_prop in Hm. destruct Hm as [Hm _]. apply Z.eqb_eq in Hm.
      unfold ret at 1 in E. unfold bind at 1 in E. unfold gets at 1 in E.
      destruct (value_pending_action db r <=? 0); [discriminate|].
      unfold bind at 1 in E. unfold gets at 1 in E.
      destruct (SupplierRefundForm_is_valid db r amount); [|discriminate].
      unfold bind at 1 in E.
      match type of E with
      | context [SupplierRefund_save ?s db] =>
          destruct (SupplierRefund_save s db) as [db1 r1] eqn:Es
      end.
      destruct r1 as [sv|]; [|discriminate].
      unfold ret in E. inversion E; subst db1.
      rewrite <- Hm.
      eapply SupplierRefund_save_status; [|exact Es]. reflexivity.
    - unfold create_general_refund_view in E.
      unfold bind at 1 in E. unfold get_or_404 at 1 in E.
      destruct (get_purchase_return db return_pk) as [r|] eqn:G;
        [|discriminate].
      destruct (get_purchase_return_found _ _ _ G) as [_ Hm].
      unfold ret at 1 in E.
      destruct (pr_purchase_order r); [discriminate|].
      unfold bind at 1 in E. unfold gets at 1 in E.
      destruct (SupplierRefundForm_is_valid db r amount); [|discriminate].
      unfold bind at 1 in E.
      match type of E with
      | context [SupplierRefund_save ?s db] =>
          destruct (SupplierRefund_save s db) as [db1 r1] eqn:Es
      end.
      destruct r1 as [sv|]; [|discriminate].
      unfold ret in E. inversion E; subst db1.
      rewrite <- Hm.
      eapply SupplierRefund_save_status; [|exact Es]. reflexivity.
    - unfold receive_replacement_view, transaction_atomic in E.
      match type of E with
      | context [match ?m db with _ => _ end] =>
          destruct (m db) as [dbx rx] eqn:Em
      end.
      destruct rx as [resp|e]; [|discriminate].
      inversion E; subst dbx resp; clear E.
      unfold bind at 1 in Em. unfold get_or_404 at 1 in Em.
      destruct (get_purchase_return db return_pk) as [r|] eqn:G;
        [|discriminate].
      destruct (get_purchase_return_found _ _ _ G) as [_ Hm].
      unfold ret at 1 in Em. unfold bind at 1 in Em. unfold gets at 1 in Em.
      destruct (quantity_pending_action db r <=? 0); [discriminate|].
      unfold bind at 1 in Em. unfold gets at 1 in Em.
      destruct (ReplacementStockForm_is_valid db today r d); [|discriminate].
      unfold bind at 1 in Em.
      match type of Em with
      | context [ReplacementItem_save now ?s db] =>
          destruct (ReplacementItem_save now s db) as [db1 r1] eqn:Es
      end.
      destruct r1 as [sv|]; [|discriminate].
      unfold ret in Em. inversion Em; subst db1.
      rewrite <- Hm.
      match type of Es with
      | ReplacementItem_save now ?s db = _ =>
          exact (ReplacementItem_save_status now db db' s sv eq_refl Es)
      end. }
  destruct Hex as [r' [G Hs]]. exists r'.
  split; [exact G|]. split; [exact Hs|].
  rewrite Hs. apply PurchaseReturn_new_status_values.
Qed.

(** ** Editing an invoice line *)

Lemma filter_filter_comm :
  forall (A : Type) (p q : A -> bool) (l : list A),
    filter p (filter q l) = filter q (filter p l).
Proof.
  intros A p q l. induction l as [|x l IH]; simpl; [reflexivity|].
  destruct (p x) eqn:Ep, (q x) eqn:Eq; simpl; rewrite ?Ep, ?Eq, IH;
    reflexivity.
Qed.

Lemma sumZ_filter_split :
  forall (A : Type) (f : A -> Z) (q : A -> bool) (l : list A),
    sumZ (map f l)
    = sumZ (map f (filter q l))
      + sumZ (map f (filter (fun x => negb (q x)) l)).
Proof.
  intros A f q l. induction l as [|x l IH]; simpl; [reflexivity|].
  fold (sumZ (map f l)). rewrite IH.
  destruct (q x); simpl; lia.
Qed.

(** Replacing the one row of a key, or adding it. *)
Lemma filter_key_replaced :
  forall (A : Type) (key : A -> Z) (k : Z) (new : A) (l : list A),
    key new = k ->
    NoDup (map key l) ->
    existsb (fun x => key x =? k) l = true ->
    filter (fun x => key x =? k)
           (map (fun x => if key x =? k then new else x) l) = [new]
    /\ filter (fun x => negb (key x =? k))
              (map (fun x => if key x =? k then new else x) l)
       = filter (fun x => negb (key x =? k)) l.
Proof.
  intros A key k new l Hnew. induction l as [|x l IH]; intros Hnd Hex;
    [discriminate|].
  inversion Hnd as [|? ? Hx Hl]; subst. simpl in Hex. simpl.
  destruct (key x =? key new) eqn:Ex.
  - rewrite Z.eqb_refl. cbn [negb]. apply Z.eqb_eq in Ex.
    assert (Hno : forall y, In y l -> (key y =? key new) = false).
    { intros y Hy. apply Z.eqb_neq. intros Hk. apply Hx.
      rewrite Ex, <- Hk. apply in_map. exact Hy. }
    assert (Hmap : map (fun y => if key y =? key new then new else y) l = l).
    { rewrite <- (map_id l) at 2. apply map_ext_in. intros y Hy.
      rewrite (Hno y Hy). reflexivity. }
    rewrite Hmap. split.
    + f_equal. apply filter_nothing. exact Hno.
    + reflexivity.
  - rewrite Ex. cbn [negb]. simpl in Hex.
    destruct (IH Hl Hex) as [I1 I2]. split; [exact I1|].
    f_equal. exact I2.
Qed.

Lemma filter_key_added :
  forall (A : Type) (key : A -> Z) (k : Z) (new : A) (l : list A),
    key new = k ->
    existsb (fun x => key x =? k) l = false ->
    filter (fun x => key x =? k) (l ++ [new]) = [new]
    /\ filter (fun x => negb (key x =? k)) (l ++ [new])
       = filter (fun x => negb (key x =? k)) l.
Proof.
  intros A key k new l Hnew Hex.
  assert (Hno : forall y, In y l -> (key y =? k) = false).
  { intros y Hy. apply not_true_is_false. intros Hk.
    assert (existsb (fun x => key x =? k) l = true)
      by (apply existsb_exists; exists y; auto).
    congruence. }
  rewrite !filter_app. cbn [filter]. rewrite Hnew, Z.eqb_refl. cbn [negb].
  rewrite (filter_nothing _ _ l Hno), app_nil_r. split; reflexivity.
Qed.

Lemma existsb_after_delete :
  forall (k : Z) (l : list StockItemTransaction),
    existsb (fun t => tx_invoice_item t =? k)
            (filter (fun t => negb (opt_is (Some k) (tx_invoice_item t))) l)
    = false.
Proof.
  intros k l. apply not_true_is_false. intros H.
  apply existsb_exists in H. destruct H as [t [Ht Hk]].
  apply filter_In in Ht. destruct Ht as [_ Ht].
  cbn [opt_is] in Ht. rewrite Z.eqb_sym, Hk in Ht. discriminate.
Qed.

Lemma filter_after_delete :
  forall (k : Z) (l : list StockItemTransaction),
    filter (fun t => negb (tx_invoice_item t =? k))
           (filter (fun t => negb (opt_is (Some k) (tx_invoice_item t))) l)
    = filter (fun t => negb (tx_invoice_item t =? k)) l.
Proof.
  intros k l. rewrite filter_filter_comm.
  rewrite (filter_ext_in_eq _
             (fun t => negb (opt_is (Some k) (tx_invoice_item t)))
             (fun _ => true)).
  - induction (filter _ l) as [|x m IH]; simpl; [reflexivity|].
    rewrite IH. reflexivity.
  - intros t Ht. apply filter_In in Ht. destruct Ht as [_ Ht].
    cbn [opt_is]. rewrite Z.eqb_sym. exact Ht.
Qed.

(** The transactions after the receiver that follows the saving of a line
    that names a batch: one transaction for the line, on that batch and
    for the quantity of the line; the transactions of other lines are
    untouched. *)
Lemma update_stock_for_saved_item :
  forall (instance : InvoiceItem) (previous_state : option (option Z * Z))
         (k s : Z) (db db' : DB),
    ii_pk instance = Some k ->
    ii_stock_item instance = Some s ->
    NoDup (map tx_invoice_item (stock_item_transactions db)) ->
    update_stock_for_invoice_item instance previous_state false db
    = (db', Ok tt) ->
    filter (fun t => tx_invoice_item t =? k) (stock_item_transactions db')
    = [mkStockItemTransaction k s (ii_quantity instance)]
    /\ filter (fun t => negb (tx_invoice_item t =? k))
              (stock_item_transactions db')
       = filter (fun t => negb (tx_invoice_item t =? k))
                (stock_item_transactions db)
    /\ purchase_returns db' = purchase_returns db.
Proof.
  intros instance prev k s db db' Hk Hs Hnd E.
  pose proof (update_stock_for_invoice_item_frame _ _ _ _ _ _ E) as Hf.
  set (new := mkStockItemTransaction k s (ii_quantity instance)) in *.
  assert (Hnew : tx_invoice_item new = k) by reflexivity.
  set (T := stock_item_transactions db) in *.
  assert (Hcases :
            stock_item_transactions db'
            = filter (fun t => negb (opt_is (Some k) (tx_invoice_item t))) T
              ++ [new]
            \/ (existsb (fun t => tx_invoice_item t =? k) T = true
                /\ stock_item_transactions db'
                   = map (fun t => if tx_invoice_item t =? k then new else t)
                         T)
            \/ (existsb (fun t => tx_invoice_item t =? k) T = false
                /\ stock_item_transactions db' = T ++ [new])).
  { unfold update_stock_for_invoice_item, transaction_atomic in E.
    unfold bind, ret in E. rewrite Hs in E.
    unfold update_or_create_transaction, delete_transactions_of,
      modify in E.
    rewrite Hk in E. fold new in E.
    destruct prev as [[[p|] q]|].
    - destruct (negb (opt_is (Some s) p)).
      + cbn [stock_item_transactions set_stock_item_transactions] in E.
        rewrite existsb_after_delete in E.
        inversion E; subst db'. left. reflexivity.
      + right. fold T in E.
        destruct (existsb (fun t => tx_invoice_item t =? k) T) eqn:Hex;
          inversion E; subst db'; [left|right]; split; reflexivity.
    - right. fold T in E.
      destruct (existsb (fun t => tx_invoice_item t =? k) T) eqn:Hex;
        inversion E; subst db'; [left|right]; split; reflexivity.
    - right. fold T in E.
      destruct (existsb (fun t => tx_invoice_item t =? k) T) eqn:Hex;
        inversion E; subst db'; [left|right]; split; reflexivity. }
  split; [|split]; [| |rewrite Hf; reflexivity].
  - destruct Hcases as [Hc|[[Hex Hc]|[Hex Hc]]]; rewrite Hc.
    + apply (filter_key_added _ tx_invoice_item k new _ Hnew
               (existsb_after_delete k T)).
    + apply (filter_key_replaced _ tx_invoice_item k new T Hnew Hnd Hex).
    + apply (filter_key_added _ tx_invoice_item k new T Hnew Hex).
  - destruct Hcases as [Hc|[[Hex Hc]|[Hex Hc]]]; rewrite Hc.
    + rewrite <- (filter_after_delete k T).
      apply (filter_key_added _ tx_invoice_item k new _ Hnew
               (existsb_after_delete k T)).
    + apply (filter_key_replaced _ tx_invoice_item k new T Hnew Hnd Hex).
    + apply (filter_key_added _ tx_invoice_item k new T Hnew Hex).
Qed.

(** Saving an invoice line that has a primary key and names a batch leaves
    exactly one transaction for the line, on that batch and for the
    quantity of the line; every batch gets back what the line held of it
    before, and the batch named gives the quantity of the line. *)
Theorem invoice_item_edit_moves_consumption :
  forall (db db' : DB) (item saved : InvoiceItem) (k s : Z),
    ii_pk item = Some k ->
    ii_stock_item item = Some s ->
    NoDup (map tx_invoice_item (stock_item_transactions db)) ->
    InvoiceItem_save item db = (db', Ok saved) ->
    filter (fun t => tx_invoice_item t =? k) (stock_item_transactions db')
    = [mkStockItemTransaction k s (ii_quantity item)]
    /\ forall b : StockItem,
         quantity_available db' b
         = quantity_available db b + consumed_by_line db k b
           - (if si_pk b =? s then ii_quantity item else 0).
Proof.
  intros db db' item saved k s Hk Hs Hnd E.
  unfold InvoiceItem_save in E. unfold bind at 1 in E.
  destruct (InvoiceItem_full_clean item db) as [dba ra] eqn:Ec.
  destruct ra as [cleaned|e]; [|discriminate].
  destruct (InvoiceItem_full_clean_ok _ _ _ _ Ec)
    as [-> [Hcpk [Hcs [Hcq [Hci Hq1]]]]].
  unfold bind at 1 in E. unfold gets at 1 in E.
  unfold bind at 1 in E.
  destruct (InvoiceItem_super_save cleaned db) as [dbb rb] eqn:Es.
  destruct rb as [row|e]; [|discriminate].
  assert (Hrow : row = cleaned
                 /\ dbb = set_invoice_items (invoice_items dbb) db).
  { unfold InvoiceItem_super_save in Es. rewrite Hcpk, Hk in Es.
    destruct (existsb _ _); inversion Es; subst; split; reflexivity. }
  destruct Hrow as [-> Hfb].
  unfold bind at 1 in E.
  destruct (update_invoice_on_item_change cleaned dbb) as [dbc rc] eqn:Ei.
  destruct rc as [[]|e]; [|discriminate].
  pose proof (update_invoice_on_item_change_frame _ _ _ _ Ei) as Hfc.
  unfold bind at 1 in E.
  match type of E with
  | context [update_stock_for_invoice_item ?a ?b ?c dbc] =>
      destruct (update_stock_for_invoice_item a b c dbc)
        as [dbd rd] eqn:Eu
  end.
  destruct rd as [[]|e]; [|discriminate].
  unfold ret in E. inversion E; subst dbd saved; clear E.
  assert (Htc : stock_item_transactions dbc = stock_item_transactions db)
    by (rewrite Hfc, Hfb; reflexivity).
  assert (Hrc : purchase_returns dbc = purchase_returns db)
    by (rewrite Hfc, Hfb; reflexivity).
  destruct (update_stock_for_saved_item cleaned _ k s dbc db'
              (eq_trans Hcpk Hk) (eq_trans Hcs Hs)
              ltac:(rewrite Htc; exact Hnd) Eu)
    as [H1 [H2 H3]].
  rewrite Hcq in H1. rewrite Htc in H2. rewrite Hrc in H3.
  split; [exact H1|].
  intros b.
  unfold quantity_available, quantity_sold, quantity_returned,
    consumed_by_line, StockItem_transactions, StockItem_purchasereturn_set.
  rewrite H3.
  rewrite (sumZ_filter_split _ tx_quantity
             (fun t => tx_invoice_item t =? k)
             (filter (fun t => tx_stock_item t =? si_pk b)
                     (stock_item_transactions db'))).
  rewrite (sumZ_filter_split _ tx_quantity
             (fun t => tx_invoice_item t =? k)
             (filter (fun t => tx_stock_item t =? si_pk b)
                     (stock_item_transactions db))).
  rewrite (filter_filter_comm _ (fun t => tx_invoice_item t =? k)
             (fun t => tx_stock_item t =? si_pk b)
             (stock_item_transactions db')).
  rewrite (filter_filter_comm _ (fun t => negb (tx_invoice_item t =? k))
             (fun t => tx_stock_item t =? si_pk b)
             (stock_item_transactions db')).
  rewrite (filter_filter_comm _ (fun t => negb (tx_invoice_item t =? k))
             (fun t => tx_stock_item t =? si_pk b)
             (stock_item_transactions db)).
  rewrite H1, H2.
  cbn [filter tx_stock_item]. rewrite (Z.eqb_sym s (si_pk b)).
  destruct (si_pk b =? s); cbn [map sumZ fold_right tx_quantity]; lia.
Qed.

(** ** Invoice numbers *)

Lemma string_compare_refl : forall s : string, String.compare s s = Eq.
Proof.
  induction s as [|c s IH]; simpl; [reflexivity|].
  unfold Ascii.compare. rewrite N.compare_refl. exact IH.
Qed.

Lemma string_compare_lt_trans :
  forall a b c : string,
    String.compare a b = Lt -> String.compare b c = Lt ->
    String.compare a c = Lt.
Proof.
  induction a as [|x a IH]; intros [|y b] [|z c] H1 H2; simpl in *;
    try discriminate; try reflexivity.
  unfold Ascii.compare in *.
  destruct (N.compare (N_of_ascii x) (N_of_ascii y)) eqn:Exy;
    try discriminate.
  - apply N.compare_eq_iff in Exy. rewrite Exy.
    destruct (N.compare (N_of_ascii y) (N_of_ascii z)) eqn:Eyz;
      try discriminate; [|reflexivity].
    apply (IH b c H1 H2).
  - destruct (N.compare (N_of_ascii y) (N_of_ascii z)) eqn:Eyz;
      try discriminate.
    + apply N.compare_eq_iff in Eyz. rewrite <- Eyz, Exy. reflexivity.
    + apply N.compare_lt_iff in Exy. apply N.compare_lt_iff in Eyz.
      pose proof (N.lt_trans _ _ _ Exy Eyz) as Hxz.
      apply N.compare_lt_iff in Hxz. rewrite Hxz. reflexivity.
Qed.

Lemma string_leb_cases :
  forall a b : string,
    String.leb a b = true <-> String.compare a b = Lt \/ a = b.
Proof.
  intros a b. unfold String.leb. split.
  - destruct (String.compare a b) eqn:E; try discriminate.
    + intros _. right. apply String.compare_eq_iff. exact E.
    + intros _. left. reflexivity.
  - intros [H| ->]; [rewrite H; reflexivity|].
    rewrite string_compare_refl. reflexivity.
Qed.

Lemma string_leb_trans :
  forall a b c : string,
    String.leb a b = true -> String.leb b c = true -> String.leb a c = true.
Proof.
  intros a b c H1 H2. apply string_leb_cases in H1, H2.
  apply string_leb_cases.
  destruct H1 as [H1| ->]; [|exact H2].
  destruct H2 as [H2| <-]; [|left; exact H1].
  left. apply (string_compare_lt_trans a b c H1 H2).
Qed.

Lemma string_compare_append :
  forall p a b : string,
    String.compare (p ++ a) (p ++ b) = String.compare a b.
Proof.
  induction p as [|c p IH]; intros a b; simpl; [reflexivity|].
  unfold Ascii.compare. rewrite N.compare_refl. apply IH.
Qed.

Lemma string_append_inj :
  forall p a b : string, (p ++ a)%string = (p ++ b)%string -> a = b.
Proof.
  induction p as [|c p IH]; intros a b H; simpl in H; [exact H|].
  inversion H. apply IH. assumption.
Qed.

Lemma like_startswith_append :
  forall p t : string, like_startswith p (p ++ t) = true.
Proof.
  induction p as [|c p IH]; intros t; simpl; [reflexivity|].
  rewrite Ascii.eqb_refl. apply IH.
Qed.

Lemma string_prefix_append :
  forall p t : string, String.prefix p (p ++ t) = true.
Proof.
  induction p as [|c p IH]; intros t; simpl.
  - destruct t; reflexivity.
  - destruct (ascii_dec c c) as [_|H]; [apply IH|contradiction H; reflexivity].
Qed.

Lemma drop_occurrences_skip :
  forall (old u t : string),
    drop_occurrences old (String.length u) (u ++ t)
    = drop_occurrences old 0 t.
Proof.
  intros old u t. induction u as [|c u IH]; simpl.
  - destruct t; reflexivity.
  - exact IH.
Qed.

Lemma drop_occurrences_digits :
  forall (c0 : ascii) (old' t : string),
    is_digit c0 = false ->
    forallb is_digit (list_ascii_of_string t) = true ->
    drop_occurrences (String c0 old') 0 t = t.
Proof.
  intros c0 old' t Hc. induction t as [|d t IH]; intros Hd; [reflexivity|].
  simpl in Hd. apply andb_prop in Hd. destruct Hd as [Hd Ht].
  cbn [drop_occurrences].
  assert (Hp : String.prefix (String c0 old') (String d t) = false).
  { simpl. destruct (ascii_dec c0 d) as [->|_]; [|reflexivity].
    rewrite Hd in Hc. discriminate. }
  rewrite Hp. f_equal. apply IH. exact Ht.
Qed.

Lemma replace_prefix_of_number :
  forall (today t : string),
    forallb is_digit (list_ascii_of_string t) = true ->
    replace_with_nothing (invoice_prefix today) (invoice_prefix today ++ t)
    = t.
Proof.
  intros today t Hd. unfold replace_with_nothing.
  assert (Hp : exists old', invoice_prefix today = String "I"%char old').
  { unfold invoice_prefix. simpl. eexists. reflexivity. }
  destruct Hp as [old' Hp].
  pose proof (string_prefix_append (invoice_prefix today) t) as Hpre.
  rewrite Hp in *. cbn [append drop_occurrences].
  cbn [append] in Hpre. rewrite Hpre. cbn [String.length].
  replace (S (String.length old') - 1)%nat with (String.length old')
    by lia.
  rewrite drop_occurrences_skip.
  apply drop_occurrences_digits; [reflexivity|exact Hd].
Qed.

Lemma last_number_fold :
  forall (l : list string) (acc : option string),
    match fold_left (fun acc s =>
                       match acc with
                       | None => Some s
                       | Some m => if String.leb m s then Some s else Some m
                       end) l acc with
    | None => acc = None /\ l = []
    | Some m =>
        (acc = Some m \/ In m l)
        /\ (forall s, In s l -> String.leb s m = true)
        /\ (forall a, acc = Some a -> String.leb a m = true)
    end.
Proof.
  induction l as [|x l IH]; intros acc.
  - simpl. destruct acc as [a|]; [|split; reflexivity].
    split; [left; reflexivity|]. split; [intros s []|].
    intros a0 H. inversion H; subst.
    apply string_leb_cases. right. reflexivity.
  - cbn [fold_left].
    set (acc' := match acc with
                 | None => Some x
                 | Some m => if String.leb m x then Some x else Some m
                 end).
    specialize (IH acc').
    destruct (fold_left _ l acc') as [m|] eqn:E.
    + destruct IH as [I1 [I2 I3]].
      assert (Hx : exists x', acc' = Some x'
                   /\ String.leb x x' = true
                   /\ (x' = x \/ acc = Some x')
                   /\ (forall a, acc = Some a -> String.leb a x' = true)).
      { unfold acc'. destruct acc as [a|].
        - destruct (String.leb a x) eqn:Eax.
          + exists x. split; [reflexivity|].
            split; [apply string_leb_cases; right; reflexivity|].
            split; [left; reflexivity|].
            intros a0 H. inversion H; subst. exact Eax.
          + exists a. split; [reflexivity|].
            split; [destruct (String.leb_total a x) as [H|H];
                    [congruence|exact H]|].
            split; [right; reflexivity|].
            intros a0 H. inversion H; subst.
            apply string_leb_cases. right. reflexivity.
        - exists x. split; [reflexivity|].
          split; [apply string_leb_cases; right; reflexivity|].
          split; [left; reflexivity|]. intros a H. discriminate. }
      destruct Hx as [x' [Hacc' [Hxx' [Hor Hacc]]]].
      pose proof (I3 x' Hacc') as Hx'm.
      split; [|split].
      * destruct I1 as [I1|I1]; [|right; right; exact I1].
        rewrite Hacc' in I1. inversion I1; subst x'.
        destruct Hor as [->|Hor]; [right; left; reflexivity|left; exact Hor].
      * intros s [<-|Hs]; [|apply I2; exact Hs].
        apply (string_leb_trans _ _ _ Hxx' Hx'm).
      * intros a Ha. apply (string_leb_trans _ _ _ (Hacc a Ha) Hx'm).
    + destruct IH as [I1 _]. unfold acc' in I1.
      destruct acc as [a|]; [destruct (String.leb a x)|]; discriminate.
Qed.

Lemma last_number_spec :
  forall l : list string,
    match last_number l with
    | None => l = []
    | Some m => In m l /\ forall s, In s l -> String.leb s m = true
    end.
Proof.
  intros l. unfold last_number.
  pose proof (last_number_fold l None) as H.
  destruct (fold_left _ l None) as [m|].
  - destruct H as [[H|H] [H2 _]]; [discriminate|]. split; assumption.
  - apply H.
Qed.

Lemma sequence_number_checks_hold :
  forallb sequence_number_checks sequence_numbers = true.
Proof. vm_compute. reflexivity. Qed.

Lemma sequence_number_checked :
  forall n : Z,
    0 <= n <= 10000 ->
    int_of_digits (zfill 4 (str_of_int n)) = n
    /\ isdigit (zfill 4 (str_of_int n)) = true
    /\ (n < 9999 ->
        String.compare (zfill 4 (str_of_int n))
                       (zfill 4 (str_of_int (n + 1))) = Lt)
    /\ String.leb (zfill 4 (str_of_int n)) (zfill 4 (str_of_int 9999))
       = true.
Proof.
  intros n Hn.
  assert (Hin : In n sequence_numbers).
  { unfold sequence_numbers. apply in_map_iff. exists (Z.to_nat n).
    split; [lia|]. apply in_seq. lia. }
  pose proof (proj1 (forallb_forall _ _) sequence_number_checks_hold n Hin)
    as H.
  unfold sequence_number_checks in H. cbv zeta in H.
  apply andb_prop in H. destruct H as [H H4].
  apply andb_prop in H. destruct H as [H H3].
  apply andb_prop in H. destruct H as [H1 H2].
  apply Z.eqb_eq in H1.
  split; [exact H1|]. split; [exact H2|]. split; [|exact H4].
  intros Hlt. apply orb_prop in H3. destruct H3 as [H3|H3].
  - apply Z.leb_le in H3. lia.
  - destruct (String.compare _ _); try discriminate. reflexivity.
Qed.

Lemma sequence_numbers_increase :
  forall (k : nat) (m : Z),
    0 <= m -> m + 1 + Z.of_nat k <= 9999 ->
    String.compare (zfill 4 (str_of_int m))
                   (zfill 4 (str_of_int (m + 1 + Z.of_nat k))) = Lt.
Proof.
  induction k as [|k IH]; intros m H0 H1.
  - rewrite Z.add_0_r.
    apply (sequence_number_checked m ltac:(lia)). lia.
  - apply (string_compare_lt_trans _
             (zfill 4 (str_of_int (m + 1 + Z.of_nat k)))).
    + apply IH; lia.
    + replace (m + 1 + Z.of_nat (S k)) with (m + 1 + Z.of_nat k + 1) by lia.
      apply (sequence_number_checked (m + 1 + Z.of_nat k) ltac:(lia)). lia.
Qed.

Lemma invoice_number_order :
  forall (today : string) (m n : Z),
    0 <= m <= 9999 -> 0 <= n <= 9999 ->
    String.leb (invoice_number_of today m) (invoice_number_of today n) = true ->
    m <= n.
Proof.
  intros today m n Hm Hn H. unfold invoice_number_of in H.
  unfold String.leb in H. rewrite string_compare_append in H.
  destruct (Z.le_gt_cases m n) as [Hle|Hgt]; [exact Hle|].
  pose proof (sequence_numbers_increase (Z.to_nat (m - n - 1)) n
                ltac:(lia) ltac:(lia)) as Hlt.
  replace (n + 1 + Z.of_nat (Z.to_nat (m - n - 1))) with m in Hlt by lia.
  rewrite String.compare_antisym, Hlt in H. discriminate.
Qed.

Lemma invoice_number_inj :
  forall (today : string) (m n : Z),
    0 <= m <= 10000 -> 0 <= n <= 10000 ->
    invoice_number_of today m = invoice_number_of today n -> m = n.
Proof.
  intros today m n Hm Hn H. unfold invoice_number_of in H.
  apply string_append_inj in H.
  destruct (sequence_number_checked m Hm) as [Em _].
  destruct (sequence_number_checked n Hn) as [En _].
  rewrite <- Em, <- En, H. reflexivity.
Qed.

(** The sequence number read back from a number of the day. *)
Lemma next_after_number :
  forall (today : string) (numbers : list string) (k : Z),
    0 <= k <= 10000 ->
    last_number (filter (like_startswith (invoice_prefix today)) numbers)
    = Some (invoice_number_of today k) ->
    next_invoice_number today numbers = invoice_number_of today (k + 1).
Proof.
  intros today numbers k Hk Hl. unfold next_invoice_number. cbv zeta.
  rewrite Hl. unfold invoice_number_of at 1 2.
  destruct (sequence_number_checked k Hk) as [E1 [E2 _]].
  rewrite replace_prefix_of_number.
  - rewrite E2, E1. reflexivity.
  - unfold isdigit in E2. apply andb_prop in E2. apply E2.
Qed.

(** While the numbers of the day are the ones this code has issued and
    fewer than 9999 of them exist, the number issued next has the sequence
    number after the greatest one of the day (1 when the day has none),
    and it is not yet in the table. *)
Theorem next_invoice_number_is_sequential :
  forall (today : string) (numbers : list string),
    (forall s, In s numbers ->
       like_startswith (invoice_prefix today) s = true ->
       exists n, 1 <= n <= 9998 /\ s = invoice_number_of today n) ->
    exists n,
      1 <= n <= 9999
      /\ next_invoice_number today numbers = invoice_number_of today n
      /\ (n = 1 \/ In (invoice_number_of today (n - 1)) numbers)
      /\ (forall m, 1 <= m <= 9998 ->
            In (invoice_number_of today m) numbers -> m < n)
      /\ ~ In (next_invoice_number today numbers) numbers.
Proof.
  intros today numbers H.
  set (L := filter (like_startswith (invoice_prefix today)) numbers).
  assert (HL : forall j, In (invoice_number_of today j) numbers ->
                 In (invoice_number_of today j) L).
  { intros j Hj. unfold L. apply filter_In. split; [exact Hj|].
    apply like_startswith_append. }
  assert (Hfresh : forall n,
            1 <= n <= 9999 ->
            (forall m, 1 <= m <= 9998 ->
               In (invoice_number_of today m) numbers -> m < n) ->
            ~ In (invoice_number_of today n) numbers).
  { intros n Hn Hbelow Hin.
    destruct (H _ Hin (like_startswith_append _ _)) as [j [Hj Ej]].
    assert (j = n)
      by (symmetry; apply (invoice_number_inj today n j); [lia|lia|exact Ej]).
    subst j. specialize (Hbelow n Hj Hin). lia. }
  pose proof (last_number_spec L) as Hlast.
  destruct (last_number L) as [m|] eqn:El.
  - destruct Hlast as [Hm Hmax].
    assert (Hm' : In m numbers /\ like_startswith (invoice_prefix today) m
                                  = true)
      by (unfold L in Hm; apply filter_In in Hm; exact Hm).
    destruct (H m (proj1 Hm') (proj2 Hm')) as [k [Hk Ek]]. subst m.
    pose proof (next_after_number today numbers k ltac:(lia) El) as Hnext.
    assert (Hbelow : forall j, 1 <= j <= 9998 ->
                       In (invoice_number_of today j) numbers -> j < k + 1).
    { intros j Hj Hin. specialize (Hmax _ (HL j Hin)).
      apply invoice_number_order in Hmax; lia. }
    exists (k + 1). split; [lia|]. split; [exact Hnext|].
    split; [right; replace (k + 1 - 1) with k by lia; apply Hm'|].
    split; [exact Hbelow|].
    rewrite Hnext. apply Hfresh; [lia|exact Hbelow].
  - assert (Hnext : next_invoice_number today numbers
                    = invoice_number_of today 1).
    { unfold next_invoice_number. cbv zeta. fold L. rewrite El.
      reflexivity. }
    assert (Hbelow : forall j, 1 <= j <= 9998 ->
                       In (invoice_number_of today j) numbers -> j < 1).
    { intros j Hj Hin. apply HL in Hin. rewrite Hlast in Hin.
      destruct Hin. }
    exists 1. split; [lia|]. split; [exact Hnext|].
    split; [left; reflexivity|]. split; [exact Hbelow|].
    rewrite Hnext. apply Hfresh; [lia|exact Hbelow].
Qed.

(** Once the number with sequence number 9999 exists for the day, the
    number issued is the one with sequence number 10000, whether or not
    it exists already: in the order of the bytes 10000 comes before 9999,
    so 9999 stays the last number of the day. *)
Theorem next_invoice_number_repeats_after_9999 :
  forall (today : string) (numbers : list string),
    (forall s, In s numbers ->
       like_startswith (invoice_prefix today) s = true ->
       exists n, 1 <= n <= 10000 /\ s = invoice_number_of today n) ->
    In (invoice_number_of today 9999) numbers ->
    next_invoice_number today numbers = invoice_number_of today 10000
    /\ (In (invoice_number_of today 10000) numbers ->
        In (next_invoice_number today numbers) numbers).
Proof.
  intros today numbers H H9.
  set (L := filter (like_startswith (invoice_prefix today)) numbers).
  assert (H9L : In (invoice_number_of today 9999) L).
  { unfold L. apply filter_In. split; [exact H9|].
    apply like_startswith_append. }
  pose proof (last_number_spec L) as Hlast.
  destruct (last_number L) as [m|] eqn:El.
  2:{ rewrite Hlast in H9L. destruct H9L. }
  destruct Hlast as [Hm Hmax].
  assert (Hm' : In m numbers /\ like_startswith (invoice_prefix today) m
                                = true)
    by (unfold L in Hm; apply filter_In in Hm; exact Hm).
  destruct (H m (proj1 Hm') (proj2 Hm')) as [k [Hk Ek]].
  assert (E9 : m = invoice_number_of today 9999).
  { apply String.leb_antisym; [|apply Hmax; exact H9L].
    subst m. unfold invoice_number_of, String.leb.
    rewrite string_compare_append.
    apply (sequence_number_checked k ltac:(lia)). }
  rewrite E9 in El.
  pose proof (next_after_number today numbers 9999 ltac:(lia) El) as Hnext.
  split; [exact Hnext|]. intros H10. rewrite Hnext. exact H10.
Qed.

(** ** The further scenarios *)

Lemma invoice_payment_within_balance_witness :
  add_invoice_payment_view 1 (Some (Some 40000)) invoice_scenario_db
  = (fst (add_invoice_payment_view 1 (Some (Some 40000))
            invoice_scenario_db),
     Ok RedirectWithSuccess)
  /\ invoice_payments
       (fst (add_invoice_payment_view 1 (Some (Some 40000))
               invoice_scenario_db))
     = [mkInvoicePayment 1 40000].
Proof.
  assert (E : add_invoice_payment_view 1 (Some (Some 40000))
                invoice_scenario_db
              = (fst (add_invoice_payment_view 1 (Some (Some 40000))
                        invoice_scenario_db),
                 Ok RedirectWithSuccess)) by (vm_compute; reflexivity).
  split; [exact E|].
  destruct (invoice_payment_within_balance 1 (Some 40000)
              invoice_scenario_db _ _ E) as [_ [H1 _]].
  apply (H1 eq_refl).
Defined.

Lemma invoice_payment_settles_balance_witness :
  get_invoice invoice_scenario_db 1
  = Some (mkInvoice (Some 1) PENDING 100000 0)
  /\ total_in_sync invoice_scenario_db (mkInvoice (Some 1) PENDING 100000 0)
  /\ Invoice_balance_due invoice_scenario_db
       (mkInvoice (Some 1) PENDING 100000 0) = 100000
  /\ exists saved,
       get_invoice
         (fst (add_invoice_payment_view 1 (Some (Some 40000))
                 invoice_scenario_db)) 1 = Some saved
       /\ Invoice_balance_due
            (fst (add_invoice_payment_view 1 (Some (Some 40000))
                    invoice_scenario_db)) saved
          = Invoice_balance_due invoice_scenario_db
              (mkInvoice (Some 1) PENDING 100000 0) - 40000
       /\ 0 <= Invoice_balance_due
                 (fst (add_invoice_payment_view 1 (Some (Some 40000))
                         invoice_scenario_db)) saved
       /\ inv_status saved
          = if 40000 =? Invoice_balance_due invoice_scenario_db
                          (mkInvoice (Some 1) PENDING 100000 0)
            then PAID else PARTIAL.
Proof.
  split; [vm_compute; reflexivity|]. split; [vm_compute; reflexivity|]. split; [vm_compute; reflexivity|].
  apply (invoice_payment_settles_balance 1 40000 invoice_scenario_db
           (fst (add_invoice_payment_view 1 (Some (Some 40000))
                   invoice_scenario_db))
           (mkInvoice (Some 1) PENDING 100000 0)).
  - reflexivity.
  - reflexivity.
  - discriminate.
  - vm_compute. discriminate.
  - vm_compute; reflexivity.
Defined.

Lemma invoice_refund_only_when_overpaid_witness :
  record_refund_view 1 (Some (Some 5000)) overpaid_invoice_db
  = (fst (record_refund_view 1 (Some (Some 5000)) overpaid_invoice_db),
     Ok RedirectWithSuccess)
  /\ snd (record_refund_view 1 (Some (Some 5000)) invoice_scenario_db)
     = Ok RedirectWithError
  /\ refunds (fst (record_refund_view 1 (Some (Some 5000))
                     overpaid_invoice_db))
     = [mkRefund 1 5000].
Proof.
  assert (E : record_refund_view 1 (Some (Some 5000)) overpaid_invoice_db
              = (fst (record_refund_view 1 (Some (Some 5000))
                        overpaid_invoice_db),
                 Ok RedirectWithSuccess)) by (vm_compute; reflexivity).
  split; [exact E|]. split; [vm_compute; reflexivity|].
  destruct (invoice_refund_only_when_overpaid 1 (Some 5000)
              overpaid_invoice_db _ _ E) as [_ [H1 _]].
  apply (H1 eq_refl).
Defined.

Lemma invoice_refund_leaves_invoice_paid_witness :
  get_invoice overpaid_invoice_db 1 = Some (mkInvoice (Some 1) PAID 100000 0)
  /\ total_in_sync overpaid_invoice_db (mkInvoice (Some 1) PAID 100000 0)
  /\ Invoice_balance_due overpaid_invoice_db
       (mkInvoice (Some 1) PAID 100000 0) = -20000
  /\ exists saved,
       get_invoice
         (fst (record_refund_view 1 (Some (Some 5000)) overpaid_invoice_db))
         1 = Some saved
       /\ Invoice_balance_due
            (fst (record_refund_view 1 (Some (Some 5000))
                    overpaid_invoice_db)) saved
          = Invoice_balance_due overpaid_invoice_db
              (mkInvoice (Some 1) PAID 100000 0) + 5000
       /\ Invoice_balance_due
            (fst (record_refund_view 1 (Some (Some 5000))
                    overpaid_invoice_db)) saved <= 0
       /\ inv_status saved = PAID.
Proof.
  split; [vm_compute; reflexivity|]. split; [vm_compute; reflexivity|]. split; [vm_compute; reflexivity|].
  apply (invoice_refund_leaves_invoice_paid 1 5000 overpaid_invoice_db
           (fst (record_refund_view 1 (Some (Some 5000))
                   overpaid_invoice_db))
           (mkInvoice (Some 1) PAID 100000 0)).
  - reflexivity.
  - reflexivity.
  - discriminate.
  - vm_compute; reflexivity.
Defined.


Lemma invoice_total_follows_lines_witness :
  (exists saved,
     InvoiceItem_save twenty_of_batch_A receive_and_consume_db
     = (fst (InvoiceItem_save twenty_of_batch_A receive_and_consume_db),
        Ok saved))
  /\ exists inv,
       get_invoice
         (fst (InvoiceItem_save twenty_of_batch_A receive_and_consume_db))
         (ii_invoice twenty_of_batch_A) = Some inv
       /\ inv_total_amount inv
          = calculate_total_amount
              (fst (InvoiceItem_save twenty_of_batch_A
                      receive_and_consume_db)) inv.
Proof.
  assert (E : exists saved,
            InvoiceItem_save twenty_of_batch_A receive_and_consume_db
            = (fst (InvoiceItem_save twenty_of_batch_A
                      receive_and_consume_db), Ok saved))
    by (eexists; reflexivity).
  split; [exact E|].
  apply (invoice_total_follows_lines receive_and_consume_db _
           twenty_of_batch_A).
  left. exact E.
Defined.

Lemma supplier_payment_within_balance_witness :
  add_supplier_payment_view 1 (Some (Some 30000)) credit_scenario_db
  = (fst (add_supplier_payment_view 1 (Some (Some 30000))
            credit_scenario_db),
     Ok RedirectWithSuccess)
  /\ PurchaseOrder_balance_due credit_scenario_db order_1 = 100000
  /\ exists po',
       get_purchase_order
         (fst (add_supplier_payment_view 1 (Some (Some 30000))
                 credit_scenario_db)) 1 = Some po'
       /\ PurchaseOrder_balance_due
            (fst (add_supplier_payment_view 1 (Some (Some 30000))
                    credit_scenario_db)) po'
          = PurchaseOrder_balance_due credit_scenario_db order_1 - 30000
       /\ 0 <= PurchaseOrder_balance_due
                 (fst (add_supplier_payment_view 1 (Some (Some 30000))
                         credit_scenario_db)) po'.
Proof.
  assert (E : add_supplier_payment_view 1 (Some (Some 30000))
                credit_scenario_db
              = (fst (add_supplier_payment_view 1 (Some (Some 30000))
                        credit_scenario_db),
                 Ok RedirectWithSuccess)) by (vm_compute; reflexivity).
  split; [exact E|]. split; [vm_compute; reflexivity|].
  destruct (supplier_payment_within_balance 1 (Some 30000)
              credit_scenario_db _ _ E) as [_ [H1 _]].
  destruct (H1 eq_refl) as [_ H].
  apply (H order_1 eq_refl).
Defined.

Lemma supplier_payment_lowers_outstanding_balance_witness :
  NoDup (map po_pk (purchase_orders credit_scenario_db))
  /\ get_purchase_order credit_scenario_db 1 = Some order_1
  /\ get_outstanding_balance credit_scenario_db 1 = 150000
  /\ get_outstanding_balance
       (fst (add_supplier_payment_view 1 (Some (Some 30000))
               credit_scenario_db)) 1
     = get_outstanding_balance credit_scenario_db 1
       - (if 1 =? po_supplier order_1 then 30000 else 0).
Proof.
  assert (Hnd : NoDup (map po_pk (purchase_orders credit_scenario_db))).
  { cbn. constructor.
    - intros [H|[]]. discriminate.
    - constructor; [intros []|constructor]. }
  split; [exact Hnd|]. split; [vm_compute; reflexivity|]. split; [vm_compute; reflexivity|].
  apply (supplier_payment_lowers_outstanding_balance 1 30000
           credit_scenario_db _ order_1 Hnd eq_refl).
  vm_compute; reflexivity.
Defined.

Lemma order_completed_iff_all_lines_received_witness :
  In order_1 (purchase_orders receive_and_consume_db)
  /\ (forall line,
        In line (PurchaseOrder_items receive_and_consume_db order_1) ->
        0 <= poi_quantity_received line <= poi_quantity line)
  /\ PurchaseOrder_new_status receive_and_consume_db order_1 = PO_COMPLETED
  /\ (PurchaseOrder_new_status receive_and_consume_db order_1 = PO_COMPLETED ->
      forall (now today : Z) (post : option (list ReceiveStockData)),
        receive_purchase_order_view now today (po_pk order_1) post
          receive_and_consume_db
        = (receive_and_consume_db, Ok RedirectWithWarning)).
Proof.
  assert (Hin : In order_1 (purchase_orders receive_and_consume_db))
    by (left; reflexivity).
  assert (Hl : forall line,
             In line (PurchaseOrder_items receive_and_consume_db order_1) ->
             0 <= poi_quantity_received line <= poi_quantity line).
  { intros line [<-|[]]. cbn. lia. }
  split; [exact Hin|]. split; [exact Hl|]. split; [vm_compute; reflexivity|].
  apply (order_completed_iff_all_lines_received receive_and_consume_db
           order_1 Hin Hl).
Defined.

Lemma receipt_sets_status_from_lines_witness :
  receive_purchase_order_view 0 0 1 (Some [form_line_1]) cancelled_order_db
  = (fst (receive_purchase_order_view 0 0 1 (Some [form_line_1])
            cancelled_order_db),
     Ok RedirectWithSuccess)
  /\ option_map po_status (get_purchase_order cancelled_order_db 1)
     = Some PO_CANCELLED
  /\ exists po',
       get_purchase_order
         (fst (receive_purchase_order_view 0 0 1 (Some [form_line_1])
                 cancelled_order_db)) 1 = Some po'
       /\ po_status po'
          = PurchaseOrder_new_status
              (fst (receive_purchase_order_view 0 0 1 (Some [form_line_1])
                      cancelled_order_db)) po'
       /\ po_status po' <> PO_CANCELLED.
Proof.
  split; [vm_compute; reflexivity|]. split; [vm_compute; reflexivity|].
  apply (receipt_sets_status_from_lines 0 0 1 (Some [form_line_1])
           cancelled_order_db).
  vm_compute; reflexivity.
Defined.

Lemma cancelled_order_revived_by_receipt_witness :
  cancel_purchase_order_view 1 true two_line_order_db
  = (fst (cancel_purchase_order_view 1 true two_line_order_db),
     Ok RedirectWithSuccess)
  /\ receive_purchase_order_view 0 0 1 (Some [form_line_1])
       (fst (cancel_purchase_order_view 1 true two_line_order_db))
     = (fst (receive_purchase_order_view 0 0 1 (Some [form_line_1])
               (fst (cancel_purchase_order_view 1 true two_line_order_db))),
        Ok RedirectWithSuccess)
  /\ exists po2,
       get_purchase_order
         (fst (receive_purchase_order_view 0 0 1 (Some [form_line_1])
                 (fst (cancel_purchase_order_view 1 true
                         two_line_order_db)))) 1 = Some po2
       /\ po_status po2 <> PO_CANCELLED.
Proof.
  split; [vm_compute; reflexivity|]. split; [vm_compute; reflexivity|].
  apply (cancelled_order_revived_by_receipt 0 0 1 (Some [form_line_1])
           two_line_order_db
           (fst (cancel_purchase_order_view 1 true two_line_order_db))
           (fst (receive_purchase_order_view 0 0 1 (Some [form_line_1])
                   (fst (cancel_purchase_order_view 1 true
                           two_line_order_db))))).
  - vm_compute; reflexivity.
  - vm_compute; reflexivity.
Defined.

Lemma receipt_within_order_witness :
  NoDup (map poi_pk (purchase_order_items two_line_order_db))
  /\ lines_within_order two_line_order_db
  /\ forms_match_lines [form_line_1; form_line_2]
       (items_to_receive two_line_order_db 1) = true
  /\ lines_within_order
       (fst (receive_purchase_order_view 0 0 1
               (Some [form_line_1; form_line_2]) two_line_order_db)).
Proof.
  assert (Hnd : NoDup (map poi_pk (purchase_order_items two_line_order_db))).
  { cbn. constructor.
    - intros [H|[]]. discriminate.
    - constructor; [intros []|constructor]. }
  assert (Hw : lines_within_order two_line_order_db).
  { intros line [<-|[<-|[]]]; cbn; lia. }
  split; [exact Hnd|]. split; [exact Hw|]. split; [vm_compute; reflexivity|].
  apply (receipt_within_order 0 0 1 [form_line_1; form_line_2]
           two_line_order_db _ Hnd Hw eq_refl).
  vm_compute; reflexivity.
Defined.

Lemma received_cost_within_mrp_witness :
  ReceiveStockForm_clean two_line_order_db
    (Some (mkPurchaseOrderItem 1 1 1 100 0)) form_with_discount = true
  /\ requested_quantity form_with_discount = Some 100
  /\ si_cost_price
       (received_batch 0 order_1 (mkPurchaseOrderItem 1 1 1 100 0) 100
          form_with_discount) = 945
  /\ si_cost_price
       (received_batch 0 order_1 (mkPurchaseOrderItem 1 1 1 100 0) 100
          form_with_discount)
     <= si_mrp
          (received_batch 0 order_1 (mkPurchaseOrderItem 1 1 1 100 0) 100
             form_with_discount).
Proof.
  split; [vm_compute; reflexivity|]. split; [vm_compute; reflexivity|]. split; [vm_compute; reflexivity|].
  apply (received_cost_within_mrp two_line_order_db 0 order_1
           (Some (mkPurchaseOrderItem 1 1 1 100 0))
           (mkPurchaseOrderItem 1 1 1 100 0) form_with_discount 100 1500).
  - reflexivity.
  - reflexivity.
  - reflexivity.
  - discriminate.
  - left. discriminate.
Defined.

Lemma stock_available_agrees_with_stock_quantity_witness :
  (forall s, In s (ProductVariant_stock_items nested_return_db 1) ->
     (List.length (StockItem_transactions nested_return_db s) <= 1)%nat
     /\ (List.length (StockItem_purchasereturn_set nested_return_db s)
         <= 1)%nat)
  /\ stock_quantity nested_return_db 1 = 95
  /\ stock_available nested_return_db 1 = stock_quantity nested_return_db 1.
Proof.
  assert (H : forall s,
            In s (ProductVariant_stock_items nested_return_db 1) ->
            (List.length (StockItem_transactions nested_return_db s)
             <= 1)%nat
            /\ (List.length (StockItem_purchasereturn_set nested_return_db s)
                <= 1)%nat).
  { intros s [<-|[<-|[]]]; cbn; lia. }
  split; [exact H|]. split; [vm_compute; reflexivity|].
  apply (stock_available_agrees_with_stock_quantity nested_return_db 1 H).
Defined.

Lemma stock_available_not_below_stock_quantity_witness :
  (forall s, In s (ProductVariant_stock_items edit_line_db 1) ->
     0 <= quantity_sold edit_line_db s
     /\ 0 <= quantity_returned edit_line_db s
     /\ 0 <= quantity_available edit_line_db s)
  /\ stock_quantity edit_line_db 1 = 130
  /\ stock_quantity edit_line_db 1 <= stock_available edit_line_db 1.
Proof.
  assert (H : forall s, In s (ProductVariant_stock_items edit_line_db 1) ->
            0 <= quantity_sold edit_line_db s
            /\ 0 <= quantity_returned edit_line_db s
            /\ 0 <= quantity_available edit_line_db s).
  { intros s [<-|[<-|[]]]; cbn; lia. }
  split; [exact H|]. split; [vm_compute; reflexivity|].
  apply (stock_available_not_below_stock_quantity edit_line_db 1 H).
Defined.

Lemma offered_batches_have_stock_witness :
  (forall s, In s (stock_items edit_line_db) ->
     0 <= quantity_sold edit_line_db s
     /\ 0 <= quantity_returned edit_line_db s)
  /\ batches_data edit_line_db 1 = [(1, 1500, 80); (2, 1500, 50)]
  /\ (forall variant_id pk mrp available,
        In (pk, mrp, available) (batches_data edit_line_db variant_id) ->
        0 < available).
Proof.
  assert (H : forall s, In s (stock_items edit_line_db) ->
            0 <= quantity_sold edit_line_db s
            /\ 0 <= quantity_returned edit_line_db s).
  { intros s [<-|[<-|[]]]; cbn; lia. }
  split; [exact H|]. split; [vm_compute; reflexivity|].
  apply (offered_batches_have_stock edit_line_db H).
Defined.



Lemma replaced_never_exceeds_returned_witness :
  purchase_returns receive_and_consume_db = []
  /\ replacement_items receive_and_consume_db = []
  /\ supplier_refunds receive_and_consume_db = []
  /\ (forall s, In s (stock_items receive_and_consume_db) ->
        0 <= si_cost_price s)
  /\ In return_R1
       (purchase_returns (run_ops nested_return_ops receive_and_consume_db))
  /\ quantity_replaced (run_ops nested_return_ops receive_and_consume_db)
       return_R1 = 10
  /\ 0 <= quantity_replaced
            (run_ops nested_return_ops receive_and_consume_db) return_R1
     <= pr_quantity return_R1.
Proof.
  assert (Hc : forall s, In s (stock_items receive_and_consume_db) ->
             0 <= si_cost_price s).
  { intros s [<-|[]]. cbn. lia. }
  assert (Hin : In return_R1
                  (purchase_returns
                     (run_ops nested_return_ops receive_and_consume_db)))
    by (left; reflexivity).
  split; [vm_compute; reflexivity|]. split; [vm_compute; reflexivity|]. split; [vm_compute; reflexivity|].
  split; [exact Hc|]. split; [exact Hin|]. split; [vm_compute; reflexivity|].
  apply (replaced_never_exceeds_returned receive_and_consume_db
           nested_return_ops eq_refl eq_refl eq_refl Hc return_R1 Hin).
Defined.

Lemma return_status_follows_figures_witness :
  add_supplier_refund_view 1 1 (Some (Some 20000))
    (run_op (CreateReturn 1 (Some 20)) credit_scenario_db)
  = (fst (add_supplier_refund_view 1 1 (Some (Some 20000))
            (run_op (CreateReturn 1 (Some 20)) credit_scenario_db)),
     Ok RedirectWithSuccess)
  /\ exists r',
       get_purchase_return
         (fst (add_supplier_refund_view 1 1 (Some (Some 20000))
                 (run_op (CreateReturn 1 (Some 20)) credit_scenario_db))) 1
       = Some r'
       /\ pr_status r'
          = PurchaseReturn_new_status
              (fst (add_supplier_refund_view 1 1 (Some (Some 20000))
                      (run_op (CreateReturn 1 (Some 20))
                         credit_scenario_db))) r'
       /\ pr_status r' <> RET_REFUNDED
       /\ pr_status r' <> RET_REPLACED
       /\ (pr_status r' = RET_FULLY_PROCESSED
           <-> value_pending_action
                 (fst (add_supplier_refund_view 1 1 (Some (Some 20000))
                         (run_op (CreateReturn 1 (Some 20))
                            credit_scenario_db))) r' <= 0).
Proof.
  assert (E : add_supplier_refund_view 1 1 (Some (Some 20000))
                (run_op (CreateReturn 1 (Some 20)) credit_scenario_db)
              = (fst (add_supplier_refund_view 1 1 (Some (Some 20000))
                        (run_op (CreateReturn 1 (Some 20))
                           credit_scenario_db)),
                 Ok RedirectWithSuccess)) by (vm_compute; reflexivity).
  split; [exact E|].
  apply (return_status_follows_figures 0 0 1 1 (Some 20000)
           (mkReplacementStockData None "" None)
           (run_op (CreateReturn 1 (Some 20)) credit_scenario_db)).
  left. exact E.
Defined.

Lemma invoice_item_edit_moves_consumption_witness :
  ii_pk edited_line = Some 1
  /\ ii_stock_item edited_line = Some 2
  /\ NoDup (map tx_invoice_item (stock_item_transactions edit_line_db))
  /\ quantity_available edit_line_db batch_A = 80
  /\ quantity_available (fst (InvoiceItem_save edited_line edit_line_db))
       batch_A = 100
  /\ quantity_available (fst (InvoiceItem_save edited_line edit_line_db))
       batch_A2 = 45
  /\ filter (fun t => tx_invoice_item t =? 1)
       (stock_item_transactions
          (fst (InvoiceItem_save edited_line edit_line_db)))
     = [mkStockItemTransaction 1 2 (ii_quantity edited_line)]
  /\ forall b : StockItem,
       quantity_available (fst (InvoiceItem_save edited_line edit_line_db)) b
       = quantity_available edit_line_db b + consumed_by_line edit_line_db 1 b
         - (if si_pk b =? 2 then ii_quantity edited_line else 0).
Proof.
  assert (Hnd : NoDup (map tx_invoice_item
                         (stock_item_transactions edit_line_db))).
  { cbn. constructor; [intros []|constructor]. }
  split; [vm_compute; reflexivity|]. split; [vm_compute; reflexivity|]. split; [exact Hnd|].
  split; [vm_compute; reflexivity|]. split; [vm_compute; reflexivity|]. split; [vm_compute; reflexivity|].
  apply (invoice_item_edit_moves_consumption edit_line_db
           (fst (InvoiceItem_save edited_line edit_line_db))
           edited_line edited_line 1 2 eq_refl eq_refl Hnd).
  vm_compute; reflexivity.
Defined.

Lemma create_return_view_keeps_available_witness :
  NoDup (map si_pk (stock_items edit_line_db))
  /\ (forall s, In s (stock_items edit_line_db) ->
        0 <= quantity_available edit_line_db s)
  /\ snd (create_return_view 1 (Some (Some 80)) edit_line_db)
     = Ok RedirectWithSuccess
  /\ snd (create_return_view 1 (Some (Some 81)) edit_line_db) = Ok RenderForm
  /\ forall s,
       In s (stock_items
               (fst (create_return_view 1 (Some (Some 80)) edit_line_db))) ->
       0 <= quantity_available
              (fst (create_return_view 1 (Some (Some 80)) edit_line_db)) s.
Proof.
  assert (Hnd : NoDup (map si_pk (stock_items edit_line_db))).
  { cbn. constructor.
    - intros [H|[]]. discriminate.
    - constructor; [intros []|constructor]. }
  assert (Hav : forall s, In s (stock_items edit_line_db) ->
              0 <= quantity_available edit_line_db s).
  { intros s [<-|[<-|[]]]; cbn; lia. }
  split; [exact Hnd|]. split; [exact Hav|]. split; [vm_compute; reflexivity|].
  split; [vm_compute; reflexivity|].
  apply (create_return_view_keeps_available 1 (Some 80) edit_line_db
           Hnd Hav).
Defined.

Lemma next_invoice_number_is_sequential_witness :
  (forall s, In s day_numbers ->
     like_startswith (invoice_prefix "250101") s = true ->
     exists n, 1 <= n <= 9998 /\ s = invoice_number_of "250101" n)
  /\ exists n,
       1 <= n <= 9999
       /\ next_invoice_number "250101" day_numbers
          = invoice_number_of "250101" n
       /\ (n = 1 \/ In (invoice_number_of "250101" (n - 1)) day_numbers)
       /\ (forall m, 1 <= m <= 9998 ->
             In (invoice_number_of "250101" m) day_numbers -> m < n)
       /\ ~ In (next_invoice_number "250101" day_numbers) day_numbers.
Proof.
  assert (H : forall s, In s day_numbers ->
                like_startswith (invoice_prefix "250101") s = true ->
                exists n, 1 <= n <= 9998 /\ s = invoice_number_of "250101" n).
  { intros s [<-|[<-|[<-|[]]]] Hlike.
    - exists 1. split; [lia|]. vm_compute; reflexivity.
    - exists 2. split; [lia|]. vm_compute; reflexivity.
    - vm_compute in Hlike. discriminate. }
  split; [exact H|].
  apply (next_invoice_number_is_sequential "250101" day_numbers H).
Defined.

Lemma next_invoice_number_repeats_after_9999_witness :
  (forall s, In s full_day_numbers ->
     like_startswith (invoice_prefix "250101") s = true ->
     exists n, 1 <= n <= 10000 /\ s = invoice_number_of "250101" n)
  /\ In (invoice_number_of "250101" 9999) full_day_numbers
  /\ next_invoice_number "250101" full_day_numbers
     = invoice_number_of "250101" 10000
  /\ (In (invoice_number_of "250101" 10000) full_day_numbers ->
      In (next_invoice_number "250101" full_day_numbers) full_day_numbers).
Proof.
  assert (H : forall s, In s full_day_numbers ->
                like_startswith (invoice_prefix "250101") s = true ->
                exists n, 1 <= n <= 10000
                          /\ s = invoice_number_of "250101" n).
  { intros s [<-|[<-|[]]] _.
    - exists 9999. split; [lia|]. vm_compute; reflexivity.
    - exists 10000. split; [lia|]. vm_compute; reflexivity. }
  assert (H9 : In (invoice_number_of "250101" 9999) full_day_numbers)
    by (left; vm_compute; reflexivity).
  split; [exact H|]. split; [exact H9|].
  apply (next_invoice_number_repeats_after_9999 "250101" full_day_numbers
           H H9).
Defined.
